(** * f-image-go: the request plumbing of the client library

    A shallow embedding of the shared transport of the F-Image Go SDK
    ([Client.request], [Client.requestWithQuery], [Client.uploadMultipart],
    [parseAPIError], the status predicates) and of the service methods that
    funnel through it, with the properties the specification states about
    them.

    Go's standard library is not part of the repository.  What the client
    takes from it (encoding/json, net/http, net/url, mime/multipart, the
    network itself) is an interface here: the type classes [Platform],
    [Marshaler] and [Unmarshaler].  Every statement is proved for all their instances. *)

From Stdlib Require Import ZArith Ascii.
From stdpp Require Import base option list gmap strings pretty.

Local Open Scope string_scope.
Local Open Scope Z_scope.

(** ** Go values

    A Go [string] and a [[]byte] are both byte sequences, and [string(body)]
    converts without changing a byte: both are [string] here.  Go's [int]
    and [int64] are [Z]; the client only compares and prints them. *)

Definition bytes := string.

(** [len(s)], of a string or of a byte slice. *)
Definition len (s : string) : Z := Z.of_nat (String.length s).

(** [strconv.FormatInt(n, 10)], [strconv.Itoa(n)] and the verb [%d]. *)
Definition FormatInt (n : Z) : string := pretty n.

(** The string of one double quote. *)
Definition dq : string := String "034"%char "".

(** ** Errors (the error interface, [errors.As], [errors.Is])

    The package-level error values of the repository are [errors.New]
    values, compared by identity: [Sentinel] names them. *)

Inductive Sentinel :=
| ErrUnauthorized | ErrNotFound | ErrBadRequest | ErrForbidden
| ErrQuotaExceeded | ErrFileTooLarge | ErrInvalidFormat.

#[global] Instance Sentinel_eq_dec : EqDecision Sentinel.
Proof. solve_decision. Defined.

Definition Sentinel_text (s : Sentinel) : string :=
  match s with
  | ErrUnauthorized => "unauthorized: invalid or missing API token"
  | ErrNotFound => "not found: the requested resource does not exist"
  | ErrBadRequest => "bad request: invalid request parameters"
  | ErrForbidden => "forbidden: access denied"
  | ErrQuotaExceeded => "quota exceeded: storage limit reached"
  | ErrFileTooLarge => "file too large: exceeds maximum file size"
  | ErrInvalidFormat => "invalid format: file type not allowed"
  end.

(** [APIError]: an error returned by the F-Image API. *)
Record APIError := mkAPIError {
  StatusCode : Z;
  Message : string
}.

(** A non-nil [error].  [errString] is a value made on the spot by
    [fmt.Errorf] without [%w] (or any leaf error of the standard library):
    it is identical to no sentinel and has nothing to unwrap.  [errWrap] is
    [fmt.Errorf] with [%w], or any error of the standard library with an
    [Unwrap] method.  [errAPI] is a [*APIError].  A nil [error] is [None]
    of [option error]. *)
Inductive error :=
| errSentinel (s : Sentinel)
| errString (msg : string)
| errWrap (msg : string) (inner : error)
| errAPI (e : APIError).

(** [APIError.Error], the method of the error interface. *)
Definition APIError_Error (e : APIError) : string :=
  "f-image API error (status " ++ FormatInt (StatusCode e) ++ "): " ++ Message e.

(** [err.Error()]. *)
Definition Error (err : error) : string :=
  match err with
  | errSentinel s => Sentinel_text s
  | errString msg => msg
  | errWrap msg _ => msg
  | errAPI e => APIError_Error e
  end.

(** [fmt.Errorf("<prefix>")] *)
Definition Errorf (msg : string) : error := errString msg.

(** [fmt.Errorf("<prefix>%w", err)] *)
Definition Errorf_w (prefix : string) (err : error) : error :=
  errWrap (prefix ++ Error err) err.

(** [errors.As(err, &apiErr)] with [apiErr] a [*APIError]: the first
    [*APIError] on the unwrap chain. *)
Fixpoint errors_As (err : error) : option APIError :=
  match err with
  | errAPI e => Some e
  | errWrap _ inner => errors_As inner
  | errSentinel _ | errString _ => None
  end.

(** [errors.Is(err, target)] for a sentinel [target]. *)
Fixpoint errors_Is (err : error) (target : Sentinel) : bool :=
  match err with
  | errSentinel s => bool_decide (s = target)
  | errWrap _ inner => errors_Is inner target
  | errString _ | errAPI _ => false
  end.

(** The status predicates take an [error] that may be nil; [errors.As] and
    [errors.Is] are both false on nil. *)
Definition status_predicate (p : Z -> bool) (target : Sentinel)
    (err : option error) : bool :=
  match err with
  | None => false
  | Some e =>
      match errors_As e with
      | Some apiErr => p (StatusCode apiErr)
      | None => errors_Is e target
      end
  end.

Definition IsNotFound : option error -> bool :=
  status_predicate (fun code => code =? 404) ErrNotFound.

Definition IsUnauthorized : option error -> bool :=
  status_predicate (fun code => code =? 401) ErrUnauthorized.

Definition IsForbidden : option error -> bool :=
  status_predicate (fun code => code =? 403) ErrForbidden.

Definition IsBadRequest : option error -> bool :=
  status_predicate (fun code => code =? 400) ErrBadRequest.

Definition IsQuotaExceeded : option error -> bool :=
  status_predicate (fun code => (code =? 402) || (code =? 413)) ErrQuotaExceeded.

(** What a Go function with results [(T, error)] returns. *)
Inductive Result (T : Type) :=
| ok (v : T)
| fail (err : error).
Arguments ok {T} v.
Arguments fail {T} err.

(** ** Requests, responses and the platform *)

(** [http.Header], [url.Values]: [map[string][]string]. *)
Abbreviation Header := (gmap string (list string)).
Abbreviation Values := (gmap string (list string)).

(** [h.Set(key, value)].  The keys the client sets are already in the
    canonical form [http.Header] stores. *)
Definition Header_Set (h : Header) (key value : string) : Header :=
  <[key := [value]]> h.

(** [v.Set(key, value)] on [url.Values]. *)
Definition Values_Set (v : Values) (key value : string) : Values :=
  <[key := [value]]> v.

(** The part of an [*http.Request] the client decides: method, absolute
    URL, header and the bytes of the body ([None] for a nil body reader). *)
Record Request := mkRequest {
  Method : string;
  URL : string;
  Header_ : Header;
  Body : option bytes
}.

(** An [*http.Response] as the client reads it: the status code and what
    [io.ReadAll(resp.Body)] returns. *)
Record Response := mkResponse {
  resp_StatusCode : Z;
  resp_Body : bytes + error
}.

(** A part of a multipart form, as [multipart.Writer] is asked to write it:
    [CreateFormFile(fieldname, filename)] followed by the bytes written to
    the part, or [WriteField(fieldname, value)]. *)
Inductive Part :=
| FormFile (fieldname filename : string) (content : bytes)
| FormField (fieldname value : string).

(** A [*multipart.Writer] over a buffer: its boundary, the parts written so
    far in order, and whether [Close] wrote the final boundary. *)
Record Writer := mkWriter {
  Boundary : string;
  parts : list Part;
  closed : bool
}.

(** The standard library and the runtime, as the client uses them. *)
Class Platform := {
  (** [http.StatusText] *)
  http_StatusText : Z -> string;
  (** [http.NewRequestWithContext(ctx, method, url, body)]: the error for
      an invalid method or an unparsable URL, if any. *)
  http_NewRequest : string -> string -> option error;
  (** [url.Values.Encode] *)
  Values_Encode : Values -> string;
  (** The boundary [multipart.NewWriter] draws at random. *)
  random_boundary : nat -> string;
  (** The bytes a [multipart.Writer] has put in its buffer. *)
  multipart_bytes : Writer -> bytes;
  (** The order in which [range] visits a map: any permutation of its
      entries. *)
  map_range : nat -> gmap string string -> list (string * string);
  map_range_perm : ∀ n m, map_range n m ≡ₚ map_to_list m
}.

(** [encoding/json] on a Go type: [json.Marshal(v)], and
    [json.Unmarshal(data, &v)], which returns the value left in [v] and the
    error. *)
Class Marshaler (A : Type) := json_Marshal : A -> bytes + error.
Class Unmarshaler (A : Type) := json_Unmarshal : bytes -> A -> A * option error.

(** The zero value of a Go type. *)
Class Zero (A : Type) := zero : A.

(** A non-nil [interface{}] that is marshalled: a value with its dynamic
    type. *)
Inductive any : Type :=
| Any {B : Type} `{Marshaler B} (b : B).

Definition any_Marshal (v : any) : bytes + error :=
  match v with
  | Any b => json_Marshal b
  end.

(** ** The world a call runs in

    [sent] lists the requests handed to [HTTPClient.Do] so far, oldest
    first: a call performs no network call exactly when it leaves [sent] as
    it was.  [entropy] counts the random draws of the runtime (multipart
    boundaries, map iteration orders). *)
Record World := mkWorld {
  sent : list Request;
  entropy : nat
}.

Definition M (A : Type) : Type := World -> A * World.

#[global] Instance M_ret : MRet M := fun A a w => (a, w).

#[global] Instance M_bind : MBind M :=
  fun A B k m w => let '(a, w') := m w in k a w'.

(** ** Response types (types.go) *)

(** [time.Time] as decoded from JSON: an instant in nanoseconds from the
    zero time and an offset from UTC in seconds. *)
Record Time := mkTime {
  instant : Z;
  offset : Z
}.

Record UploadData := mkUploadData {
  UploadData_ID : Z;
  UploadData_URL : string;
  UploadData_MediumURL : option string;
  UploadData_ThumbnailURL : option string;
  UploadData_OriginalName : string;
  UploadData_Description : string;
  UploadData_Size : Z;
  UploadData_Width : Z;
  UploadData_Height : Z;
  UploadData_MimeType : string;
  UploadData_IsFlash : bool
}.

Record UploadResponse := mkUploadResponse {
  UploadResponse_Success : bool;
  UploadResponse_Status : Z;
  UploadResponse_Data : option UploadData
}.

Record ShareLink := mkShareLink {
  ShareLink_ID : Z;
  ShareLink_Token : string;
  ShareLink_ShareURL : string;
  ShareLink_FileID : option Z;
  ShareLink_AlbumID : option Z;
  ShareLink_FileName : option string;
  ShareLink_AlbumName : option string;
  ShareLink_HasPassword : bool;
  ShareLink_ExpiresAt : option Time;
  ShareLink_MaxViews : option Z;
  ShareLink_ViewCount : Z;
  ShareLink_IsActive : bool;
  ShareLink_CreatedAt : Time
}.

Record FailedDeletion := mkFailedDeletion {
  FailedDeletion_FileID : Z;
  FailedDeletion_FileName : string;
  FailedDeletion_Reason : string;
  FailedDeletion_ShareLinks : list ShareLink
}.

Record DeleteResult := mkDeleteResult {
  DeleteResult_Success : bool;
  DeleteResult_Message : string;
  DeleteResult_DeletedCount : Z;
  DeleteResult_FailedCount : Z;
  DeleteResult_FailedDeletions : list FailedDeletion
}.

Record BatchDeleteResponse := mkBatchDeleteResponse {
  BatchDeleteResponse_Deleted : Z;
  BatchDeleteResponse_Failed : Z;
  BatchDeleteResponse_Message : string
}.

Record RestoreResponse := mkRestoreResponse {
  RestoreResponse_Message : string;
  RestoreResponse_Restored : Z;
  RestoreResponse_Failed : Z
}.

Record MessageResponse := mkMessageResponse {
  MessageResponse_Message : string;
  MessageResponse_Info : string
}.

#[global] Instance Time_zero : Zero Time := mkTime 0 0.
#[global] Instance UploadResponse_zero : Zero UploadResponse :=
  mkUploadResponse false 0 None.
#[global] Instance ShareLink_zero : Zero ShareLink :=
  mkShareLink 0 "" "" None None None None false None None 0 false zero.
#[global] Instance DeleteResult_zero : Zero DeleteResult :=
  mkDeleteResult false "" 0 0 [].
#[global] Instance BatchDeleteResponse_zero : Zero BatchDeleteResponse :=
  mkBatchDeleteResponse 0 0 "".
#[global] Instance RestoreResponse_zero : Zero RestoreResponse :=
  mkRestoreResponse "" 0 0.
#[global] Instance MessageResponse_zero : Zero MessageResponse :=
  mkMessageResponse "" "".

(** ** Option and request-body types *)

(** [UploadOptions] (files.go) *)
Record UploadOptions := mkUploadOptions {
  Filename : string;
  Description : string;
  UploadOptions_AlbumID : option Z
}.

#[global] Instance UploadOptions_zero : Zero UploadOptions :=
  mkUploadOptions "" "" None.

(** [CreateShareOptions] (share.go) *)
Record CreateShareOptions := mkCreateShareOptions {
  FileID : option Z;
  AlbumID : option Z;
  Password : string;
  ExpiresIn : Z;
  MaxViews : Z
}.

(** The anonymous struct [Share.Create] marshals; it has the fields of
    [CreateShareOptions], all tagged [omitempty]. *)
Record createShareBody := mkCreateShareBody {
  body_FileID : option Z;
  body_AlbumID : option Z;
  body_Password : string;
  body_ExpiresIn : Z;
  body_MaxViews : Z
}.

(** The anonymous struct [{FileIDs []int64 `json:"file_ids"`}] that
    [Files.BatchDelete] and [Trash.RestoreMany] marshal. *)
Record fileIDsBody := mkFileIDsBody {
  fileIDs : list Z
}.

(** The anonymous struct [Files.MoveMany] marshals. *)
Record moveManyBody := mkMoveManyBody {
  move_FileIDs : list Z;
  move_AlbumID : option Z
}.

(** The anonymous struct [parseAPIError] decodes into. *)
Record errResp := mkErrResp {
  errResp_Error : string;
  errResp_Message : string
}.

#[global] Instance errResp_zero : Zero errResp := mkErrResp "" "".

(** An [io.Reader]: the chunks its successive [Read] calls will return,
    then [io.EOF] ([None]) or an error. *)
Record Reader := mkReader {
  chunks : list bytes;
  final : option error
}.

(** [Client] (client.go).  [HTTPClient] is [c.HTTPClient.Do]: what the
    round trip of a request returns, given the requests made before it;
    the error covers network failure, cancellation and timeout. *)
Record Client := mkClient {
  BaseURL : string;
  HTTPClient : list Request -> Request -> Response + error;
  apiToken : string;
  userAgent : string
}.

(** ** mime/multipart and io, on the model of a writer *)

(** [multipart.NewWriter(&buf)] draws a fresh boundary. *)
Definition NewWriter `{Platform} : M Writer :=
  fun w => (mkWriter (random_boundary (entropy w)) [] false,
            mkWorld (sent w) (S (entropy w))).

(** [for key, value := range fields]: the entries in the order of this
    run. *)
Definition range `{Platform} (fields : gmap string string)
    : M (list (string * string)) :=
  fun w => (map_range (entropy w) fields, mkWorld (sent w) (S (entropy w))).

(** [writer.CreateFormFile(fieldname, filename)]: a new, empty file part;
    the writer returned stands for the part as well, which is its last. *)
Definition CreateFormFile (wr : Writer) (fieldname filename : string) : Writer :=
  mkWriter (Boundary wr) (parts wr ++ [FormFile fieldname filename ""]) (closed wr).

(** More bytes at the end of what a part holds. *)
Definition Part_append (p : Part) (data : bytes) : Part :=
  match p with
  | FormFile fieldname filename content => FormFile fieldname filename (content ++ data)
  | FormField fieldname value => FormField fieldname (value ++ data)
  end.

(** The bytes go to the part that was created last. *)
Fixpoint write_last (ps : list Part) (data : bytes) : list Part :=
  match ps with
  | [] => []
  | p :: ps' =>
      match ps' with
      | [] => [Part_append p data]
      | _ :: _ => p :: write_last ps' data
      end
  end.

(** [part.Write(data)]: the bytes go to the end of the last part. *)
Definition Part_Write (wr : Writer) (data : bytes) : Writer :=
  mkWriter (Boundary wr) (write_last (parts wr) data) (closed wr).

(** The loop of [io.Copy(part, reader)]: each chunk read is written at
    once. *)
Fixpoint copy_chunks (wr : Writer) (cs : list bytes) : Writer :=
  match cs with
  | [] => wr
  | chunk :: cs' => copy_chunks (Part_Write wr chunk) cs'
  end.

(** [io.Copy(part, reader)]: the writer after the copy, the reader as the
    copy leaves it (drained), and the error if the reader ended in one. *)
Definition io_Copy (wr : Writer) (reader : Reader) : Writer * Reader * option error :=
  (copy_chunks wr (chunks reader), mkReader [] (final reader), final reader).

(** [writer.WriteField(fieldname, value)] *)
Definition WriteField (wr : Writer) (fieldname value : string) : Writer :=
  mkWriter (Boundary wr) (parts wr ++ [FormField fieldname value]) (closed wr).

(** [writer.Close()] *)
Definition Writer_Close (wr : Writer) : Writer :=
  mkWriter (Boundary wr) (parts wr) true.

(** [strings.ContainsAny(s, chars)] *)
Definition ContainsAny (s chars : string) : bool :=
  existsb (fun ch => existsb (Ascii.eqb ch) (String.list_ascii_of_string chars))
    (String.list_ascii_of_string s).

(** The characters that make [FormDataContentType] quote a boundary: the
    tspecials of RFC 2045 and the space. *)
Definition tspecials : string := "()<>@,;:\" ++ dq ++ "/[]?= ".

(** [writer.FormDataContentType()] *)
Definition FormDataContentType (wr : Writer) : string :=
  let b := Boundary wr in
  let b := if ContainsAny b tspecials then dq ++ b ++ dq else b in
  "multipart/form-data; boundary=" ++ b.

(** ** The transport (client.go) *)

Section Transport.
Context `{Platform}.
Context `{!Unmarshaler errResp}.

(** [parseAPIError] *)
Definition parseAPIError (statusCode : Z) (body : bytes) : error :=
  let '(errResp, err) := json_Unmarshal body (zero : errResp) in
  match err with
  | Some _ => errAPI (mkAPIError statusCode body)
  | None =>
      let msg := errResp_Error errResp in
      let msg := if decide (msg = "") then errResp_Message errResp else msg in
      let msg := if decide (msg = "") then http_StatusText statusCode else msg in
      errAPI (mkAPIError statusCode msg)
  end.

(** [c.HTTPClient.Do(req)]: the one place a request leaves the client. *)
Definition Do (c : Client) (req : Request) : M (Response + error) :=
  fun w => (HTTPClient c (sent w) req, mkWorld (sent w ++ [req]) (entropy w)).

(** [Client.request].  [result] is the destination pointer ([None] for
    nil) with the value it points to; the first component returned is the
    destination after the call. *)
Definition request {D : Type} `{!Unmarshaler D} (c : Client)
    (method path : string) (body : option any) (result : option D)
    : M (option D * option error) :=
  let reqURL := BaseURL c ++ path in
  let marshalled : option bytes + error :=
    match body with
    | Some b =>
        match any_Marshal b with
        | inl jsonBody => inl (Some jsonBody)
        | inr err => inr err
        end
    | None => inl None
    end in
  match marshalled with
  | inr err => mret (result, Some (Errorf_w "failed to marshal request body: " err))
  | inl bodyReader =>
      match http_NewRequest method reqURL with
      | Some err => mret (result, Some (Errorf_w "failed to create request: " err))
      | None =>
          let header : Header := ∅ in
          let header := Header_Set header "Authorization" ("Bearer " ++ apiToken c) in
          let header := Header_Set header "User-Agent" (userAgent c) in
          let header :=
            if body is Some _
            then Header_Set header "Content-Type" "application/json"
            else header in
          let header := Header_Set header "Accept" "application/json" in
          let req := mkRequest method reqURL header bodyReader in
          resp ← Do c req;
          match resp with
          | inr err => mret (result, Some (Errorf_w "request failed: " err))
          | inl resp =>
              match resp_Body resp with
              | inr err =>
                  mret (result, Some (Errorf_w "failed to read response body: " err))
              | inl respBody =>
                  if (resp_StatusCode resp <? 200) || (resp_StatusCode resp >=? 300)
                  then mret (result, Some (parseAPIError (resp_StatusCode resp) respBody))
                  else
                    match result with
                    | Some dest =>
                        if len respBody >? 0 then
                          let '(dest', err) := json_Unmarshal respBody dest in
                          match err with
                          | Some err =>
                              mret (Some dest',
                                    Some (Errorf_w "failed to decode response: " err))
                          | None => mret (Some dest', None)
                          end
                        else mret (result, None)
                    | None => mret (result, None)
                    end
              end
          end
      end
  end.

(** [Client.requestWithQuery] *)
Definition requestWithQuery {D : Type} `{!Unmarshaler D} (c : Client)
    (path : string) (query : Values) (result : option D)
    : M (option D * option error) :=
  let path :=
    if Z.of_nat (size query) >? 0
    then path ++ "?" ++ Values_Encode query
    else path in
  request c "GET" path None result.

(** [Client.uploadMultipart].  The multipart writer writes into a
    [bytes.Buffer], whose [Write] returns no error: of the writer's error
    returns only the copy from the reader can happen. *)
Definition uploadMultipart (c : Client) (path : string) (reader : Reader)
    (filename : string) (fields : gmap string string) : M (Result bytes) :=
  writer ← NewWriter;
  let part := CreateFormFile writer "file" filename in
  let '(writer, _, err) := io_Copy part reader in
  match err with
  | Some err => mret (fail (Errorf_w "failed to copy file data: " err))
  | None =>
      entries ← range fields;
      let writer := foldl (fun wr kv => WriteField wr kv.1 kv.2) writer entries in
      let writer := Writer_Close writer in
      let reqURL := BaseURL c ++ path in
      match http_NewRequest "POST" reqURL with
      | Some err => mret (fail (Errorf_w "failed to create request: " err))
      | None =>
          let header : Header := ∅ in
          let header := Header_Set header "Authorization" ("Bearer " ++ apiToken c) in
          let header := Header_Set header "User-Agent" (userAgent c) in
          let header := Header_Set header "Content-Type" (FormDataContentType writer) in
          let header := Header_Set header "Accept" "application/json" in
          let req := mkRequest "POST" reqURL header (Some (multipart_bytes writer)) in
          resp ← Do c req;
          match resp with
          | inr err => mret (fail (Errorf_w "request failed: " err))
          | inl resp =>
              match resp_Body resp with
              | inr err => mret (fail (Errorf_w "failed to read response body: " err))
              | inl respBody =>
                  if (resp_StatusCode resp <? 200) || (resp_StatusCode resp >=? 300)
                  then mret (fail (parseAPIError (resp_StatusCode resp) respBody))
                  else mret (ok respBody)
              end
          end
      end
  end.

End Transport.

(** ** The service methods the properties are about *)

Section Services.
Context `{Platform}.
Context `{!Unmarshaler errResp}.
Context `{!Unmarshaler UploadResponse, !Unmarshaler MessageResponse,
          !Unmarshaler BatchDeleteResponse, !Unmarshaler RestoreResponse,
          !Unmarshaler DeleteResult, !Unmarshaler ShareLink}.
Context `{!Marshaler fileIDsBody, !Marshaler moveManyBody,
          !Marshaler createShareBody}.

(** The end of every method that decodes into a local [resp]:
    [if err != nil { return nil, err }; return &resp, nil]. *)
Definition returning {D : Type} `{!Zero D} (r : option D * option error) : Result D :=
  match r.2 with
  | Some err => fail err
  | None => ok (default zero r.1)
  end.

(** [FilesService.Upload] *)
Definition Files_Upload (c : Client) (reader : Reader)
    (opts : option UploadOptions) : M (Result UploadResponse) :=
  let opts := default (zero : UploadOptions) opts in
  let filename := Filename opts in
  let filename := if decide (filename = "") then "image.jpg" else filename in
  let fields : gmap string string := ∅ in
  let fields :=
    if decide (Description opts = "") then fields
    else <["description" := Description opts]> fields in
  r ← uploadMultipart c "/api/files/upload" reader filename fields;
  match r with
  | fail err => mret (fail err)
  | ok respBody =>
      let '(resp, err) := json_Unmarshal respBody (zero : UploadResponse) in
      match err with
      | Some err => mret (fail (Errorf_w "failed to decode response: " err))
      | None => mret (ok resp)
      end
  end.

(** [FilesService.Delete] *)
Definition Files_Delete (c : Client) (fileID : Z) : M (Result MessageResponse) :=
  let path := "/api/files/" ++ FormatInt fileID in
  r ← request c "DELETE" path None (Some zero);
  mret (returning r).

(** [FilesService.BatchDelete] *)
Definition Files_BatchDelete (c : Client) (fileIDs : list Z)
    : M (Result BatchDeleteResponse) :=
  let req := mkFileIDsBody fileIDs in
  r ← request c "POST" "/api/files/batch-delete" (Some (Any req)) (Some zero);
  mret (returning r).

(** [FilesService.Move] *)
Definition Files_Move (c : Client) (fileID : Z) (albumID : option Z)
    : M (Result MessageResponse) :=
  let path := "/api/files/" ++ FormatInt fileID ++ "/move" in
  let query : Values := ∅ in
  let query :=
    if albumID is Some a then Values_Set query "album_id" (FormatInt a)
    else query in
  let path :=
    if Z.of_nat (size query) >? 0
    then path ++ "?" ++ Values_Encode query
    else path in
  r ← request c "PUT" path None (Some zero);
  mret (returning r).

(** [FilesService.MoveMany] *)
Definition Files_MoveMany (c : Client) (fileIDs : list Z) (albumID : option Z)
    : M (Result MessageResponse) :=
  let req := mkMoveManyBody fileIDs albumID in
  r ← request c "PUT" "/api/files/move" (Some (Any req)) (Some zero);
  mret (returning r).

(** [TrashService.Restore] *)
Definition Trash_Restore (c : Client) (fileID : Z) : M (Result RestoreResponse) :=
  let path := "/api/trash/" ++ FormatInt fileID ++ "/restore" in
  r ← request c "POST" path None (Some zero);
  mret (returning r).

(** [TrashService.RestoreMany] *)
Definition Trash_RestoreMany (c : Client) (fileIDs : list Z)
    : M (Result RestoreResponse) :=
  let req := mkFileIDsBody fileIDs in
  r ← request c "POST" "/api/trash/restore" (Some (Any req)) (Some zero);
  mret (returning r).

(** [TrashService.PermanentDelete] *)
Definition Trash_PermanentDelete (c : Client) (fileID : Z) : M (Result DeleteResult) :=
  let path := "/api/trash/" ++ FormatInt fileID in
  r ← request c "DELETE" path None (Some zero);
  mret (returning r).

(** [ShareService.Create] *)
Definition Share_Create (c : Client) (opts : option CreateShareOptions)
    : M (Result ShareLink) :=
  match opts with
  | None => mret (fail (Errorf "either FileID or AlbumID is required"))
  | Some opts =>
      if bool_decide (FileID opts = None) && bool_decide (AlbumID opts = None)
      then mret (fail (Errorf "either FileID or AlbumID is required"))
      else
        let req := mkCreateShareBody (FileID opts) (AlbumID opts) (Password opts)
                     (ExpiresIn opts) (MaxViews opts) in
        r ← request c "POST" "/api/shares" (Some (Any req)) (Some zero);
        mret (returning r)
  end.

End Services.

(** ** The rest of the library

    The other response, option and request-body types, and the methods of
    the five services that the sections above leave out. *)

Record File := mkFile {
  File_ID : Z;
  File_AlbumID : option Z;
  File_AlbumName : option string;
  File_OriginalName : string;
  File_Description : string;
  File_URL : string;
  File_MediumURL : option string;
  File_ThumbnailURL : option string;
  File_Size : Z;
  File_Width : Z;
  File_Height : Z;
  File_MimeType : string;
  File_CreatedAt : string;
  File_DeletedAt : option string
}.

Record FilesListResponse := mkFilesListResponse {
  FilesListResponse_Files : list File;
  FilesListResponse_Total : Z;
  FilesListResponse_Page : Z;
  FilesListResponse_Limit : Z;
  FilesListResponse_AlbumID : option Z;
  FilesListResponse_Query : string
}.

Record Album := mkAlbum {
  Album_ID : Z;
  Album_Name : string;
  Album_Description : string;
  Album_FileCount : Z;
  Album_CreatedAt : string
}.

(** The anonymous struct [{Albums []Album `json:"albums"`}] that
    [Albums.List] decodes into. *)
Record albumsResp := mkAlbumsResp {
  albumsResp_Albums : list Album
}.

Record Tag := mkTag {
  Tag_ID : Z;
  Tag_Name : string;
  Tag_Color : string;
  Tag_FileCount : Z
}.

Record SharesListResponse := mkSharesListResponse {
  SharesListResponse_Shares : list ShareLink;
  SharesListResponse_Total : Z;
  SharesListResponse_Page : Z;
  SharesListResponse_Limit : Z
}.

Record SharedContent := mkSharedContent {
  SharedContent_Type : string;
  SharedContent_File : option File;
  SharedContent_Album : option Album;
  SharedContent_Files : list File;
  SharedContent_RequiresPassword : bool
}.

Record TrashListResponse := mkTrashListResponse {
  TrashListResponse_Files : list File;
  TrashListResponse_Total : Z;
  TrashListResponse_Page : Z;
  TrashListResponse_Limit : Z
}.

#[global] Instance FilesListResponse_zero : Zero FilesListResponse :=
  mkFilesListResponse [] 0 0 0 None "".
#[global] Instance Album_zero : Zero Album := mkAlbum 0 "" "" 0 "".
#[global] Instance albumsResp_zero : Zero albumsResp := mkAlbumsResp [].
#[global] Instance Tag_zero : Zero Tag := mkTag 0 "" "" 0.
#[global] Instance Tags_zero : Zero (list Tag) := [].
#[global] Instance SharesListResponse_zero : Zero SharesListResponse :=
  mkSharesListResponse [] 0 0 0.
#[global] Instance SharedContent_zero : Zero SharedContent :=
  mkSharedContent "" None None [] false.
#[global] Instance TrashListResponse_zero : Zero TrashListResponse :=
  mkTrashListResponse [] 0 0 0.

(** [CreateAlbumOptions] (albums.go) *)
Record CreateAlbumOptions := mkCreateAlbumOptions {
  CreateAlbumOptions_Name : string;
  CreateAlbumOptions_Description : string
}.

(** [UpdateAlbumOptions] (albums.go) *)
Record UpdateAlbumOptions := mkUpdateAlbumOptions {
  UpdateAlbumOptions_Name : string;
  UpdateAlbumOptions_Description : string
}.

(** [ListOptions] (files.go) *)
Record ListOptions := mkListOptions {
  ListOptions_Page : Z;
  ListOptions_Limit : Z;
  ListOptions_AlbumID : option Z
}.

(** [SearchOptions] (files.go) *)
Record SearchOptions := mkSearchOptions {
  SearchOptions_Query : string;
  SearchOptions_Page : Z;
  SearchOptions_Limit : Z
}.

(** [UpdateShareOptions] (share.go) *)
Record UpdateShareOptions := mkUpdateShareOptions {
  UpdateShareOptions_Password : option string;
  UpdateShareOptions_MaxViews : option Z;
  UpdateShareOptions_IsActive : option bool
}.

(** [ShareListOptions] (share.go) *)
Record ShareListOptions := mkShareListOptions {
  ShareListOptions_Page : Z;
  ShareListOptions_Limit : Z
}.

(** [CreateTagOptions] (tags.go) *)
Record CreateTagOptions := mkCreateTagOptions {
  CreateTagOptions_Name : string;
  CreateTagOptions_Color : string
}.

(** [UpdateTagOptions] (tags.go) *)
Record UpdateTagOptions := mkUpdateTagOptions {
  UpdateTagOptions_Name : string;
  UpdateTagOptions_Color : string
}.

(** [TagFilesOptions] (tags.go) *)
Record TagFilesOptions := mkTagFilesOptions {
  TagFilesOptions_Page : Z;
  TagFilesOptions_Limit : Z
}.

(** [TrashListOptions] (trash.go) *)
Record TrashListOptions := mkTrashListOptions {
  TrashListOptions_Page : Z;
  TrashListOptions_Limit : Z
}.

(** The anonymous struct [Albums.Create] and [Albums.Update] marshal:
    [name], and [description] tagged [omitempty]. *)
Record albumBody := mkAlbumBody {
  albumBody_Name : string;
  albumBody_Description : string
}.

(** The anonymous struct [{URL string `json:"url"`}] of
    [Files.UploadFromURL]. *)
Record uploadFromURLBody := mkUploadFromURLBody {
  uploadFromURLBody_URL : string
}.

(** The anonymous struct [Share.Update] marshals, all fields pointers
    tagged [omitempty]. *)
Record updateShareBody := mkUpdateShareBody {
  updateShareBody_Password : option string;
  updateShareBody_MaxViews : option Z;
  updateShareBody_IsActive : option bool
}.

(** The anonymous struct [{Password string `json:"password"`}] of
    [Share.VerifyPassword]. *)
Record verifyBody := mkVerifyBody {
  verifyBody_Password : string
}.

(** The anonymous struct [Tags.Create] marshals: [name], and [color]
    tagged [omitempty]. *)
Record createTagBody := mkCreateTagBody {
  createTagBody_Name : string;
  createTagBody_Color : string
}.

(** The anonymous struct [Tags.Update] marshals: [name] and [color], both
    tagged [omitempty]. *)
Record updateTagBody := mkUpdateTagBody {
  updateTagBody_Name : string;
  updateTagBody_Color : string
}.

(** The anonymous struct [{FileID, TagID int64}] that [Tags.TagFile] and
    [Tags.UntagFile] marshal. *)
Record tagFileBody := mkTagFileBody {
  tagFileBody_FileID : Z;
  tagFileBody_TagID : Z
}.

Section MoreServices.
Context `{Platform}.
Context `{!Unmarshaler errResp}.
Context `{!Unmarshaler UploadResponse, !Unmarshaler MessageResponse,
          !Unmarshaler DeleteResult, !Unmarshaler ShareLink,
          !Unmarshaler FilesListResponse, !Unmarshaler Album,
          !Unmarshaler albumsResp, !Unmarshaler Tag, !Unmarshaler (list Tag),
          !Unmarshaler SharesListResponse, !Unmarshaler SharedContent,
          !Unmarshaler TrashListResponse}.
Context `{!Marshaler albumBody, !Marshaler uploadFromURLBody,
          !Marshaler updateShareBody, !Marshaler verifyBody,
          !Marshaler createTagBody, !Marshaler updateTagBody,
          !Marshaler tagFileBody}.

(** [AlbumsService.List] *)
Definition Albums_List (c : Client) : M (Result (list Album)) :=
  r ← request c "GET" "/api/albums" None (Some (zero : albumsResp));
  match r.2 with
  | Some err => mret (fail err)
  | None => mret (ok (albumsResp_Albums (default zero r.1)))
  end.

(** [AlbumsService.Get] *)
Definition Albums_Get (c : Client) (albumID : Z) : M (Result Album) :=
  let path := "/api/albums/" ++ FormatInt albumID in
  r ← request c "GET" path None (Some zero);
  mret (returning r).

(** [AlbumsService.Create] *)
Definition Albums_Create (c : Client) (opts : option CreateAlbumOptions)
    : M (Result Album) :=
  match opts with
  | None => mret (fail (Errorf "album name is required"))
  | Some opts =>
      if decide (CreateAlbumOptions_Name opts = "")
      then mret (fail (Errorf "album name is required"))
      else
        let req := mkAlbumBody (CreateAlbumOptions_Name opts)
                     (CreateAlbumOptions_Description opts) in
        r ← request c "POST" "/api/albums" (Some (Any req)) (Some zero);
        mret (returning r)
  end.

(** [AlbumsService.Update] *)
Definition Albums_Update (c : Client) (albumID : Z)
    (opts : option UpdateAlbumOptions) : M (Result Album) :=
  match opts with
  | None => mret (fail (Errorf "album name is required"))
  | Some opts =>
      if decide (UpdateAlbumOptions_Name opts = "")
      then mret (fail (Errorf "album name is required"))
      else
        let path := "/api/albums/" ++ FormatInt albumID in
        let req := mkAlbumBody (UpdateAlbumOptions_Name opts)
                     (UpdateAlbumOptions_Description opts) in
        r ← request c "PUT" path (Some (Any req)) (Some zero);
        mret (returning r)
  end.

(** [AlbumsService.Delete] *)
Definition Albums_Delete (c : Client) (albumID : Z) : M (Result MessageResponse) :=
  let path := "/api/albums/" ++ FormatInt albumID in
  r ← request c "DELETE" path None (Some zero);
  mret (returning r).

(** [FilesService.UploadFromURL] *)
Definition Files_UploadFromURL (c : Client) (imageURL : string)
    : M (Result UploadResponse) :=
  let req := mkUploadFromURLBody imageURL in
  r ← request c "POST" "/api/files/upload_from_url" (Some (Any req)) (Some zero);
  mret (returning r).

(** [FilesService.List] *)
Definition Files_List (c : Client) (opts : option ListOptions)
    : M (Result FilesListResponse) :=
  let query : Values := ∅ in
  let query :=
    match opts with
    | Some opts =>
        let query :=
          if ListOptions_Page opts >? 0
          then Values_Set query "page" (FormatInt (ListOptions_Page opts))
          else query in
        let query :=
          if ListOptions_Limit opts >? 0
          then Values_Set query "limit" (FormatInt (ListOptions_Limit opts))
          else query in
        if ListOptions_AlbumID opts is Some albumID
        then Values_Set query "album_id" (FormatInt albumID)
        else query
    | None => query
    end in
  r ← requestWithQuery c "/api/files" query (Some zero);
  mret (returning r).

(** [FilesService.Search] *)
Definition Files_Search (c : Client) (opts : option SearchOptions)
    : M (Result FilesListResponse) :=
  match opts with
  | None => mret (fail (Errorf "search query is required"))
  | Some opts =>
      if decide (SearchOptions_Query opts = "")
      then mret (fail (Errorf "search query is required"))
      else
        let query : Values := ∅ in
        let query := Values_Set query "q" (SearchOptions_Query opts) in
        let query :=
          if SearchOptions_Page opts >? 0
          then Values_Set query "page" (FormatInt (SearchOptions_Page opts))
          else query in
        let query :=
          if SearchOptions_Limit opts >? 0
          then Values_Set query "limit" (FormatInt (SearchOptions_Limit opts))
          else query in
        r ← requestWithQuery c "/api/files/search" query (Some zero);
        mret (returning r)
  end.

(** [ShareService.List] *)
Definition Share_List (c : Client) (opts : option ShareListOptions)
    : M (Result SharesListResponse) :=
  let query : Values := ∅ in
  let query :=
    match opts with
    | Some opts =>
        let query :=
          if ShareListOptions_Page opts >? 0
          then Values_Set query "page" (FormatInt (ShareListOptions_Page opts))
          else query in
        if ShareListOptions_Limit opts >? 0
        then Values_Set query "limit" (FormatInt (ShareListOptions_Limit opts))
        else query
    | None => query
    end in
  r ← requestWithQuery c "/api/shares" query (Some zero);
  mret (returning r).

(** [ShareService.Update] *)
Definition Share_Update (c : Client) (shareID : Z)
    (opts : option UpdateShareOptions) : M (Result ShareLink) :=
  match opts with
  | None => mret (fail (Errorf "update options are required"))
  | Some opts =>
      let path := "/api/shares/" ++ FormatInt shareID in
      let req := mkUpdateShareBody (UpdateShareOptions_Password opts)
                   (UpdateShareOptions_MaxViews opts)
                   (UpdateShareOptions_IsActive opts) in
      r ← request c "PUT" path (Some (Any req)) (Some zero);
      mret (returning r)
  end.

(** [ShareService.Delete] *)
Definition Share_Delete (c : Client) (shareID : Z) : M (Result MessageResponse) :=
  let path := "/api/shares/" ++ FormatInt shareID in
  r ← request c "DELETE" path None (Some zero);
  mret (returning r).

(** [ShareService.Access] *)
Definition Share_Access (c : Client) (token : string) : M (Result SharedContent) :=
  let path := "/api/s/" ++ token in
  r ← request c "GET" path None (Some zero);
  mret (returning r).

(** [ShareService.VerifyPassword] *)
Definition Share_VerifyPassword (c : Client) (token password : string)
    : M (Result SharedContent) :=
  let path := "/api/s/" ++ token ++ "/verify" in
  let req := mkVerifyBody password in
  r ← request c "POST" path (Some (Any req)) (Some zero);
  mret (returning r).

(** [TagsService.List] *)
Definition Tags_List (c : Client) : M (Result (list Tag)) :=
  r ← request c "GET" "/api/tags" None (Some (zero : list Tag));
  mret (returning r).

(** [TagsService.Create] *)
Definition Tags_Create (c : Client) (opts : option CreateTagOptions)
    : M (Result Tag) :=
  match opts with
  | None => mret (fail (Errorf "tag name is required"))
  | Some opts =>
      if decide (CreateTagOptions_Name opts = "")
      then mret (fail (Errorf "tag name is required"))
      else
        let req := mkCreateTagBody (CreateTagOptions_Name opts)
                     (CreateTagOptions_Color opts) in
        r ← request c "POST" "/api/tags" (Some (Any req)) (Some zero);
        mret (returning r)
  end.

(** [TagsService.Update] *)
Definition Tags_Update (c : Client) (tagID : Z) (opts : option UpdateTagOptions)
    : M (Result Tag) :=
  match opts with
  | None => mret (fail (Errorf "update options are required"))
  | Some opts =>
      let path := "/api/tags/" ++ FormatInt tagID in
      let req := mkUpdateTagBody (UpdateTagOptions_Name opts)
                   (UpdateTagOptions_Color opts) in
      r ← request c "PUT" path (Some (Any req)) (Some zero);
      mret (returning r)
  end.

(** [TagsService.Delete] *)
Definition Tags_Delete (c : Client) (tagID : Z) : M (Result MessageResponse) :=
  let path := "/api/tags/" ++ FormatInt tagID in
  r ← request c "DELETE" path None (Some zero);
  mret (returning r).

(** [TagsService.TagFile] *)
Definition Tags_TagFile (c : Client) (fileID tagID : Z) : M (Result MessageResponse) :=
  let req := mkTagFileBody fileID tagID in
  r ← request c "POST" "/api/tags/file" (Some (Any req)) (Some zero);
  mret (returning r).

(** [TagsService.UntagFile] *)
Definition Tags_UntagFile (c : Client) (fileID tagID : Z)
    : M (Result MessageResponse) :=
  let req := mkTagFileBody fileID tagID in
  r ← request c "DELETE" "/api/tags/file" (Some (Any req)) (Some zero);
  mret (returning r).

(** [TagsService.GetFiles] *)
Definition Tags_GetFiles (c : Client) (tagID : Z) (opts : option TagFilesOptions)
    : M (Result FilesListResponse) :=
  let path := "/api/tags/" ++ FormatInt tagID ++ "/files" in
  let query : Values := ∅ in
  let query :=
    match opts with
    | Some opts =>
        let query :=
          if TagFilesOptions_Page opts >? 0
          then Values_Set query "page" (FormatInt (TagFilesOptions_Page opts))
          else query in
        if TagFilesOptions_Limit opts >? 0
        then Values_Set query "limit" (FormatInt (TagFilesOptions_Limit opts))
        else query
    | None => query
    end in
  let path :=
    if Z.of_nat (size query) >? 0
    then path ++ "?" ++ Values_Encode query
    else path in
  r ← request c "GET" path None (Some zero);
  mret (returning r).

(** [TrashService.List] *)
Definition Trash_List (c : Client) (opts : option TrashListOptions)
    : M (Result TrashListResponse) :=
  let query : Values := ∅ in
  let query :=
    match opts with
    | Some opts =>
        let query :=
          if TrashListOptions_Page opts >? 0
          then Values_Set query "page" (FormatInt (TrashListOptions_Page opts))
          else query in
        if TrashListOptions_Limit opts >? 0
        then Values_Set query "limit" (FormatInt (TrashListOptions_Limit opts))
        else query
    | None => query
    end in
  r ← requestWithQuery c "/api/trash" query (Some zero);
  mret (returning r).

(** [TrashService.Empty] *)
Definition Trash_Empty (c : Client) : M (Result DeleteResult) :=
  r ← request c "DELETE" "/api/trash/empty" None (Some zero);
  mret (returning r).

End MoreServices.

(** ** Share options: the helpers of share.go *)

(** [ShareFile] *)
Definition ShareFile (fileID : Z) : CreateShareOptions :=
  mkCreateShareOptions (Some fileID) None "" 0 0.

(** [ShareAlbum] *)
Definition ShareAlbum (albumID : Z) : CreateShareOptions :=
  mkCreateShareOptions None (Some albumID) "" 0 0.

(** [opts.WithPassword(password)]: the options after the assignment, which
    is also what the method returns. *)
Definition WithPassword (opts : CreateShareOptions) (password : string)
    : CreateShareOptions :=
  mkCreateShareOptions (FileID opts) (AlbumID opts) password (ExpiresIn opts)
    (MaxViews opts).

(** [opts.WithExpiration(hours)] *)
Definition WithExpiration (opts : CreateShareOptions) (hours : Z)
    : CreateShareOptions :=
  mkCreateShareOptions (FileID opts) (AlbumID opts) (Password opts) hours
    (MaxViews opts).

(** [opts.WithMaxViews(maxViews)] *)
Definition WithMaxViews (opts : CreateShareOptions) (maxViews : Z)
    : CreateShareOptions :=
  mkCreateShareOptions (FileID opts) (AlbumID opts) (Password opts)
    (ExpiresIn opts) maxViews.

(** An [int64] product or sum as the machine computes it: reduced into
    [-2^63, 2^63). *)
Definition wrap64 (z : Z) : Z := (z + 2 ^ 63) mod 2 ^ 64 - 2 ^ 63.

(** [time.Hour], a [time.Duration]: nanoseconds, an [int64]. *)
Definition time_Hour : Z := 3600000000000.

(** [t.Add(d)] for an instant and a duration that keep the sum within the
    years [time.Time] represents. *)
Definition Time_Add (t : Time) (d : Z) : Time :=
  mkTime (instant t + d) (offset t).

(** [opts.ExpiresAt()], with what [time.Now()] returns. *)
Definition ExpiresAt (opts : CreateShareOptions) (now : Time) : option Time :=
  if ExpiresIn opts <=? 0 then None
  else Some (Time_Add now (wrap64 (ExpiresIn opts * time_Hour))).

(** ** The construction of the client (client.go) *)

(** [strings.HasSuffix(s, suffix)] *)
Fixpoint HasSuffix (s suffix : string) : bool :=
  String.eqb s suffix ||
  match s with
  | EmptyString => false
  | String _ s' => HasSuffix s' suffix
  end.

(** [s[:n]] *)
Fixpoint slice_to (s : string) (n : nat) : string :=
  match n, s with
  | S n', String a s' => String a (slice_to s' n')
  | _, _ => ""
  end.

(** [strings.TrimSuffix(s, suffix)] *)
Definition TrimSuffix (s suffix : string) : string :=
  if HasSuffix s suffix
  then slice_to s (String.length s - String.length suffix)
  else s.

Definition DefaultBaseURL : string := "https://f-image.com".

(** [DefaultTimeout], 30 seconds as a [time.Duration]. *)
Definition DefaultTimeout : Z := 30 * 1000000000.

Definition Version : string := "1.0.0".

(** [ClientOption]: a function that configures the client it is given.
    The model returns the client configured. *)
Definition ClientOption : Type := Client -> Client.

(** [WithBaseURL] *)
Definition WithBaseURL (baseURL : string) : ClientOption :=
  fun c => mkClient (TrimSuffix baseURL "/") (HTTPClient c) (apiToken c) (userAgent c).

(** [WithHTTPClient] *)
Definition WithHTTPClient
    (httpClient : list Request -> Request -> Response + error) : ClientOption :=
  fun c => mkClient (BaseURL c) httpClient (apiToken c) (userAgent c).

(** [WithUserAgent] *)
Definition WithUserAgent (ua : string) : ClientOption :=
  fun c => mkClient (BaseURL c) (HTTPClient c) (apiToken c) ua.

Section Construction.
(** net/http: what an [http.Client] does once its [Timeout] field is set,
    and the [http.Client] whose fields are all zero. *)
Variable set_Timeout :
  Z -> (list Request -> Request -> Response + error)
    -> (list Request -> Request -> Response + error).
Variable zero_http_Client : list Request -> Request -> Response + error.

(** [WithTimeout] *)
Definition WithTimeout (timeout : Z) : ClientOption :=
  fun c => mkClient (BaseURL c) (set_Timeout timeout (HTTPClient c)) (apiToken c)
             (userAgent c).

(** [NewClient].  The services it wires to the client are the methods
    above, which take the client as an argument. *)
Definition NewClient (token : string) (opts : list ClientOption) : Client :=
  let c := mkClient DefaultBaseURL (set_Timeout DefaultTimeout zero_http_Client)
             token ("f-image-go/" ++ Version) in
  foldl (fun c opt => opt c) c opts.

End Construction.

(** * Vocabulary of the properties *)

(** From here on [++] joins lists and [+:+] joins strings. *)
Local Open Scope list_scope.

(** The call performed no network call. *)
Definition no_network_call {A} (run : M A) (w : World) : Prop :=
  sent (run w).2 = sent w.

(** The call performed exactly one network call, of [req]. *)
Definition sends {A} (run : M A) (w : World) (req : Request) : Prop :=
  sent (run w).2 = sent w ++ [req].

(** The call failed on the spot: it returned an error that is not a
    classified API error, and nothing went to the network. *)
Definition fails_locally {T} (run : M (Result T)) (w : World) : Prop :=
  (∃ err, (run w).1 = fail err ∧ errors_As err = None) ∧ no_network_call run w.

(** The header [Client.request] sets, with or without a body. *)
Definition request_header (c : Client) (has_body : bool) : Header :=
  let header : Header := ∅ in
  let header := Header_Set header "Authorization" ("Bearer " +:+ apiToken c) in
  let header := Header_Set header "User-Agent" (userAgent c) in
  let header :=
    if has_body then Header_Set header "Content-Type" "application/json"
    else header in
  Header_Set header "Accept" "application/json".

(** The header [Client.uploadMultipart] sets. *)
Definition upload_header (c : Client) (writer : Writer) : Header :=
  let header : Header := ∅ in
  let header := Header_Set header "Authorization" ("Bearer " +:+ apiToken c) in
  let header := Header_Set header "User-Agent" (userAgent c) in
  let header := Header_Set header "Content-Type" (FormDataContentType writer) in
  Header_Set header "Accept" "application/json".

(** All the bytes of a stream, in the order read. *)
Definition stream (reader : Reader) : bytes :=
  foldr String.append "" (chunks reader).

(** The text part of a form entry. *)
Definition text_part (entry : string * string) : Part :=
  FormField entry.1 entry.2.

(** A closed form of one file part followed by text parts. *)
Definition form (boundary filename : string) (content : bytes)
    (entries : list (string * string)) : Writer :=
  mkWriter boundary (FormFile "file" filename content :: map text_part entries) true.

(** The message the specification prescribes for a decoded error body:
    the [error] field if non-empty, else the [message] field if non-empty,
    else the text of the status. *)
Definition spec_message `{Platform} (statusCode : Z) (decoded : errResp) : string :=
  default (http_StatusText statusCode)
    (head (filter (fun s => s ≠ "") [errResp_Error decoded; errResp_Message decoded])).

(** The status predicates answer as the mapping of the specification says
    for a status code. *)
Definition status_mapping (err : option error) (status : Z) : Prop :=
  (IsUnauthorized err ↔ status = 401) ∧
  (IsForbidden err ↔ status = 403) ∧
  (IsNotFound err ↔ status = 404) ∧
  (IsBadRequest err ↔ status = 400) ∧
  (IsQuotaExceeded err ↔ status = 402 ∨ status = 413).

(** [CreateShareOptions] names exactly one target. *)
Definition exactly_one_target (opts : CreateShareOptions) : Prop :=
  (is_Some (FileID opts) ∧ AlbumID opts = None) ∨
  (FileID opts = None ∧ is_Some (AlbumID opts)).

(** * A transport double

    One instance of the interfaces, to run the model on concrete calls: a
    server that gives the same reply to every request, and enough of
    encoding/json for the bodies used below. *)
Module Double.

Definition crlf : string := String "013"%char (String "010"%char "").

(** [http.StatusText] *)
Definition StatusText (code : Z) : string :=
  match code with
  | 100 => "Continue" | 101 => "Switching Protocols" | 102 => "Processing"
  | 103 => "Early Hints"
  | 200 => "OK" | 201 => "Created" | 202 => "Accepted"
  | 203 => "Non-Authoritative Information" | 204 => "No Content"
  | 205 => "Reset Content" | 206 => "Partial Content" | 207 => "Multi-Status"
  | 208 => "Already Reported" | 226 => "IM Used"
  | 300 => "Multiple Choices" | 301 => "Moved Permanently" | 302 => "Found"
  | 303 => "See Other" | 304 => "Not Modified" | 305 => "Use Proxy"
  | 307 => "Temporary Redirect" | 308 => "Permanent Redirect"
  | 400 => "Bad Request" | 401 => "Unauthorized" | 402 => "Payment Required"
  | 403 => "Forbidden" | 404 => "Not Found" | 405 => "Method Not Allowed"
  | 406 => "Not Acceptable" | 407 => "Proxy Authentication Required"
  | 408 => "Request Timeout" | 409 => "Conflict" | 410 => "Gone"
  | 411 => "Length Required" | 412 => "Precondition Failed"
  | 413 => "Request Entity Too Large" | 414 => "Request URI Too Long"
  | 415 => "Unsupported Media Type"
  | 416 => "Requested Range Not Satisfiable" | 417 => "Expectation Failed"
  | 418 => "I'm a teapot" | 421 => "Misdirected Request"
  | 422 => "Unprocessable Entity" | 423 => "Locked"
  | 424 => "Failed Dependency" | 425 => "Too Early"
  | 426 => "Upgrade Required" | 428 => "Precondition Required"
  | 429 => "Too Many Requests" | 431 => "Request Header Fields Too Large"
  | 451 => "Unavailable For Legal Reasons"
  | 500 => "Internal Server Error" | 501 => "Not Implemented"
  | 502 => "Bad Gateway" | 503 => "Service Unavailable"
  | 504 => "Gateway Timeout" | 505 => "HTTP Version Not Supported"
  | 506 => "Variant Also Negotiates" | 507 => "Insufficient Storage"
  | 508 => "Loop Detected" | 510 => "Not Extended"
  | 511 => "Network Authentication Required"
  | _ => ""
  end.

Fixpoint join (sep : string) (l : list string) : string :=
  match l with
  | [] => ""
  | [s] => s
  | s :: l' => s +:+ sep +:+ join sep l'
  end.

(** Query strings of keys and values that need no escaping. *)
Definition Encode (v : Values) : string :=
  join "&" (flat_map (fun kv => map (fun x => kv.1 +:+ "=" +:+ x) kv.2)
              (map_to_list v)).

(** The multipart encoding, of names that need no escaping. *)
Definition render_part (boundary : string) (p : Part) : bytes :=
  match p with
  | FormFile fieldname filename content =>
      "--" +:+ boundary +:+ crlf +:+
      "Content-Disposition: form-data; name=" +:+ dq +:+ fieldname +:+ dq +:+
      "; filename=" +:+ dq +:+ filename +:+ dq +:+ crlf +:+
      "Content-Type: application/octet-stream" +:+ crlf +:+ crlf +:+
      content +:+ crlf
  | FormField fieldname value =>
      "--" +:+ boundary +:+ crlf +:+
      "Content-Disposition: form-data; name=" +:+ dq +:+ fieldname +:+ dq +:+
      crlf +:+ crlf +:+ value +:+ crlf
  end.

Definition render (wr : Writer) : bytes :=
  join "" (map (render_part (Boundary wr)) (parts wr)) +:+
  (if closed wr then "--" +:+ Boundary wr +:+ "--" +:+ crlf else "").

(** An ASCII control character as net/url counts them: below 0x20, or
    0x7f. *)
Definition control (a : ascii) : bool :=
  Nat.ltb (nat_of_ascii a) 32 || Nat.eqb (nat_of_ascii a) 127.

Fixpoint has_control (s : string) : bool :=
  match s with
  | EmptyString => false
  | String a s' => control a || has_control s'
  end.

Definition invalid_URL : error :=
  errString "net/url: invalid control character in URL".

(** Of the requests [http.NewRequest] refuses, the double refuses those
    whose URL has a control character. *)
#[export] Instance platform : Platform := {|
  http_StatusText := StatusText;
  http_NewRequest := fun _ url => if has_control url then Some invalid_URL else None;
  Values_Encode := Encode;
  random_boundary := fun n => "boundary" +:+ FormatInt (Z.of_nat n);
  multipart_bytes := render;
  map_range := fun _ m => map_to_list m;
  map_range_perm := fun _ m => reflexivity (map_to_list m)
|}.

(** [s] without the prefix [pre] and the suffix [suf], if it has both. *)
Definition strip (pre suf s : string) : option string :=
  let n := String.length s in
  let a := String.length pre in
  let b := String.length suf in
  if String.prefix pre s && (a + b <=? n)%nat &&
     String.eqb (String.substring (n - b) b s) suf
  then Some (String.substring a (n - a - b) s)
  else None.

(** A one-field JSON object with a string value free of escapes. *)
Definition field (name : string) (body : bytes) : option string :=
  strip ("{" +:+ dq +:+ name +:+ dq +:+ ":" +:+ dq) (dq +:+ "}") body.

Definition syntax_error : error := errString "invalid character in JSON input".

#[export] Instance errResp_json : Unmarshaler errResp :=
  fun body dest =>
    if String.eqb body "{}" then (dest, None)
    else match field "error" body, field "message" body with
         | Some e, _ => (mkErrResp e (errResp_Message dest), None)
         | None, Some m => (mkErrResp (errResp_Error dest) m, None)
         | None, None => (dest, Some syntax_error)
         end.

(** The decoder of a response type: [{}] and unknown fields change
    nothing, a [message] field is stored where the type has one. *)
Definition decode {A} (set_message : string -> A -> A) : Unmarshaler A :=
  fun body dest =>
    if String.eqb body "{}" then (dest, None)
    else match field "message" body with
         | Some m => (set_message m dest, None)
         | None => (dest, Some syntax_error)
         end.

#[export] Instance MessageResponse_json : Unmarshaler MessageResponse :=
  decode (fun m r => mkMessageResponse m (MessageResponse_Info r)).
#[export] Instance BatchDeleteResponse_json : Unmarshaler BatchDeleteResponse :=
  decode (fun m r => mkBatchDeleteResponse (BatchDeleteResponse_Deleted r)
                       (BatchDeleteResponse_Failed r) m).
#[export] Instance RestoreResponse_json : Unmarshaler RestoreResponse :=
  decode (fun m r => mkRestoreResponse m (RestoreResponse_Restored r)
                       (RestoreResponse_Failed r)).
#[export] Instance DeleteResult_json : Unmarshaler DeleteResult :=
  decode (fun m r => mkDeleteResult (DeleteResult_Success r) m
                       (DeleteResult_DeletedCount r) (DeleteResult_FailedCount r)
                       (DeleteResult_FailedDeletions r)).
#[export] Instance ShareLink_json : Unmarshaler ShareLink :=
  decode (fun _ r => r).
#[export] Instance UploadResponse_json : Unmarshaler UploadResponse :=
  decode (fun _ r => r).

Definition key (name : string) : string := dq +:+ name +:+ dq +:+ ":".

Definition ints (l : list Z) : string := "[" +:+ join "," (map FormatInt l) +:+ "]".

#[export] Instance fileIDsBody_json : Marshaler fileIDsBody :=
  fun b => inl ("{" +:+ key "file_ids" +:+ ints (fileIDs b) +:+ "}").

#[export] Instance moveManyBody_json : Marshaler moveManyBody :=
  fun b => inl ("{" +:+ join ","
                  ([key "file_ids" +:+ ints (move_FileIDs b)] ++
                   (if move_AlbumID b is Some a
                    then [key "album_id" +:+ FormatInt a] else [])) +:+ "}").

#[export] Instance createShareBody_json : Marshaler createShareBody :=
  fun b => inl ("{" +:+ join ","
                  ((if body_FileID b is Some i
                    then [key "file_id" +:+ FormatInt i] else []) ++
                   (if body_AlbumID b is Some a
                    then [key "album_id" +:+ FormatInt a] else []) ++
                   (if decide (body_Password b = "") then []
                    else [key "password" +:+ dq +:+ body_Password b +:+ dq]) ++
                   (if decide (body_ExpiresIn b = 0) then []
                    else [key "expires_in" +:+ FormatInt (body_ExpiresIn b)]) ++
                   (if decide (body_MaxViews b = 0) then []
                    else [key "max_views" +:+ FormatInt (body_MaxViews b)])) +:+ "}").

(** A client whose server gives [reply] to every request. *)
Definition client (reply : Response + error) : Client :=
  mkClient "https://f-image.com" (fun _ _ => reply) "fimg_live_token"
    "f-image-go/1.0.0".

Definition replying (status : Z) (body : bytes) : Client :=
  client (inl (mkResponse status (inl body))).

Definition w0 : World := mkWorld [] 0.

(** A stream of three bytes, read in two chunks. *)
Definition three_bytes : Reader := mkReader ["ab"; "c"] None.

(** The JSON object with one field and a string value: [{"name":"value"}]. *)
Definition field_body (name value : string) : bytes :=
  "{" +:+ key name +:+ dq +:+ value +:+ dq +:+ "}".

Definition not_found_body : bytes := field_body "error" "not found".

(** The decoder of a response type that stores one string field. *)
Definition decode_field {A} (name : string) (set : string -> A -> A)
    : Unmarshaler A :=
  fun body dest =>
    if String.eqb body "{}" then (dest, None)
    else match field name body with
         | Some v => (set v dest, None)
         | None => (dest, Some syntax_error)
         end.

#[export] Instance Album_json : Unmarshaler Album :=
  decode_field "name"
    (fun v r => mkAlbum (Album_ID r) v (Album_Description r) (Album_FileCount r)
                  (Album_CreatedAt r)).
#[export] Instance Tag_json : Unmarshaler Tag :=
  decode_field "name"
    (fun v r => mkTag (Tag_ID r) v (Tag_Color r) (Tag_FileCount r)).
#[export] Instance SharedContent_json : Unmarshaler SharedContent :=
  decode_field "type"
    (fun v r => mkSharedContent v (SharedContent_File r) (SharedContent_Album r)
                  (SharedContent_Files r) (SharedContent_RequiresPassword r)).
#[export] Instance FilesListResponse_json : Unmarshaler FilesListResponse :=
  decode_field "query"
    (fun v r => mkFilesListResponse (FilesListResponse_Files r)
                  (FilesListResponse_Total r) (FilesListResponse_Page r)
                  (FilesListResponse_Limit r) (FilesListResponse_AlbumID r) v).
#[export] Instance albumsResp_json : Unmarshaler albumsResp := decode (fun _ r => r).
#[export] Instance SharesListResponse_json : Unmarshaler SharesListResponse :=
  decode (fun _ r => r).
#[export] Instance TrashListResponse_json : Unmarshaler TrashListResponse :=
  decode (fun _ r => r).

(** Of the arrays, the empty one. *)
#[export] Instance Tags_json : Unmarshaler (list Tag) :=
  fun body dest =>
    if String.eqb body "[]" then ([], None) else (dest, Some syntax_error).

Definition str (s : string) : string := dq +:+ s +:+ dq.

Definition object (fields : list string) : bytes := "{" +:+ join "," fields +:+ "}".

#[export] Instance albumBody_json : Marshaler albumBody :=
  fun b => inl (object
                  ([key "name" +:+ str (albumBody_Name b)] ++
                   (if decide (albumBody_Description b = "") then []
                    else [key "description" +:+ str (albumBody_Description b)]))).

#[export] Instance uploadFromURLBody_json : Marshaler uploadFromURLBody :=
  fun b => inl (object [key "url" +:+ str (uploadFromURLBody_URL b)]).

#[export] Instance updateShareBody_json : Marshaler updateShareBody :=
  fun b => inl (object
                  ((if updateShareBody_Password b is Some p
                    then [key "password" +:+ str p] else []) ++
                   (if updateShareBody_MaxViews b is Some m
                    then [key "max_views" +:+ FormatInt m] else []) ++
                   (if updateShareBody_IsActive b is Some a
                    then [key "is_active" +:+ (if a then "true" else "false")]
                    else []))).

#[export] Instance verifyBody_json : Marshaler verifyBody :=
  fun b => inl (object [key "password" +:+ str (verifyBody_Password b)]).

#[export] Instance createTagBody_json : Marshaler createTagBody :=
  fun b => inl (object
                  ([key "name" +:+ str (createTagBody_Name b)] ++
                   (if decide (createTagBody_Color b = "") then []
                    else [key "color" +:+ str (createTagBody_Color b)]))).

#[export] Instance updateTagBody_json : Marshaler updateTagBody :=
  fun b => inl (object
                  ((if decide (updateTagBody_Name b = "") then []
                    else [key "name" +:+ str (updateTagBody_Name b)]) ++
                   (if decide (updateTagBody_Color b = "") then []
                    else [key "color" +:+ str (updateTagBody_Color b)]))).

#[export] Instance tagFileBody_json : Marshaler tagFileBody :=
  fun b => inl (object [key "file_id" +:+ FormatInt (tagFileBody_FileID b);
                        key "tag_id" +:+ FormatInt (tagFileBody_TagID b)]).

(** A client whose base URL was read with the line feed that ended it. *)
Definition misconfigured : Client :=
  mkClient ("https://f-image.com" +:+ String "010"%char "")
    (fun _ _ => inl (mkResponse 200 (inl "{}"))) "fimg_live_token"
    "f-image-go/1.0.0".

(** A client whose connection fails with [cause] at every request. *)
Definition failing (cause : error) : Client := client (inr cause).

(** A client whose server answers [status] and whose body cannot be read. *)
Definition unreadable (status : Z) (cause : error) : Client :=
  client (inl (mkResponse status (inr cause))).

(** The error of a cancelled context. *)
Definition canceled : error := errString "context canceled".

(** A stream that breaks after two bytes. *)
Definition broken_stream : Reader :=
  mkReader ["ab"] (Some (errString "unexpected EOF")).

(** [http.Client] with a timeout: the double keeps no clock. *)
Definition no_timeout (d : Z) (hc : list Request -> Request -> Response + error)
    : list Request -> Request -> Response + error := hc.

(** The reply of the zero [http.Client] of the double. *)
Definition zero_client : list Request -> Request -> Response + error :=
  fun _ _ => inl (mkResponse 200 (inl "{}")).

End Double.

(** ** Vocabulary of the further properties *)

(** Wherever it starts, the call makes at most one network call and leaves
    the earlier trace as it was. *)
Definition at_most_one_call {A} (run : M A) : Prop :=
  ∀ w, no_network_call run w ∨ ∃ req, sends run w req.

(** None of the five status predicates holds of the error. *)
Definition unclassified (err : option error) : Prop :=
  IsUnauthorized err = false ∧ IsForbidden err = false ∧ IsNotFound err = false ∧
  IsBadRequest err = false ∧ IsQuotaExceeded err = false.

(** How many of the five status predicates hold of the error. *)
Definition predicates_holding (err : option error) : nat :=
  length (filter (fun p : option error -> bool => p err = true)
            [IsUnauthorized; IsForbidden; IsNotFound; IsBadRequest; IsQuotaExceeded]).

(** The error has no [APIError] and no sentinel of the package on its
    chain: an error of the standard library, or a local one. *)
Definition foreign (err : error) : Prop :=
  errors_As err = None ∧ ∀ s, errors_Is err s = false.

(** [fmt.Errorf("<prefix>%w", ...)] applied over and over, the first
    prefix of the list outermost. *)
Definition wrap_all (prefixes : list string) (err : error) : error :=
  foldr Errorf_w err prefixes.

(** The options are nil, or the text they must carry is empty. *)
Definition missing_text {O} (get : O -> string) (opts : option O) : Prop :=
  opts = None ∨ ∃ o, opts = Some o ∧ get o = "".

(** A path with its query string, when there is a query. *)
Definition with_query `{Platform} (path : string) (q : Values) : string :=
  if decide (q = ∅) then path else path +:+ "?" +:+ Values_Encode q.

(** The value of a page or limit parameter: present when positive. *)
Definition positive_param (n : Z) : option (list string) :=
  if decide (0 < n) then Some [FormatInt n] else None.

(** The server answered the one request of the call with a status and a
    body that could be read. *)
Definition answered {A} (c : Client) (run : M A) (w : World)
    (status : Z) (body : bytes) : Prop :=
  ∃ req, sends run w req ∧
         HTTPClient c (sent w) req = inl (mkResponse status (inl body)).

(** What a method that decodes into a fresh value makes of a 2xx body. *)
Definition decoded {D} `{!Unmarshaler D, !Zero D} (body : bytes) : Result D :=
  if decide (body = "") then ok zero
  else match json_Unmarshal body (zero : D) with
       | (v, None) => ok v
       | (_, Some err) => fail (Errorf_w "failed to decode response: " err)
       end.

(** What such a method makes of a status and a body. *)
Definition response_result `{Platform} `{!Unmarshaler errResp}
    {D} `{!Unmarshaler D, !Zero D} (status : Z) (body : bytes) : Result D :=
  if decide (200 ≤ status < 300) then decoded body
  else fail (parseAPIError status body).

(** [f] on the value of a result, the error as it is. *)
Definition Result_map {A B} (f : A -> B) (r : Result A) : Result B :=
  match r with
  | ok v => ok (f v)
  | fail err => fail err
  end.

(** The prefixes under which [Client.request] wraps what the platform
    reports: at marshalling, at request creation, at the round trip, at
    the reading of the body and at decoding. *)
Definition transport_prefixes : list string :=
  ["failed to marshal request body: "; "failed to create request: ";
   "request failed: "; "failed to read response body: ";
   "failed to decode response: "].

(** The error is the transport's, a cause of the platform under one of the
    prefixes, or the server's, the classified error of a response outside
    [200,300). *)
Definition from_transport `{Platform} `{!Unmarshaler errResp} (err : error) : Prop :=
  (∃ prefix cause, prefix ∈ transport_prefixes ∧ err = Errorf_w prefix cause) ∨
  (∃ status respBody,
      (status < 200 ∨ 300 ≤ status) ∧ err = parseAPIError status respBody).

(** The call checks nothing of its own before it goes to the transport
    with [method], [path] and [body] (the outcome of marshalling, when
    there is a body).  Once the body has marshalled and [http.NewRequest]
    accepts this one URL, the request goes out, and it is the request of
    these arguments; an error returned is the transport's or the server's;
    and when nothing went to the network, the platform refused the body or
    the URL, and the error is its refusal, wrapped. *)
Definition unchecked `{Platform} `{!Unmarshaler errResp} {A} (c : Client)
    (run : M (Result A)) (w : World) (method path : string)
    (body : option (bytes + error)) : Prop :=
  let url := BaseURL c +:+ path in
  (∀ bodyReader,
      body = inl <$> bodyReader →
      http_NewRequest method url = None →
      sends run w
        (mkRequest method url (request_header c (bool_decide (is_Some body)))
           bodyReader)) ∧
  (∀ err, (run w).1 = fail err → from_transport err) ∧
  (no_network_call run w →
     ∃ cause,
       (body = Some (inr cause) ∧
        run w = (fail (Errorf_w "failed to marshal request body: " cause), w)) ∨
       (http_NewRequest method url = Some cause ∧
        run w = (fail (Errorf_w "failed to create request: " cause), w))).

(** The text fields [Files.Upload] adds to the form: the description, when
    there is one. *)
Definition upload_entries (opts : option UploadOptions) : list (string * string) :=
  match opts with
  | Some o => if decide (Description o = "") then [] else [("description", Description o)]
  | None => []
  end.

(** One call of a builder method of [CreateShareOptions]. *)
Inductive ShareStep :=
| SetPassword (password : string)
| SetExpiration (hours : Z)
| SetMaxViews (maxViews : Z).

Definition step (opts : CreateShareOptions) (s : ShareStep) : CreateShareOptions :=
  match s with
  | SetPassword password => WithPassword opts password
  | SetExpiration hours => WithExpiration opts hours
  | SetMaxViews maxViews => WithMaxViews opts maxViews
  end.

(** A chain of builder calls, [opts.WithA(..).WithB(..)], first call
    first. *)
Definition chain (opts : CreateShareOptions) (steps : list ShareStep)
    : CreateShareOptions :=
  foldl step opts steps.

Definition password_of (s : ShareStep) : option string :=
  if s is SetPassword password then Some password else None.
Definition hours_of (s : ShareStep) : option Z :=
  if s is SetExpiration hours then Some hours else None.
Definition maxViews_of (s : ShareStep) : option Z :=
  if s is SetMaxViews maxViews then Some maxViews else None.

(** The largest number of hours whose nanoseconds fit an [int64]. *)
Definition max_hours : Z := 2562047.

Section ConstructionVocabulary.
Variable set_Timeout :
  Z -> (list Request -> Request -> Response + error)
    -> (list Request -> Request -> Response + error).

(** The option is one of the four the package provides. *)
Definition provided (opt : ClientOption) : Prop :=
  (∃ baseURL, opt = WithBaseURL baseURL) ∨
  (∃ httpClient, opt = WithHTTPClient httpClient) ∨
  (∃ timeout, opt = WithTimeout set_Timeout timeout) ∨
  (∃ ua, opt = WithUserAgent ua).

(** The option is one of the four and does not set the base URL. *)
Definition keeps_BaseURL (opt : ClientOption) : Prop :=
  (∃ httpClient, opt = WithHTTPClient httpClient) ∨
  (∃ timeout, opt = WithTimeout set_Timeout timeout) ∨
  (∃ ua, opt = WithUserAgent ua).

(** The option is one of the four and does not set the User-Agent. *)
Definition keeps_userAgent (opt : ClientOption) : Prop :=
  (∃ baseURL, opt = WithBaseURL baseURL) ∨
  (∃ httpClient, opt = WithHTTPClient httpClient) ∨
  (∃ timeout, opt = WithTimeout set_Timeout timeout).

End ConstructionVocabulary.

(** Unfolds the monad of [M] in a goal. *)
Ltac run_monad :=
  unfold mbind, M_bind, mret, M_ret; simpl.

(** * Facts about the transport *)

Lemma app_singleton_neq {A} (l : list A) (x : A) : l ≠ l ++ [x].
Proof.
  intros Heq. apply (f_equal length) in Heq.
  rewrite length_app in Heq. simpl in Heq. lia.
Qed.

Lemma sends_not_silent {A} (run : M A) w req :
  sends run w req → ¬ no_network_call run w.
Proof.
  unfold sends, no_network_call. intros Hs Hn. rewrite Hn in Hs.
  by apply app_singleton_neq in Hs.
Qed.

Lemma sends_inj {A} (run : M A) w req1 req2 :
  sends run w req1 → sends run w req2 → req1 = req2.
Proof.
  unfold sends. intros -> Heq. apply app_inv_head in Heq. congruence.
Qed.

Lemma string_app_assoc (s1 s2 s3 : string) :
  (s1 +:+ s2) +:+ s3 = s1 +:+ (s2 +:+ s3).
Proof.
  induction s1 as [|a s1 IH]; [done|].
  change (String a ((s1 +:+ s2) +:+ s3) = String a (s1 +:+ (s2 +:+ s3))).
  by rewrite IH.
Qed.

(** ** The multipart writer *)

Lemma write_last_snoc ps p data :
  write_last (ps ++ [p]) data = ps ++ [Part_append p data].
Proof.
  induction ps as [|q ps IH]; [done|].
  simpl. rewrite IH. by destruct ps.
Qed.

(** Copying a stream into a file part appends its bytes, chunk after
    chunk, to the content of that part and touches nothing else. *)
Lemma copy_chunks_file boundary ps fieldname filename content cl cs :
  copy_chunks (mkWriter boundary (ps ++ [FormFile fieldname filename content]) cl) cs =
  mkWriter boundary
    (ps ++ [FormFile fieldname filename (content +:+ foldr String.append "" cs)]) cl.
Proof.
  revert content. induction cs as [|chunk cs IH]; intros content; simpl.
  - replace (content +:+ "") with content; [done|].
    induction content as [|a s IHs]; [done|].
    change (String a s = String a (s +:+ "")). by rewrite <- IHs.
  - unfold Part_Write. simpl. rewrite write_last_snoc. simpl.
    rewrite IH. by rewrite string_app_assoc.
Qed.

Lemma foldl_WriteField wr (entries : list (string * string)) :
  foldl (fun wr kv => WriteField wr kv.1 kv.2) wr entries =
  mkWriter (Boundary wr) (parts wr ++ map text_part entries) (closed wr).
Proof.
  revert wr. induction entries as [|kv entries IH]; intros wr; simpl.
  - rewrite app_nil_r. by destruct wr.
  - rewrite IH. simpl. by rewrite <- app_assoc.
Qed.

(** [io.Copy] reads the stream to its end, once. *)
Lemma io_Copy_drains wr reader :
  chunks (io_Copy wr reader).1.2 = [] ∧
  final (io_Copy wr reader).1.2 = final reader ∧
  (io_Copy wr reader).2 = final reader.
Proof. done. Qed.

Section TransportFacts.
Context `{Platform}.
Context `{!Unmarshaler errResp}.

(** [request] sends at most one request; when it sends one, the body
    marshalled (if any), the request was accepted by [http.NewRequest],
    and the request is the one built from the arguments. *)
Lemma request_sends_inv {D} `{!Unmarshaler D} c method path body
    (result : option D) w req :
  sends (request c method path body result) w req →
  http_NewRequest method (BaseURL c +:+ path) = None ∧
  ((body = None ∧ Body req = None) ∨
   (∃ b jsonBody, body = Some b ∧ any_Marshal b = inl jsonBody ∧
                  Body req = Some jsonBody)) ∧
  Method req = method ∧
  URL req = BaseURL c +:+ path ∧
  Header_ req = request_header c (bool_decide (is_Some body)).
Proof.
  unfold sends, request, Do. run_monad. intros Hs.
  repeat case_match; simplify_eq/=;
    try (by apply app_singleton_neq in Hs);
    (split; [done|]); (split; [eauto 10|]); done.
Qed.

(** Conversely, once the body marshals and the request is accepted, the
    request goes out. *)
Lemma request_sends {D} `{!Unmarshaler D} c method path body
    (result : option D) w bodyReader :
  http_NewRequest method (BaseURL c +:+ path) = None →
  (body = None ∧ bodyReader = None) ∨
    (∃ b jsonBody, body = Some b ∧ any_Marshal b = inl jsonBody ∧
                   bodyReader = Some jsonBody) →
  sends (request c method path body result) w
    (mkRequest method (BaseURL c +:+ path)
       (request_header c (bool_decide (is_Some body))) bodyReader).
Proof.
  unfold sends, request, Do. run_monad.
  intros Hn [[-> ->]|(b & jsonBody & -> & Hm & ->)]; simpl;
    rewrite ?Hm, Hn; simpl; repeat case_match; simplify_eq/=; done.
Qed.

(** A request that does not marshal, or that [http.NewRequest] refuses,
    never reaches the network. *)
Lemma request_refused {D} `{!Unmarshaler D} c method path body
    (result : option D) w :
  (∃ b err, body = Some b ∧ any_Marshal b = inr err) ∨
    is_Some (http_NewRequest method (BaseURL c +:+ path)) →
  (request c method path body result w).2 = w ∧
  ∃ err, (request c method path body result w).1 = (result, Some err).
Proof.
  unfold request. run_monad.
  intros [(b & err & -> & Hm)|[err Hn]]; simpl.
  - rewrite Hm. eauto.
  - rewrite Hn. repeat case_match; simplify_eq/=; eauto.
Qed.

(** What [request] returns once the server has answered with a status and
    a body that could be read. *)
Lemma request_outcome {D} `{!Unmarshaler D} c method path body
    (result : option D) w req status respBody :
  sends (request c method path body result) w req →
  HTTPClient c (sent w) req = inl (mkResponse status (inl respBody)) →
  (request c method path body result w).1 =
    if (status <? 200) || (status >=? 300)
    then (result, Some (parseAPIError status respBody))
    else match result with
         | Some dest =>
             if len respBody >? 0 then
               ((Some (json_Unmarshal respBody dest).1),
                Errorf_w "failed to decode response: " <$>
                  (json_Unmarshal respBody dest).2)
             else (result, None)
         | None => (None, None)
         end.
Proof.
  intros Hs Hresp.
  destruct (request_sends_inv _ _ _ _ _ _ _ Hs) as (Hn & Hb & Hm & Hu & Hh).
  destruct req as [m u h bd]; simpl in *; subst m u h.
  unfold request, Do. run_monad. rewrite Hn.
  destruct Hb as [[-> ->]|(b & jsonBody & -> & Hj & ->)]; simpl;
    rewrite ?Hj; simpl; unfold request_header in Hresp; simpl in Hresp;
    rewrite Hresp; simpl;
    repeat case_match; simplify_eq/=; done.
Qed.

(** The writer [uploadMultipart] has built when it creates the request:
    the file part with the whole stream, then the text parts in the order
    [range] gave. *)
Lemma upload_writer w reader filename (fields : gmap string string) :
  Writer_Close
    (foldl (fun wr kv => WriteField wr kv.1 kv.2)
       (io_Copy (CreateFormFile (NewWriter w).1 "file" filename) reader).1.1
       (range fields (NewWriter w).2).1) =
  form (random_boundary (entropy w)) filename (stream reader)
    (map_range (S (entropy w)) fields).
Proof.
  unfold io_Copy, CreateFormFile, NewWriter, range. simpl.
  change [FormFile "file" filename ""] with ([] ++ [FormFile "file" filename ""]).
  rewrite copy_chunks_file, foldl_WriteField. done.
Qed.

(** [uploadMultipart] sends at most one request; when it sends one, the
    stream ended without error, the request was accepted, and it is the
    POST of the form built from the arguments. *)
Lemma uploadMultipart_sends_inv c path reader filename fields w req :
  sends (uploadMultipart c path reader filename fields) w req →
  final reader = None ∧
  http_NewRequest "POST" (BaseURL c +:+ path) = None ∧
  let writer := form (random_boundary (entropy w)) filename (stream reader)
                  (map_range (S (entropy w)) fields) in
  req = mkRequest "POST" (BaseURL c +:+ path) (upload_header c writer)
          (Some (multipart_bytes writer)).
Proof.
  unfold sends, uploadMultipart. run_monad.
  pose proof (upload_writer w reader filename fields) as Hw.
  unfold io_Copy, NewWriter, range in *. simpl in *.
  destruct (final reader) as [err|] eqn:Hf; simpl.
  { intros Hs. by apply app_singleton_neq in Hs. }
  simpl in Hw. rewrite Hw. clear Hw.
  destruct (http_NewRequest "POST" (BaseURL c +:+ path)) eqn:Hn; simpl.
  { intros Hs. by apply app_singleton_neq in Hs. }
  unfold Do. simpl. intros Hs.
  repeat case_match; simplify_eq/=; done.
Qed.

Lemma uploadMultipart_sends c path reader filename fields w :
  final reader = None →
  http_NewRequest "POST" (BaseURL c +:+ path) = None →
  let writer := form (random_boundary (entropy w)) filename (stream reader)
                  (map_range (S (entropy w)) fields) in
  sends (uploadMultipart c path reader filename fields) w
    (mkRequest "POST" (BaseURL c +:+ path) (upload_header c writer)
       (Some (multipart_bytes writer))).
Proof.
  intros Hf Hn. unfold sends, uploadMultipart. run_monad.
  pose proof (upload_writer w reader filename fields) as Hw.
  unfold io_Copy, NewWriter, range in *. simpl in *.
  rewrite Hf. simpl. rewrite Hw, Hn. unfold Do. simpl.
  repeat case_match; simplify_eq/=; done.
Qed.

(** A stream that ends in an error, or a URL [http.NewRequest] refuses,
    keeps the upload from the network. *)
Lemma uploadMultipart_refused c path reader filename fields w :
  is_Some (final reader) ∨
    is_Some (http_NewRequest "POST" (BaseURL c +:+ path)) →
  no_network_call (uploadMultipart c path reader filename fields) w ∧
  ∃ err, (uploadMultipart c path reader filename fields w).1 = fail err.
Proof.
  unfold no_network_call, uploadMultipart. run_monad.
  unfold io_Copy, NewWriter, range. simpl.
  intros [[err Hf]|[err Hn]].
  - rewrite Hf. simpl. eauto.
  - destruct (final reader); simpl; [eauto|]. rewrite Hn. simpl. eauto.
Qed.

(** What [uploadMultipart] returns once the server has answered. *)
Lemma uploadMultipart_outcome c path reader filename fields w req status respBody :
  sends (uploadMultipart c path reader filename fields) w req →
  HTTPClient c (sent w) req = inl (mkResponse status (inl respBody)) →
  (uploadMultipart c path reader filename fields w).1 =
    if (status <? 200) || (status >=? 300)
    then fail (parseAPIError status respBody)
    else ok respBody.
Proof.
  intros Hs Hresp.
  destruct (uploadMultipart_sends_inv _ _ _ _ _ _ _ Hs) as (Hf & Hn & ->).
  unfold uploadMultipart. run_monad.
  pose proof (upload_writer w reader filename fields) as Hw.
  unfold io_Copy, NewWriter, range in *. simpl in *.
  rewrite Hf. simpl. rewrite Hw, Hn. unfold Do. simpl.
  unfold upload_header in Hresp. simpl in Hresp. rewrite Hresp. simpl.
  by destruct ((status <? 200) || (status >=? 300)).
Qed.

(** ** The classifier *)

Lemma parseAPIError_classified statusCode body :
  ∃ message, parseAPIError statusCode body = errAPI (mkAPIError statusCode message).
Proof.
  unfold parseAPIError.
  destruct (json_Unmarshal body zero) as [decoded [err|]]; eauto.
Qed.

Lemma status_predicates_of_APIError (e : APIError) :
  IsUnauthorized (Some (errAPI e)) = bool_decide (StatusCode e = 401) ∧
  IsForbidden (Some (errAPI e)) = bool_decide (StatusCode e = 403) ∧
  IsNotFound (Some (errAPI e)) = bool_decide (StatusCode e = 404) ∧
  IsBadRequest (Some (errAPI e)) = bool_decide (StatusCode e = 400) ∧
  IsQuotaExceeded (Some (errAPI e)) =
    bool_decide (StatusCode e = 402 ∨ StatusCode e = 413).
Proof.
  unfold IsUnauthorized, IsForbidden, IsNotFound, IsBadRequest, IsQuotaExceeded.
  simpl. repeat split;
    repeat case_bool_decide; try lia;
    repeat match goal with
           | |- context [?a =? ?b] => destruct (Z.eqb_spec a b)
           end; simpl; try done; lia.
Qed.

End TransportFacts.

(** * The properties of the specification *)

Section Classifier.
Context `{Platform}.
Context `{!Unmarshaler errResp}.

Lemma status_mapping_of_APIError (e : APIError) :
  status_mapping (Some (errAPI e)) (StatusCode e).
Proof.
  unfold status_mapping.
  destruct (status_predicates_of_APIError e) as (-> & -> & -> & -> & ->).
  rewrite !bool_decide_spec. done.
Qed.

(** C4.  For every HTTP status code outside [200,300) and every response
    body, the error either transport returns is a classified [APIError]
    whose [StatusCode] is the status code received, and the predicates
    answer by the status alone: [IsUnauthorized] iff 401, [IsForbidden]
    iff 403, [IsNotFound] iff 404, [IsBadRequest] iff 400,
    [IsQuotaExceeded] iff 402 or 413. *)
Theorem non_2xx_is_classified (status : Z) (respBody : bytes)
    (Hstatus : status < 200 ∨ 300 ≤ status) :
  (∀ D (U : Unmarshaler D) c method path body (result : option D) w req,
      sends (request c method path body result) w req →
      HTTPClient c (sent w) req = inl (mkResponse status (inl respBody)) →
      ∃ e, (request c method path body result w).1.2 = Some (errAPI e) ∧
           StatusCode e = status ∧
           status_mapping (Some (errAPI e)) status) ∧
  (∀ c path reader filename fields w req,
      sends (uploadMultipart c path reader filename fields) w req →
      HTTPClient c (sent w) req = inl (mkResponse status (inl respBody)) →
      ∃ e, (uploadMultipart c path reader filename fields w).1 = fail (errAPI e) ∧
           StatusCode e = status ∧
           status_mapping (Some (errAPI e)) status).
Proof.
  assert ((status <? 200) || (status >=? 300) = true) as Hout.
  { apply orb_true_iff. destruct Hstatus; [left|right]; lia. }
  destruct (parseAPIError_classified status respBody) as [message Hp].
  split.
  - intros D U c method path body result w req Hs Hresp.
    rewrite (request_outcome _ _ _ _ _ _ _ _ _ Hs Hresp), Hout, Hp. simpl.
    eexists. split; [done|]. split; [done|].
    apply (status_mapping_of_APIError (mkAPIError status message)).
  - intros c path reader filename fields w req Hs Hresp.
    rewrite (uploadMultipart_outcome _ _ _ _ _ _ _ _ _ Hs Hresp), Hout, Hp.
    eexists. split; [done|]. split; [done|].
    apply (status_mapping_of_APIError (mkAPIError status message)).
Qed.

End Classifier.

Section TransportProperties.
Context `{Platform}.
Context `{!Unmarshaler errResp}.

Lemma len_positive (s : string) : (len s >? 0) = true ↔ s ≠ "".
Proof.
  unfold len. destruct s; simpl; split; try done; lia.
Qed.

(** C5.  For every status code and raw body the classifier picks the
    message by this rule: when the body decodes as a JSON object, the
    [error] field if non-empty, else the [message] field if non-empty, else
    the standard text of the status code; when decoding fails, the raw body
    verbatim.  The error is a function of the status and the body alone:
    it is the error the transport returns whatever the client, the request
    and the state of the world. *)
Theorem parseAPIError_message (statusCode : Z) (body : bytes) :
  (∀ decoded err,
      json_Unmarshal body (zero : errResp) = (decoded, Some err) →
      parseAPIError statusCode body = errAPI (mkAPIError statusCode body)) ∧
  (∀ decoded,
      json_Unmarshal body (zero : errResp) = (decoded, None) →
      parseAPIError statusCode body =
        errAPI (mkAPIError statusCode (spec_message statusCode decoded)) ∧
      (errResp_Error decoded ≠ "" →
         spec_message statusCode decoded = errResp_Error decoded) ∧
      (errResp_Error decoded = "" → errResp_Message decoded ≠ "" →
         spec_message statusCode decoded = errResp_Message decoded) ∧
      (errResp_Error decoded = "" → errResp_Message decoded = "" →
         spec_message statusCode decoded = http_StatusText statusCode)) ∧
  (∀ D (U : Unmarshaler D) c method path reqBody (result : option D) w req,
      statusCode < 200 ∨ 300 ≤ statusCode →
      sends (request c method path reqBody result) w req →
      HTTPClient c (sent w) req = inl (mkResponse statusCode (inl body)) →
      (request c method path reqBody result w).1.2 =
        Some (parseAPIError statusCode body)).
Proof.
  split; [|split].
  - intros decoded err Hd. unfold parseAPIError. by rewrite Hd.
  - intros decoded Hd. unfold parseAPIError, spec_message. rewrite Hd.
    rewrite !filter_cons, filter_nil.
    destruct decoded as [e m]; simpl.
    repeat case_decide; simplify_eq/=; repeat split; done.
  - intros D U c method path reqBody result w req Hstatus Hs Hresp.
    rewrite (request_outcome _ _ _ _ _ _ _ _ _ Hs Hresp).
    assert ((statusCode <? 200) || (statusCode >=? 300) = true) as ->; [|done].
    apply orb_true_iff. destruct Hstatus; [left|right]; lia.
Qed.

(** C6.  Every request that leaves [Client.request] carries the bearer
    credential, the identification string and the accept-JSON header, and
    carries the JSON content type exactly when a body was given (and then
    the request has a body); every request that leaves
    [Client.uploadMultipart] carries exactly four headers: the same three
    and a content type that is the multipart one with the generated
    boundary, not the JSON one. *)
Theorem outgoing_headers :
  (∀ D (U : Unmarshaler D) c method path body (result : option D) w req,
      sends (request c method path body result) w req →
      Header_ req !! "Authorization" = Some ["Bearer " +:+ apiToken c] ∧
      Header_ req !! "User-Agent" = Some [userAgent c] ∧
      Header_ req !! "Accept" = Some ["application/json"] ∧
      (Header_ req !! "Content-Type" = Some ["application/json"] ↔ is_Some body) ∧
      (is_Some (Header_ req !! "Content-Type") ↔ is_Some body) ∧
      (is_Some (Body req) ↔ is_Some body)) ∧
  (∀ c path reader filename fields w req,
      sends (uploadMultipart c path reader filename fields) w req →
      dom (Header_ req) =
        ({["Authorization"; "User-Agent"; "Content-Type"; "Accept"]} : gset string) ∧
      size (Header_ req) = 4%nat ∧
      Header_ req !! "Authorization" = Some ["Bearer " +:+ apiToken c] ∧
      Header_ req !! "User-Agent" = Some [userAgent c] ∧
      Header_ req !! "Accept" = Some ["application/json"] ∧
      (∃ b, (b = random_boundary (entropy w) ∨
             b = dq +:+ random_boundary (entropy w) +:+ dq) ∧
            Header_ req !! "Content-Type" =
              Some ["multipart/form-data; boundary=" +:+ b]) ∧
      (ContainsAny (random_boundary (entropy w)) tspecials = false →
         Header_ req !! "Content-Type" =
           Some ["multipart/form-data; boundary=" +:+ random_boundary (entropy w)]) ∧
      Header_ req !! "Content-Type" ≠ Some ["application/json"]).
Proof.
  split.
  - intros D U c method path body result w req Hs.
    destruct (request_sends_inv _ _ _ _ _ _ _ Hs) as (_ & Hb & _ & _ & ->).
    destruct Hb as [[-> Hbody]|(b & jsonBody & -> & _ & Hbody)]; rewrite Hbody.
    + repeat split; try reflexivity;
        try (intros Hx; vm_compute in Hx; by (discriminate || destruct Hx));
        try (intros [x Hx]; discriminate).
    + repeat split; try reflexivity; eauto.
  - intros c path reader filename fields w req Hs.
    destruct (uploadMultipart_sends_inv _ _ _ _ _ _ _ Hs) as (_ & _ & ->).
    simpl. unfold upload_header, Header_Set, FormDataContentType. simpl.
    split; [reflexivity|]. split; [reflexivity|]. split; [reflexivity|].
    split; [reflexivity|]. split; [reflexivity|].
    assert (∀ b : string,
              (<["Accept":=["application/json"]]>
                 (<["Content-Type":=[b]]>
                    (<["User-Agent":=[userAgent c]]>
                       (<["Authorization":=["Bearer " +:+ apiToken c]]>
                          (∅ : gmap string (list string))))))
              !! "Content-Type" = Some [b]) as Hct by reflexivity.
    rewrite Hct. split; [|split].
    + destruct (ContainsAny _ _); eauto.
    + by intros ->.
    + intros Hx. destruct (ContainsAny _ _); vm_compute in Hx; discriminate.
Qed.

(** C7.  For every 2xx response and non-nil destination: an empty body is
    success and leaves the destination as it was (at its zero value when
    the caller passed a fresh one); a non-empty body is decoded into the
    destination, and when decoding fails the call returns an error that
    wraps the decoder's: the failure is not dropped, and the error is not
    an [APIError] (nor classified as one, the decoder's error not being
    one). *)
Theorem decode_2xx {D} `{!Unmarshaler D} c method path body (dest : D) w req
    (status : Z) (respBody : bytes)
    (Hsent : sends (request c method path body (Some dest)) w req)
    (Hresp : HTTPClient c (sent w) req = inl (mkResponse status (inl respBody)))
    (H2xx : 200 ≤ status < 300) :
  let r := (request c method path body (Some dest) w).1 in
  (respBody = "" → r = (Some dest, None)) ∧
  (respBody ≠ "" →
     r.1 = Some (json_Unmarshal respBody dest).1 ∧
     match (json_Unmarshal respBody dest).2 with
     | None => r.2 = None
     | Some err =>
         r.2 = Some (Errorf_w "failed to decode response: " err) ∧
         (∀ e, r.2 ≠ Some (errAPI e)) ∧
         (errors_As err = None →
            errors_As (Errorf_w "failed to decode response: " err) = None)
     end).
Proof.
  simpl. rewrite (request_outcome _ _ _ _ _ _ _ _ _ Hsent Hresp).
  assert ((status <? 200) || (status >=? 300) = false) as ->.
  { apply orb_false_iff. split; lia. }
  split.
  - intros ->. done.
  - intros Hne. apply len_positive in Hne. rewrite Hne. simpl.
    split; [done|].
    destruct (json_Unmarshal respBody dest).2 as [err|]; simpl; [|done].
    repeat split; done.
Qed.

(** C9.  For every path, query map and destination, [requestWithQuery] is
    a GET without body: of the path followed by [?] and the encoded query
    when the map is not empty, of the path as given when it is empty; the
    result, the error and the trace are those of that GET. *)
Theorem requestWithQuery_is_GET {D} `{!Unmarshaler D} c path (query : Values)
    (result : option D) w :
  (query ≠ ∅ →
     requestWithQuery c path query result w =
     request c "GET" (path +:+ "?" +:+ Values_Encode query) None result w) ∧
  (query = ∅ →
     requestWithQuery c path query result w = request c "GET" path None result w).
Proof.
  unfold requestWithQuery. split.
  - intros Hne.
    assert ((Z.of_nat (size query) >? 0) = true) as ->; [|done].
    apply map_size_non_empty_iff in Hne. lia.
  - intros ->. by rewrite map_size_empty.
Qed.


End TransportProperties.

Section ServiceProperties.
Context `{Platform}.
Context `{!Unmarshaler errResp}.
Context `{!Unmarshaler UploadResponse, !Unmarshaler MessageResponse,
          !Unmarshaler BatchDeleteResponse, !Unmarshaler RestoreResponse,
          !Unmarshaler DeleteResult, !Unmarshaler ShareLink}.
Context `{!Marshaler fileIDsBody, !Marshaler moveManyBody,
          !Marshaler createShareBody}.

(** A method that ends in [returning] leaves the world as its request left
    it. *)
Lemma returning_world {D} `{!Zero D} (run : M (option D * option error)) w :
  ((r ← run; mret (returning r)) w).2 = (run w).2 ∧
  ((r ← run; mret (returning r)) w).1 = returning (run w).1.
Proof. run_monad. by destruct (run w). Qed.

Lemma returning_sends {D} `{!Zero D} (run : M (option D * option error)) w req :
  sends (r ← run; mret (returning r)) w req ↔ sends run w req.
Proof. unfold sends. by rewrite (proj1 (returning_world run w)). Qed.

(** The filename and the fields [Files.Upload] hands to the transport. *)
Lemma Files_Upload_world c reader opts w :
  (Files_Upload c reader opts w).2 =
  (uploadMultipart c "/api/files/upload" reader
     (if decide (Filename (default zero opts) = "") then "image.jpg"
      else Filename (default zero opts))
     (if decide (Description (default zero opts) = "") then ∅
      else <["description" := Description (default zero opts)]> ∅) w).2.
Proof.
  unfold Files_Upload. run_monad.
  destruct (uploadMultipart _ _ _ _ _ w) as [[respBody|err] w']; simpl; [|done].
  destruct (json_Unmarshal respBody zero) as [resp [err|]]; done.
Qed.

(** The one request [Files.Upload] sends: the file part, then the
    description when there is one, and nothing from [AlbumID]. *)
Lemma Files_Upload_request c reader opts w req :
  sends (Files_Upload c reader opts) w req →
  let o := default zero opts in
  Body req =
    Some (multipart_bytes
            (form (random_boundary (entropy w))
               (if decide (Filename o = "") then "image.jpg" else Filename o)
               (stream reader)
               (if decide (Description o = "") then []
                else [("description", Description o)]))).
Proof.
  unfold sends. rewrite Files_Upload_world. intros Hs.
  destruct (uploadMultipart_sends_inv _ _ _ _ _ _ _ Hs) as (_ & _ & ->).
  simpl. do 3 f_equal.
  match goal with
  | |- map_range ?n ?fields = _ => pose proof (map_range_perm n fields) as Hperm
  end.
  destruct (decide (Description (default zero opts) = "")).
  - rewrite map_to_list_empty in Hperm. by apply Permutation_nil_r in Hperm.
  - rewrite insert_empty, map_to_list_singleton in Hperm.
    by apply Permutation_singleton_r in Hperm.
Qed.

(** [Files.Upload] does not read the [AlbumID] option: the call with a
    target album id does what the call with any other, or none, does,
    request included. *)
Lemma Files_Upload_ignores_AlbumID c reader (opts : UploadOptions)
    (albumID : option Z) w :
  Files_Upload c reader (Some opts) w =
  Files_Upload c reader
    (Some (mkUploadOptions (Filename opts) (Description opts) albumID)) w.
Proof. reflexivity. Qed.

(** [Files.Upload] sends its request once the stream has been read to its
    end and [http.NewRequest] accepts the upload URL. *)
Lemma Files_Upload_sends c reader opts w :
  final reader = None →
  http_NewRequest "POST" (BaseURL c +:+ "/api/files/upload") = None →
  ∃ req, sends (Files_Upload c reader opts) w req.
Proof.
  intros Hread Hurl. eexists. unfold sends. rewrite Files_Upload_world.
  by apply uploadMultipart_sends.
Qed.

(** C10.  For every [Files.Upload] call whose options are nil or whose
    [Filename] is empty, the call sends one request, a POST to the upload
    URL, as soon as the stream can be read to its end and the URL is
    accepted; the file part of the body sent is named "image.jpg" and has
    the bytes of the stream; the text fields are the description when
    there is one, and none with nil options.  Nothing else can be sent by
    the call: a request it sends is this one. *)
Theorem Files_Upload_default_filename c reader opts w
    (Hopts : opts = None ∨ ∃ o, opts = Some o ∧ Filename o = "")
    (Hread : final reader = None)
    (Hurl : http_NewRequest "POST" (BaseURL c +:+ "/api/files/upload") = None) :
  ∃ req,
    sends (Files_Upload c reader opts) w req ∧
    (∀ req', sends (Files_Upload c reader opts) w req' → req' = req) ∧
    Method req = "POST" ∧
    URL req = BaseURL c +:+ "/api/files/upload" ∧
    Body req =
      Some (multipart_bytes
              (mkWriter (random_boundary (entropy w))
                 (FormFile "file" "image.jpg" (stream reader)
                    :: map text_part (upload_entries opts))
                 true)) ∧
    (opts = None → upload_entries opts = []).
Proof.
  destruct (Files_Upload_sends c reader opts w Hread Hurl) as [req Hs].
  exists req. split; [done|]. split; [intros req' Hs'; by eapply sends_inj|].
  pose proof (Files_Upload_request _ _ _ _ _ Hs) as Hbody.
  unfold sends in Hs. rewrite Files_Upload_world in Hs.
  destruct (uploadMultipart_sends_inv _ _ _ _ _ _ _ Hs) as (_ & _ & Hreq).
  split; [by rewrite Hreq|]. split; [by rewrite Hreq|].
  split; [|by intros ->].
  rewrite Hbody. clear Hreq Hs.
  destruct Hopts as [->|(o & -> & Hname)]; simpl; [done|].
  rewrite Hname. simpl. by destruct (decide (Description o = "")).
Qed.

(** C1, as the code has it.  [Share.Create] returns a local construction
    error, before any request, for nil options and for options with
    neither a file id nor an album id; options with both are not refused:
    the request goes out with both. *)
Theorem Share_Create_target_check c w :
  (∀ opts,
      opts = None ∨ (∃ o, opts = Some o ∧ FileID o = None ∧ AlbumID o = None) →
      Share_Create c opts w =
        (fail (Errorf "either FileID or AlbumID is required"), w) ∧
      fails_locally (Share_Create c opts) w) ∧
  (∀ o jsonBody,
      is_Some (FileID o) → is_Some (AlbumID o) →
      http_NewRequest "POST" (BaseURL c +:+ "/api/shares") = None →
      json_Marshal (mkCreateShareBody (FileID o) (AlbumID o) (Password o)
                      (ExpiresIn o) (MaxViews o)) = inl jsonBody →
      sends (Share_Create c (Some o)) w
        (mkRequest "POST" (BaseURL c +:+ "/api/shares") (request_header c true)
           (Some jsonBody))).
Proof.
  split.
  - intros opts Hnone.
    assert (Share_Create c opts w =
            (fail (Errorf "either FileID or AlbumID is required"), w)) as Heq.
    { destruct Hnone as [->|(o & -> & Hf & Ha)]; [done|].
      unfold Share_Create. by rewrite Hf, Ha. }
    split; [done|]. unfold fails_locally, no_network_call. rewrite Heq.
    split; [|done]. eexists. split; done.
  - intros o jsonBody [f Hf] [a Ha] Hn Hm.
    unfold Share_Create. rewrite Hf, Ha. simpl.
    apply returning_sends. rewrite <- Hf, <- Ha.
    apply (request_sends c "POST" "/api/shares"
             (Some (Any (mkCreateShareBody (FileID o) (AlbumID o) (Password o)
                           (ExpiresIn o) (MaxViews o))))
             (Some zero) w (Some jsonBody) Hn).
    right. by eexists _, _.
Qed.

End ServiceProperties.

(** * More of the transport: every way a call can end *)

Section TransportOutcomes.
Context `{Platform}.
Context `{!Unmarshaler errResp}.

(** The ways [request] ends: the body does not marshal; the request is
    refused; or the request goes out, and then the round trip fails, or
    the body of the response cannot be read, or status and body arrive. *)
Lemma request_cases {D} `{!Unmarshaler D} c method path body (result : option D) w :
  (∃ b cause,
      body = Some b ∧ any_Marshal b = inr cause ∧
      request c method path body result w =
        ((result, Some (Errorf_w "failed to marshal request body: " cause)), w)) ∨
  (∃ cause,
      http_NewRequest method (BaseURL c +:+ path) = Some cause ∧
      request c method path body result w =
        ((result, Some (Errorf_w "failed to create request: " cause)), w)) ∨
  (∃ req,
      sends (request c method path body result) w req ∧
      entropy (request c method path body result w).2 = entropy w ∧
      ((∃ cause,
           HTTPClient c (sent w) req = inr cause ∧
           (request c method path body result w).1 =
             (result, Some (Errorf_w "request failed: " cause))) ∨
       (∃ status cause,
           HTTPClient c (sent w) req = inl (mkResponse status (inr cause)) ∧
           (request c method path body result w).1 =
             (result, Some (Errorf_w "failed to read response body: " cause))) ∨
       (∃ status respBody,
           HTTPClient c (sent w) req = inl (mkResponse status (inl respBody))))).
Proof.
  unfold sends, request, Do. run_monad.
  destruct body as [b|]; simpl.
  - destruct (any_Marshal b) as [jsonBody|cause] eqn:Hm; [|left; eauto].
    destruct (http_NewRequest method (BaseURL c +:+ path)) as [cause|] eqn:Hn;
      [right; left; eauto|].
    right; right. simpl. eexists. split; [|split].
    3: { destruct (HTTPClient c (sent w) _) as [[status [respBody|cause]]|cause] eqn:Hd.
         - right; right. eauto.
         - right; left. eexists _, _. split; [done|]. simpl in *.
           rewrite Hd. done.
         - left. eexists. split; [done|]. simpl in *. rewrite Hd. done. }
    + simpl. repeat case_match; simplify_eq/=; done.
    + simpl. repeat case_match; simplify_eq/=; done.
  - destruct (http_NewRequest method (BaseURL c +:+ path)) as [cause|] eqn:Hn;
      [right; left; eauto|].
    right; right. simpl. eexists. split; [|split].
    3: { destruct (HTTPClient c (sent w) _) as [[status [respBody|cause]]|cause] eqn:Hd.
         - right; right. eauto.
         - right; left. eexists _, _. split; [done|]. simpl in *.
           rewrite Hd. done.
         - left. eexists. split; [done|]. simpl in *. rewrite Hd. done. }
    + simpl. repeat case_match; simplify_eq/=; done.
    + simpl. repeat case_match; simplify_eq/=; done.
Qed.

(** No error of the transport is the plain [fmt.Errorf] of a local
    check. *)
Lemma from_transport_not_local msg : ¬ from_transport (Errorf msg).
Proof.
  intros [(prefix & cause & _ & Heq)|(status & respBody & _ & Heq)]; [done|].
  destruct (parseAPIError_classified status respBody) as [message Hp].
  rewrite Hp in Heq. discriminate.
Qed.

Lemma transport_prefix_error prefix cause :
  prefix ∈ transport_prefixes → from_transport (Errorf_w prefix cause).
Proof. intros Hin. left. eauto. Qed.

(** A method whose body is one call of [request], into a fresh value,
    checks nothing of its own. *)
Lemma request_unchecked {D} `{!Unmarshaler D, !Zero D} c method path body w :
  unchecked c (r ← request c method path body (Some (zero : D)); mret (returning r)) w
    method path (any_Marshal <$> body).
Proof.
  unfold unchecked.
  pose proof (request_cases c method path body (Some (zero : D)) w) as Hcases.
  split; [|split].
  - intros bodyReader Hb Hn. apply returning_sends.
    assert (bool_decide (is_Some (any_Marshal <$> body)) = bool_decide (is_Some body))
      as -> by (by destruct body).
    apply request_sends; [done|].
    destruct body as [b|], bodyReader as [jsonBody|]; simplify_eq/=.
    + right. eauto.
    + by left.
  - intros err Herr. rewrite (proj2 (returning_world _ w)) in Herr.
    unfold returning in Herr.
    destruct Hcases
      as [(b & cause & _ & _ & Heq)|[(cause & _ & Heq)|(req & Hs & _ & Hsent)]].
    + rewrite Heq in Herr. simpl in Herr. simplify_eq.
      apply transport_prefix_error. unfold transport_prefixes.
      rewrite !elem_of_cons. auto.
    + rewrite Heq in Herr. simpl in Herr. simplify_eq.
      apply transport_prefix_error. unfold transport_prefixes.
      rewrite !elem_of_cons. auto.
    + destruct Hsent as [(cause & _ & Heq)|[(status & cause & _ & Heq)|
                         (status & respBody & Hd)]].
      * rewrite Heq in Herr. simpl in Herr. simplify_eq.
        apply transport_prefix_error. unfold transport_prefixes.
        rewrite !elem_of_cons. auto.
      * rewrite Heq in Herr. simpl in Herr. simplify_eq.
        apply transport_prefix_error. unfold transport_prefixes.
        rewrite !elem_of_cons. auto.
      * rewrite (request_outcome _ _ _ _ _ _ _ _ _ Hs Hd) in Herr.
        destruct ((status <? 200) || (status >=? 300)) eqn:Hout.
        -- simpl in Herr. simplify_eq. right. exists status, respBody.
           split; [|done]. apply orb_true_iff in Hout. destruct Hout; [left|right]; lia.
        -- destruct (len respBody >? 0); [|done]. simpl in Herr.
           destruct ((json_Unmarshal respBody zero).2) as [cause|]; [|done].
           simpl in Herr. simplify_eq.
           apply transport_prefix_error. unfold transport_prefixes.
           rewrite !elem_of_cons. auto 10.
  - intros Hsilent.
    destruct Hcases
      as [(b & cause & -> & Hm & Heq)|[(cause & Hn & Heq)|(req & Hs & _)]].
    + exists cause. left. simpl. rewrite Hm. split; [done|].
      run_monad. by rewrite Heq.
    + exists cause. right. split; [done|]. run_monad. by rewrite Heq.
    + apply returning_sends in Hs. by apply sends_not_silent in Hs.
Qed.

End TransportOutcomes.

(** * The identifiers of files *)

Section Identifiers.
Context `{Platform}.
Context `{!Unmarshaler errResp}.
Context `{!Unmarshaler MessageResponse, !Unmarshaler BatchDeleteResponse,
          !Unmarshaler RestoreResponse, !Unmarshaler DeleteResult}.
Context `{!Marshaler fileIDsBody, !Marshaler moveManyBody}.

(** C3, as the code has it.  None of [Files.Delete], [Files.BatchDelete],
    [Files.Move], [Files.MoveMany], [Trash.Restore], [Trash.RestoreMany]
    and [Trash.PermanentDelete] checks its identifiers.  For every
    identifier, zero included, and every list, the empty one included,
    with or without a target album: the request is built as for any other
    value, the identifier in decimal in the path or the list in the body;
    once the body has marshalled and [http.NewRequest] accepts that URL,
    exactly one request goes to the endpoint; an error returned is the
    transport's or the server's, never one of a local check; and when
    nothing went to the network it was the platform that refused the body
    or the URL. *)
Theorem file_ids_are_not_checked c w :
  (∀ fileID,
      unchecked c (Files_Delete c fileID) w
        "DELETE" ("/api/files/" +:+ FormatInt fileID) None) ∧
  (∀ fileIDs,
      unchecked c (Files_BatchDelete c fileIDs) w
        "POST" "/api/files/batch-delete"
        (Some (json_Marshal (mkFileIDsBody fileIDs)))) ∧
  (∀ fileID albumID,
      unchecked c (Files_Move c fileID albumID) w
        "PUT"
        match albumID with
        | None => "/api/files/" +:+ FormatInt fileID +:+ "/move"
        | Some a =>
            ("/api/files/" +:+ FormatInt fileID +:+ "/move") +:+ "?" +:+
            Values_Encode {["album_id" := [FormatInt a]]}
        end
        None) ∧
  (∀ fileIDs albumID,
      unchecked c (Files_MoveMany c fileIDs albumID) w
        "PUT" "/api/files/move"
        (Some (json_Marshal (mkMoveManyBody fileIDs albumID)))) ∧
  (∀ fileID,
      unchecked c (Trash_Restore c fileID) w
        "POST" ("/api/trash/" +:+ FormatInt fileID +:+ "/restore") None) ∧
  (∀ fileIDs,
      unchecked c (Trash_RestoreMany c fileIDs) w
        "POST" "/api/trash/restore"
        (Some (json_Marshal (mkFileIDsBody fileIDs)))) ∧
  (∀ fileID,
      unchecked c (Trash_PermanentDelete c fileID) w
        "DELETE" ("/api/trash/" +:+ FormatInt fileID) None).
Proof.
  repeat split_and.
  - intros fileID. apply (request_unchecked c "DELETE" _ None).
  - intros fileIDs.
    apply (request_unchecked c "POST" _ (Some (Any (mkFileIDsBody fileIDs)))).
  - intros fileID albumID. unfold Files_Move, Values_Set.
    destruct albumID as [a|].
    + rewrite insert_empty, map_size_singleton.
      apply (request_unchecked c "PUT" _ None).
    + rewrite map_size_empty. apply (request_unchecked c "PUT" _ None).
  - intros fileIDs albumID.
    apply (request_unchecked c "PUT" _ (Some (Any (mkMoveManyBody fileIDs albumID)))).
  - intros fileID. apply (request_unchecked c "POST" _ None).
  - intros fileIDs.
    apply (request_unchecked c "POST" _ (Some (Any (mkFileIDsBody fileIDs)))).
  - intros fileID. apply (request_unchecked c "DELETE" _ None).
Qed.

End Identifiers.

Section TransportErrors.
Context `{Platform}.
Context `{!Unmarshaler errResp}.

Lemma foreign_unclassified (prefix : string) (cause : error) :
  foreign cause → unclassified (Some (Errorf_w prefix cause)).
Proof.
  intros [Has His]. unfold unclassified, IsUnauthorized, IsForbidden, IsNotFound,
    IsBadRequest, IsQuotaExceeded, status_predicate. simpl.
  rewrite Has, !His. done.
Qed.

(** X1.  Every error [Client.request] returns is of one of six kinds, and
    the kind tells whether the network was reached: a body that does not
    marshal, or a request refused by [http.NewRequest] (no network call);
    a failed round trip, an unreadable response body, a status outside
    [200,300) (the classified error), or a 2xx body that does not decode
    (one network call each).  The five local kinds wrap their cause. *)
Theorem request_error_taxonomy {D} `{!Unmarshaler D} c method path body
    (result : option D) w err
    (Herr : (request c method path body result w).1.2 = Some err) :
  (∃ cause, err = Errorf_w "failed to marshal request body: " cause ∧
            no_network_call (request c method path body result) w) ∨
  (∃ cause, err = Errorf_w "failed to create request: " cause ∧
            no_network_call (request c method path body result) w) ∨
  (∃ req,
      sends (request c method path body result) w req ∧
      ((∃ cause, HTTPClient c (sent w) req = inr cause ∧
                 err = Errorf_w "request failed: " cause) ∨
       (∃ status cause,
           HTTPClient c (sent w) req = inl (mkResponse status (inr cause)) ∧
           err = Errorf_w "failed to read response body: " cause) ∨
       (∃ status respBody,
           HTTPClient c (sent w) req = inl (mkResponse status (inl respBody)) ∧
           (status < 200 ∨ 300 ≤ status) ∧
           err = parseAPIError status respBody) ∨
       (∃ status respBody dest cause,
           HTTPClient c (sent w) req = inl (mkResponse status (inl respBody)) ∧
           200 ≤ status < 300 ∧ result = Some dest ∧ respBody ≠ "" ∧
           (json_Unmarshal respBody dest).2 = Some cause ∧
           err = Errorf_w "failed to decode response: " cause))).
Proof.
  destruct (request_cases c method path body result w)
    as [(b & cause & _ & _ & Heq)|[(cause & _ & Heq)|(req & Hs & _ & Hcases)]].
  - left. exists cause. unfold no_network_call. rewrite Heq in Herr |- *.
    simpl in Herr. by simplify_eq.
  - right; left. exists cause. unfold no_network_call. rewrite Heq in Herr |- *.
    simpl in Herr. by simplify_eq.
  - right; right. exists req. split; [done|].
    destruct Hcases as [(cause & Hd & Heq)|[(status & cause & Hd & Heq)|
                        (status & respBody & Hd)]].
    + left. exists cause. rewrite Heq in Herr. simpl in Herr. by simplify_eq.
    + right; left. exists status, cause. rewrite Heq in Herr. simpl in Herr.
      by simplify_eq.
    + right; right. rewrite (request_outcome _ _ _ _ _ _ _ _ _ Hs Hd) in Herr.
      destruct ((status <? 200) || (status >=? 300)) eqn:Hout.
      * left. exists status, respBody. simpl in Herr. simplify_eq.
        split; [done|]. split; [|done].
        apply orb_true_iff in Hout. destruct Hout; [left|right]; lia.
      * apply orb_false_iff in Hout. destruct Hout.
        destruct result as [dest|]; [|done].
        destruct (len respBody >? 0) eqn:Hlen; [|done].
        simpl in Herr.
        destruct ((json_Unmarshal respBody dest).2) as [cause|] eqn:Hu; [|done].
        right. exists status, respBody, dest, cause. simpl in Herr. simplify_eq.
        repeat split; try done; try lia. by apply len_positive.
Qed.

(** X2.  [Client.request] does not classify on its own account: when the
    error it returns carries an [APIError], either a response arrived with
    that status, outside [200,300), and the error is the classifier's, or
    the [APIError] was already on the chain of the cause that the platform
    gave (marshalling, request creation, round trip, body read, decoding),
    which the error wraps. *)
Theorem classified_only_by_response {D} `{!Unmarshaler D} c method path body
    (result : option D) w err e
    (Herr : (request c method path body result w).1.2 = Some err)
    (Has : errors_As err = Some e) :
  (∃ req respBody,
      sends (request c method path body result) w req ∧
      HTTPClient c (sent w) req = inl (mkResponse (StatusCode e) (inl respBody)) ∧
      (StatusCode e < 200 ∨ 300 ≤ StatusCode e) ∧
      err = parseAPIError (StatusCode e) respBody) ∨
  (∃ prefix cause, err = Errorf_w prefix cause ∧ errors_As cause = Some e).
Proof.
  destruct (request_cases c method path body result w)
    as [(b & cause & _ & _ & Heq)|[(cause & _ & Heq)|(req & Hs & _ & Hcases)]].
  - right. rewrite Heq in Herr. simpl in Herr. simplify_eq. eauto.
  - right. rewrite Heq in Herr. simpl in Herr. simplify_eq. eauto.
  - destruct Hcases as [(cause & Hd & Heq)|[(status & cause & Hd & Heq)|
                        (status & respBody & Hd)]].
    + right. rewrite Heq in Herr. simpl in Herr. simplify_eq. eauto.
    + right. rewrite Heq in Herr. simpl in Herr. simplify_eq. eauto.
    + rewrite (request_outcome _ _ _ _ _ _ _ _ _ Hs Hd) in Herr.
      destruct ((status <? 200) || (status >=? 300)) eqn:Hout.
      * left. simpl in Herr. simplify_eq.
        destruct (parseAPIError_classified status respBody) as [message Hp].
        rewrite Hp in Has. simpl in Has. simplify_eq. simpl in *.
        exists req, respBody. repeat split; try done.
        apply orb_true_iff in Hout. destruct Hout; [left|right]; lia.
      * destruct result as [dest|]; [|done].
        destruct (len respBody >? 0); [|done]. simpl in Herr.
        destruct ((json_Unmarshal respBody dest).2) as [cause|]; [|done].
        right. simpl in Herr. simplify_eq. eauto.
Qed.

(** X3.  A round trip that fails (no connection, cancellation, timeout)
    comes back from [Client.request] as ["request failed: "] followed by
    the text of the cause, which the error wraps: [errors.As] and
    [errors.Is] see through it to the cause, the destination is left as it
    was, and when the cause is foreign to the package no status predicate
    holds. *)
Theorem round_trip_failure_is_wrapped {D} `{!Unmarshaler D} c method path body
    (result : option D) w req cause
    (Hsent : sends (request c method path body result) w req)
    (Hfail : HTTPClient c (sent w) req = inr cause) :
  let err := Errorf_w "request failed: " cause in
  (request c method path body result w).1 = (result, Some err) ∧
  Error err = "request failed: " +:+ Error cause ∧
  errors_As err = errors_As cause ∧
  (∀ s, errors_Is err s = errors_Is cause s) ∧
  (foreign cause → unclassified (Some err)).
Proof.
  simpl. split; [|split; [done|split; [done|split; [done|]]]].
  - destruct (request_cases c method path body result w)
      as [(b & cause' & _ & _ & Heq)|[(cause' & _ & Heq)|(req' & Hs & _ & Hcases)]].
    + unfold sends in Hsent. rewrite Heq in Hsent.
      by apply app_singleton_neq in Hsent.
    + unfold sends in Hsent. rewrite Heq in Hsent.
      by apply app_singleton_neq in Hsent.
    + rewrite (sends_inj _ _ _ _ Hs Hsent) in Hcases.
      destruct Hcases as [(cause' & Hd & Heq)|[(status & cause' & Hd & Heq)|
                          (status & respBody & Hd)]]; congruence.
  - apply foreign_unclassified.
Qed.

(** X4.  The body is read before the status is looked at: when the body
    of the response cannot be read, [Client.request] returns
    ["failed to read response body: "] wrapping the cause whatever the
    status, 404 included; the status is lost, and no status predicate holds
    of the error when the cause is foreign to the package. *)
Theorem unreadable_body_hides_the_status {D} `{!Unmarshaler D} c method path body
    (result : option D) w req status cause
    (Hsent : sends (request c method path body result) w req)
    (Hresp : HTTPClient c (sent w) req = inl (mkResponse status (inr cause))) :
  let err := Errorf_w "failed to read response body: " cause in
  (request c method path body result w).1 = (result, Some err) ∧
  errors_As err = errors_As cause ∧
  (foreign cause → unclassified (Some err)).
Proof.
  simpl. split; [|split; [done|apply foreign_unclassified]].
  destruct (request_cases c method path body result w)
    as [(b & cause' & _ & _ & Heq)|[(cause' & _ & Heq)|(req' & Hs & _ & Hcases)]].
  - unfold sends in Hsent. rewrite Heq in Hsent.
    by apply app_singleton_neq in Hsent.
  - unfold sends in Hsent. rewrite Heq in Hsent.
    by apply app_singleton_neq in Hsent.
  - rewrite (sends_inj _ _ _ _ Hs Hsent) in Hcases.
    destruct Hcases as [(cause' & Hd & Heq)|[(status' & cause' & Hd & Heq)|
                        (status' & respBody & Hd)]]; congruence.
Qed.

(** X5.  [Client.request] writes to the destination only when a 2xx
    response arrived with a body that is not empty: on every other path
    (local failure, failed round trip, status outside [200,300) even with a
    body that would decode, empty body) the destination is as the caller
    gave it. *)
Theorem destination_written_only_on_2xx {D} `{!Unmarshaler D} c method path body
    (dest : D) w
    (Hchanged : (request c method path body (Some dest) w).1.1 ≠ Some dest) :
  ∃ req status respBody,
    sends (request c method path body (Some dest)) w req ∧
    HTTPClient c (sent w) req = inl (mkResponse status (inl respBody)) ∧
    200 ≤ status < 300 ∧ respBody ≠ "" ∧
    (request c method path body (Some dest) w).1.1 =
      Some (json_Unmarshal respBody dest).1.
Proof.
  destruct (request_cases c method path body (Some dest) w)
    as [(b & cause & _ & _ & Heq)|[(cause & _ & Heq)|(req & Hs & _ & Hcases)]].
  - by rewrite Heq in Hchanged.
  - by rewrite Heq in Hchanged.
  - destruct Hcases as [(cause & Hd & Heq)|[(status & cause & Hd & Heq)|
                        (status & respBody & Hd)]].
    + by rewrite Heq in Hchanged.
    + by rewrite Heq in Hchanged.
    + exists req, status, respBody.
      rewrite (request_outcome _ _ _ _ _ _ _ _ _ Hs Hd) in Hchanged |- *.
      destruct ((status <? 200) || (status >=? 300)) eqn:Hout; [done|].
      apply orb_false_iff in Hout. destruct Hout.
      destruct (len respBody >? 0) eqn:Hlen; [|done].
      repeat split; try done; try lia. by apply len_positive.
Qed.

(** X6.  The client keeps nothing between calls: the request a call of
    [Client.request] sends is decided by the client and the arguments, not
    by what was sent or answered before; whether it sends one does not
    depend on the past either; and two calls in a row leave their two
    requests on the trace in the order of the calls. *)
Theorem requests_ignore_history {D1 D2} `{!Unmarshaler D1, !Unmarshaler D2}
    c method path body (result1 : option D1) (result2 : option D2) w1 req
    (Hsent : sends (request c method path body result1) w1 req) :
  (∀ w2, sends (request c method path body result2) w2 req) ∧
  (∀ (A : Type) (next : M A) req',
      sends next (request c method path body result1 w1).2 req' →
      sent ((_ ← request c method path body result1; next) w1).2 =
        sent w1 ++ [req; req']).
Proof.
  split.
  - intros w2.
    destruct (request_sends_inv _ _ _ _ _ _ _ Hsent) as (Hn & Hb & Hm & Hu & Hh).
    destruct req as [m u h bd]. simpl in *. subst m u h.
    apply request_sends; [done|].
    destruct Hb as [[-> ->]|(b & jsonBody & -> & Hj & ->)]; eauto 10.
  - intros A next req' Hnext. run_monad.
    unfold sends in *.
    destruct (request c method path body result1 w1) as [r w'].
    simpl in *. rewrite Hnext, Hsent.
    by rewrite <- app_assoc.
Qed.

End TransportErrors.

Section UploadOutcomes.
Context `{Platform}.
Context `{!Unmarshaler errResp}.
Context `{!Unmarshaler UploadResponse}.

(** The ways [uploadMultipart] ends. *)
Lemma uploadMultipart_cases c path reader filename fields w :
  (∃ cause,
      final reader = Some cause ∧
      no_network_call (uploadMultipart c path reader filename fields) w ∧
      (uploadMultipart c path reader filename fields w).1 =
        fail (Errorf_w "failed to copy file data: " cause)) ∨
  (∃ cause,
      final reader = None ∧
      http_NewRequest "POST" (BaseURL c +:+ path) = Some cause ∧
      no_network_call (uploadMultipart c path reader filename fields) w ∧
      (uploadMultipart c path reader filename fields w).1 =
        fail (Errorf_w "failed to create request: " cause)) ∨
  (∃ req,
      sends (uploadMultipart c path reader filename fields) w req ∧
      ((∃ cause,
           HTTPClient c (sent w) req = inr cause ∧
           (uploadMultipart c path reader filename fields w).1 =
             fail (Errorf_w "request failed: " cause)) ∨
       (∃ status cause,
           HTTPClient c (sent w) req = inl (mkResponse status (inr cause)) ∧
           (uploadMultipart c path reader filename fields w).1 =
             fail (Errorf_w "failed to read response body: " cause)) ∨
       (∃ status respBody,
           HTTPClient c (sent w) req = inl (mkResponse status (inl respBody))))).
Proof.
  destruct (final reader) as [cause|] eqn:Hf.
  { left. exists cause. split; [done|].
    unfold no_network_call, uploadMultipart, io_Copy, NewWriter. run_monad.
    by rewrite Hf. }
  destruct (http_NewRequest "POST" (BaseURL c +:+ path)) as [cause|] eqn:Hn.
  { right; left. exists cause. split; [done|]. split; [done|].
    unfold no_network_call, uploadMultipart, io_Copy, NewWriter, range. run_monad.
    rewrite Hf. simpl. by rewrite Hn. }
  right; right.
  pose proof (uploadMultipart_sends c path reader filename fields w Hf Hn) as Hs.
  simpl in Hs. eexists. split; [exact Hs|].
  match type of Hs with
  | sends _ _ ?r =>
      destruct (HTTPClient c (sent w) r) as [[status [respBody|cause]]|cause] eqn:Hd
  end.
  - right; right. eauto.
  - right; left. exists status, cause. split; [done|].
    unfold uploadMultipart. run_monad.
    pose proof (upload_writer w reader filename fields) as Hw.
    unfold io_Copy, NewWriter, range in *. simpl in *.
    rewrite Hf. simpl. rewrite Hw, Hn. unfold Do. simpl.
    unfold upload_header in Hd. simpl in Hd. by rewrite Hd.
  - left. exists cause. split; [done|].
    unfold uploadMultipart. run_monad.
    pose proof (upload_writer w reader filename fields) as Hw.
    unfold io_Copy, NewWriter, range in *. simpl in *.
    rewrite Hf. simpl. rewrite Hw, Hn. unfold Do. simpl.
    unfold upload_header in Hd. simpl in Hd. by rewrite Hd.
Qed.

(** X7.  [Client.uploadMultipart] returns the bytes of the response as
    they are, only after a 2xx response and whatever they are (empty, or no
    JSON at all); every error it returns is of one of five kinds: the
    stream or the request creation failed (nothing was sent), the round
    trip failed, the body could not be read, or the status was outside
    [200,300) (the classified error). *)
Theorem uploadMultipart_outcomes c path reader filename fields w :
  (∀ respBody,
      (uploadMultipart c path reader filename fields w).1 = ok respBody →
      ∃ req status,
        sends (uploadMultipart c path reader filename fields) w req ∧
        HTTPClient c (sent w) req = inl (mkResponse status (inl respBody)) ∧
        200 ≤ status < 300) ∧
  (∀ err,
      (uploadMultipart c path reader filename fields w).1 = fail err →
      (∃ cause, err = Errorf_w "failed to copy file data: " cause ∧
                final reader = Some cause ∧
                no_network_call (uploadMultipart c path reader filename fields) w) ∨
      (∃ cause, err = Errorf_w "failed to create request: " cause ∧
                no_network_call (uploadMultipart c path reader filename fields) w) ∨
      (∃ req,
          sends (uploadMultipart c path reader filename fields) w req ∧
          ((∃ cause, HTTPClient c (sent w) req = inr cause ∧
                     err = Errorf_w "request failed: " cause) ∨
           (∃ status cause,
               HTTPClient c (sent w) req = inl (mkResponse status (inr cause)) ∧
               err = Errorf_w "failed to read response body: " cause) ∨
           (∃ status respBody,
               HTTPClient c (sent w) req = inl (mkResponse status (inl respBody)) ∧
               (status < 200 ∨ 300 ≤ status) ∧
               err = parseAPIError status respBody)))).
Proof.
  destruct (uploadMultipart_cases c path reader filename fields w)
    as [(cause & Hf & Hn & Heq)|[(cause & Hf & Hc & Hn & Heq)|(req & Hs & Hcases)]].
  - split; [intros respBody Hok; congruence|].
    intros err Herr. left. exists cause. rewrite Heq in Herr. by simplify_eq.
  - split; [intros respBody Hok; congruence|].
    intros err Herr. right; left. exists cause. rewrite Heq in Herr. by simplify_eq.
  - destruct Hcases as [(cause & Hd & Heq)|[(status & cause & Hd & Heq)|
                        (status & respBody & Hd)]].
    + split; [intros respBody Hok; congruence|].
      intros err Herr. right; right. exists req. split; [done|]. left.
      exists cause. rewrite Heq in Herr. by simplify_eq.
    + split; [intros respBody Hok; congruence|].
      intros err Herr. right; right. exists req. split; [done|]. right; left.
      exists status, cause. rewrite Heq in Herr. by simplify_eq.
    + rewrite (uploadMultipart_outcome _ _ _ _ _ _ _ _ _ Hs Hd).
      destruct ((status <? 200) || (status >=? 300)) eqn:Hout.
      * apply orb_true_iff in Hout.
        split; [intros respBody' Hok; congruence|].
        intros err Herr. right; right. exists req. split; [done|]. right; right.
        exists status, respBody. simplify_eq. repeat split; try done.
        destruct Hout; [left|right]; lia.
      * apply orb_false_iff in Hout. destruct Hout.
        split; [|intros err Herr; congruence].
        intros respBody' Hok. simplify_eq. exists req, status.
        repeat split; try done; lia.
Qed.

(** X8.  A stream that breaks keeps [Files.Upload] off the network,
    whatever the options: the bytes read so far are dropped, no request is
    built, and the error is ["failed to copy file data: "] wrapping the
    error of the stream. *)
Theorem broken_stream_is_not_uploaded c reader opts w cause
    (Hbroken : final reader = Some cause) :
  (Files_Upload c reader opts w).1 =
    fail (Errorf_w "failed to copy file data: " cause) ∧
  no_network_call (Files_Upload c reader opts) w ∧
  errors_As (Errorf_w "failed to copy file data: " cause) = errors_As cause.
Proof.
  unfold no_network_call, Files_Upload, uploadMultipart, io_Copy, NewWriter.
  run_monad. by rewrite Hbroken.
Qed.

(** X9.  [Files.Upload] decodes the body of every 2xx response, the empty
    one included, where the methods on [Client.request] skip an empty body:
    on a 2xx response without body, [Files.Upload] returns what
    [json.Unmarshal] makes of no input (an error of the decoder, wrapped as
    ["failed to decode response: "]), and [Files.Delete] returns a zero
    [MessageResponse] and no error. *)
Theorem empty_2xx_body_upload_and_delete `{!Unmarshaler MessageResponse}
    c reader opts fileID w req req' status cause
    (Hupload : sends (Files_Upload c reader opts) w req)
    (Hreply : HTTPClient c (sent w) req = inl (mkResponse status (inl "")))
    (Hdelete : sends (Files_Delete c fileID) w req')
    (Hreply' : HTTPClient c (sent w) req' = inl (mkResponse status (inl "")))
    (H2xx : 200 ≤ status < 300)
    (Hjson : (json_Unmarshal "" (zero : UploadResponse)).2 = Some cause) :
  (Files_Upload c reader opts w).1 =
    fail (Errorf_w "failed to decode response: " cause) ∧
  (Files_Delete c fileID w).1 = ok zero.
Proof.
  assert ((status <? 200) || (status >=? 300) = false) as Hin.
  { apply orb_false_iff. split; lia. }
  split.
  - unfold sends in Hupload. rewrite Files_Upload_world in Hupload.
    pose proof (uploadMultipart_outcome _ _ _ _ _ _ _ _ _ Hupload Hreply) as Hout.
    rewrite Hin in Hout. unfold Files_Upload. run_monad.
    destruct (uploadMultipart _ _ _ _ _ w) as [r w']. simpl in Hout. subst r.
    destruct (json_Unmarshal "" zero) as [resp err]. simpl in Hjson. by subst err.
  - apply returning_sends in Hdelete.
    pose proof (request_outcome _ _ _ _ _ _ _ _ _ Hdelete Hreply') as Hout.
    rewrite Hin in Hout. simpl in Hout.
    unfold Files_Delete.
    rewrite (proj2 (returning_world _ w)). by rewrite Hout.
Qed.

End UploadOutcomes.

Section OneCall.
Context `{Platform}.
Context `{!Unmarshaler errResp}.
Context `{!Unmarshaler UploadResponse, !Unmarshaler MessageResponse,
          !Unmarshaler BatchDeleteResponse, !Unmarshaler RestoreResponse,
          !Unmarshaler DeleteResult, !Unmarshaler ShareLink,
          !Unmarshaler FilesListResponse, !Unmarshaler Album,
          !Unmarshaler albumsResp, !Unmarshaler Tag, !Unmarshaler (list Tag),
          !Unmarshaler SharesListResponse, !Unmarshaler SharedContent,
          !Unmarshaler TrashListResponse}.
Context `{!Marshaler fileIDsBody, !Marshaler moveManyBody,
          !Marshaler createShareBody, !Marshaler albumBody,
          !Marshaler uploadFromURLBody, !Marshaler updateShareBody,
          !Marshaler verifyBody, !Marshaler createTagBody,
          !Marshaler updateTagBody, !Marshaler tagFileBody}.

Lemma one_call_request {D} `{!Unmarshaler D} c method path body (result : option D) :
  at_most_one_call (request c method path body result).
Proof.
  intros w.
  destruct (request_cases c method path body result w)
    as [(b & cause & _ & _ & Heq)|[(cause & _ & Heq)|(req & Hs & _)]].
  - left. unfold no_network_call. by rewrite Heq.
  - left. unfold no_network_call. by rewrite Heq.
  - right. eauto.
Qed.

Lemma one_call_requestWithQuery {D} `{!Unmarshaler D} c path query
    (result : option D) :
  at_most_one_call (requestWithQuery c path query result).
Proof. unfold requestWithQuery. apply one_call_request. Qed.

Lemma one_call_uploadMultipart c path reader filename fields :
  at_most_one_call (uploadMultipart c path reader filename fields).
Proof.
  intros w.
  destruct (uploadMultipart_cases c path reader filename fields w)
    as [(cause & _ & Hn & _)|[(cause & _ & _ & Hn & _)|(req & Hs & _)]]; eauto.
Qed.

Lemma one_call_mret {A} (a : A) : at_most_one_call (mret a : M A).
Proof. intros w. by left. Qed.

(** What follows the transport in a method changes no world. *)
Lemma one_call_bind {A B} (m : M A) (k : A → M B) :
  at_most_one_call m → (∀ a w, (k a w).2 = w) → at_most_one_call (m ≫= k).
Proof.
  intros Hm Hk w. unfold no_network_call, sends. run_monad.
  destruct (Hm w) as [Hn|[req Hs]]; unfold no_network_call, sends in *;
    destruct (m w) as [a w']; simpl in *; rewrite Hk; eauto.
Qed.

Ltac one_call :=
  repeat case_match;
  first
    [ apply one_call_mret
    | apply one_call_bind;
      [ first [ apply one_call_request | apply one_call_requestWithQuery
              | apply one_call_uploadMultipart ]
      | intros; run_monad; repeat case_match; done ] ].

(** X10.  No method of the five services makes more than one network
    call, and none touches the requests made before it: there is no retry,
    no second request after an error, no request to another endpoint. *)
Theorem every_method_makes_at_most_one_call c :
  (∀ reader opts, at_most_one_call (Files_Upload c reader opts)) ∧
  (∀ imageURL, at_most_one_call (Files_UploadFromURL c imageURL)) ∧
  (∀ opts, at_most_one_call (Files_List c opts)) ∧
  (∀ opts, at_most_one_call (Files_Search c opts)) ∧
  (∀ fileID, at_most_one_call (Files_Delete c fileID)) ∧
  (∀ fileIDs, at_most_one_call (Files_BatchDelete c fileIDs)) ∧
  (∀ fileID albumID, at_most_one_call (Files_Move c fileID albumID)) ∧
  (∀ fileIDs albumID, at_most_one_call (Files_MoveMany c fileIDs albumID)) ∧
  at_most_one_call (Albums_List c) ∧
  (∀ albumID, at_most_one_call (Albums_Get c albumID)) ∧
  (∀ opts, at_most_one_call (Albums_Create c opts)) ∧
  (∀ albumID opts, at_most_one_call (Albums_Update c albumID opts)) ∧
  (∀ albumID, at_most_one_call (Albums_Delete c albumID)) ∧
  (∀ opts, at_most_one_call (Share_List c opts)) ∧
  (∀ opts, at_most_one_call (Share_Create c opts)) ∧
  (∀ shareID opts, at_most_one_call (Share_Update c shareID opts)) ∧
  (∀ shareID, at_most_one_call (Share_Delete c shareID)) ∧
  (∀ token, at_most_one_call (Share_Access c token)) ∧
  (∀ token password, at_most_one_call (Share_VerifyPassword c token password)) ∧
  at_most_one_call (Tags_List c) ∧
  (∀ opts, at_most_one_call (Tags_Create c opts)) ∧
  (∀ tagID opts, at_most_one_call (Tags_Update c tagID opts)) ∧
  (∀ tagID, at_most_one_call (Tags_Delete c tagID)) ∧
  (∀ fileID tagID, at_most_one_call (Tags_TagFile c fileID tagID)) ∧
  (∀ fileID tagID, at_most_one_call (Tags_UntagFile c fileID tagID)) ∧
  (∀ tagID opts, at_most_one_call (Tags_GetFiles c tagID opts)) ∧
  (∀ opts, at_most_one_call (Trash_List c opts)) ∧
  (∀ fileID, at_most_one_call (Trash_Restore c fileID)) ∧
  (∀ fileIDs, at_most_one_call (Trash_RestoreMany c fileIDs)) ∧
  (∀ fileID, at_most_one_call (Trash_PermanentDelete c fileID)) ∧
  at_most_one_call (Trash_Empty c).
Proof.
  repeat split; intros;
    unfold Files_Upload, Files_UploadFromURL, Files_List, Files_Search,
      Files_Delete, Files_BatchDelete, Files_Move, Files_MoveMany, Albums_List,
      Albums_Get, Albums_Create, Albums_Update, Albums_Delete, Share_List,
      Share_Create, Share_Update, Share_Delete, Share_Access,
      Share_VerifyPassword, Tags_List, Tags_Create, Tags_Update, Tags_Delete,
      Tags_TagFile, Tags_UntagFile, Tags_GetFiles, Trash_List, Trash_Restore,
      Trash_RestoreMany, Trash_PermanentDelete, Trash_Empty;
    one_call.
Qed.

End OneCall.

Section Predicates.
Context `{Platform}.
Context `{!Unmarshaler errResp}.

Lemma wrap_all_As prefixes err : errors_As (wrap_all prefixes err) = errors_As err.
Proof. induction prefixes as [|p ps IH]; [done|]. simpl. exact IH. Qed.

Lemma wrap_all_Is prefixes err s :
  errors_Is (wrap_all prefixes err) s = errors_Is err s.
Proof. induction prefixes as [|p ps IH]; [done|]. simpl. exact IH. Qed.

(** X11.  The status predicates see through wrapping: an error returned by
    the library and wrapped by the caller with [%w], any number of times,
    satisfies exactly the predicates it satisfied before. *)
Theorem predicates_see_through_wrapping (prefixes : list string) (err : error) :
  IsUnauthorized (Some (wrap_all prefixes err)) = IsUnauthorized (Some err) ∧
  IsForbidden (Some (wrap_all prefixes err)) = IsForbidden (Some err) ∧
  IsNotFound (Some (wrap_all prefixes err)) = IsNotFound (Some err) ∧
  IsBadRequest (Some (wrap_all prefixes err)) = IsBadRequest (Some err) ∧
  IsQuotaExceeded (Some (wrap_all prefixes err)) = IsQuotaExceeded (Some err).
Proof.
  unfold IsUnauthorized, IsForbidden, IsNotFound, IsBadRequest, IsQuotaExceeded,
    status_predicate.
  rewrite wrap_all_As, !wrap_all_Is. done.
Qed.

(** X12.  Once [errors.As] finds an [APIError] on the chain of an error,
    its status code alone decides the predicates, wherever the [APIError]
    sits and whatever sentinel lies behind it; so at most one of the five
    holds, and none for a status outside 400, 401, 402, 403, 404, 413. *)
Theorem first_APIError_decides (err : error) (e : APIError)
    (Has : errors_As err = Some e) :
  status_mapping (Some err) (StatusCode e) ∧
  (predicates_holding (Some err) ≤ 1)%nat ∧
  (StatusCode e ∉ [400; 401; 402; 403; 404; 413] → unclassified (Some err)).
Proof.
  assert (∀ p s, status_predicate p s (Some err) = p (StatusCode e)) as Hp.
  { intros p s. unfold status_predicate. by rewrite Has. }
  unfold status_mapping, predicates_holding, unclassified,
    IsUnauthorized, IsForbidden, IsNotFound, IsBadRequest, IsQuotaExceeded.
  rewrite !filter_cons, filter_nil, !Hp.
  split; [|split].
  - rewrite !Is_true_true, orb_true_iff, !Z.eqb_eq. done.
  - repeat case_decide; simpl; try lia;
      repeat match goal with
             | H : _ || _ = true |- _ => apply orb_true_iff in H; destruct H
             | H : (_ =? _) = true |- _ => apply Z.eqb_eq in H
             end; lia.
  - intros Hnot. rewrite !elem_of_cons, elem_of_nil in Hnot.
    rewrite orb_false_iff, !Z.eqb_neq. repeat split; intros Heq; apply Hnot; auto 10.
Qed.

(** X13.  The classified error is not one of the sentinel errors of the
    package: [errors.Is] with a sentinel is false of every error the
    classifier makes, a 404 included, of which [IsNotFound] holds.  The
    sentinels satisfy each its own predicate and no other, and
    [ErrFileTooLarge] and [ErrInvalidFormat] none: a 413, which
    [IsQuotaExceeded] recognises, is not [ErrFileTooLarge]. *)
Theorem classified_errors_are_not_sentinels (statusCode : Z) (body : bytes)
    (s : Sentinel) :
  errors_Is (parseAPIError statusCode body) s = false ∧
  IsNotFound (Some (parseAPIError 404 body)) = true ∧
  IsQuotaExceeded (Some (parseAPIError 413 body)) = true ∧
  (IsUnauthorized (Some (errSentinel s)) ↔ s = ErrUnauthorized) ∧
  (IsForbidden (Some (errSentinel s)) ↔ s = ErrForbidden) ∧
  (IsNotFound (Some (errSentinel s)) ↔ s = ErrNotFound) ∧
  (IsBadRequest (Some (errSentinel s)) ↔ s = ErrBadRequest) ∧
  (IsQuotaExceeded (Some (errSentinel s)) ↔ s = ErrQuotaExceeded) ∧
  (s = ErrFileTooLarge ∨ s = ErrInvalidFormat → unclassified (Some (errSentinel s))).
Proof.
  split; [|split; [|split]].
  - by destruct (parseAPIError_classified statusCode body) as [message ->].
  - by destruct (parseAPIError_classified 404 body) as [message ->].
  - by destruct (parseAPIError_classified 413 body) as [message ->].
  - unfold IsUnauthorized, IsForbidden, IsNotFound, IsBadRequest, IsQuotaExceeded,
      unclassified, status_predicate. simpl.
    rewrite !bool_decide_spec. repeat split; try done.
    all: match goal with Hs : _ ∨ _ |- _ => by destruct Hs as [-> | ->] end.
Qed.

End Predicates.

Section Guards.
Context `{Platform}.
Context `{!Unmarshaler errResp}.
Context `{!Unmarshaler ShareLink, !Unmarshaler FilesListResponse,
          !Unmarshaler Album, !Unmarshaler Tag}.
Context `{!Marshaler albumBody, !Marshaler updateShareBody,
          !Marshaler createTagBody, !Marshaler updateTagBody}.

Lemma with_query_size (path : string) (q : Values) :
  (if Z.of_nat (size q) >? 0 then path +:+ "?" +:+ Values_Encode q else path) =
  with_query path q.
Proof.
  unfold with_query. destruct (decide (q = ∅)) as [->|Hne].
  - by rewrite map_size_empty.
  - apply map_size_non_empty_iff in Hne.
    by assert ((Z.of_nat (size q) >? 0) = true) as -> by lia.
Qed.

(** A method that asks for one text and then calls [request]: the local
    error is returned, with the world untouched, exactly when the text is
    missing, and otherwise nothing is checked. *)
Lemma text_guard {O D} `{!Unmarshaler D, !Zero D} (get : O → string) (msg : string)
    c method (path : O → string) (body : O → option any) opts w :
  let run :=
    match opts with
    | None => mret (fail (Errorf msg))
    | Some o =>
        if decide (get o = "") then mret (fail (Errorf msg))
        else r ← request c method (path o) (body o) (Some (zero : D));
             mret (returning r)
    end in
  (missing_text get opts → run w = (fail (Errorf msg), w)) ∧
  ((run w).1 = fail (Errorf msg) → missing_text get opts) ∧
  (∀ o, opts = Some o → get o ≠ "" →
     unchecked c run w method (path o) (any_Marshal <$> body o)).
Proof.
  simpl. split; [|split].
  - intros [->|(o & -> & Hget)]; [done|]. by rewrite decide_True.
  - destruct opts as [o|]; [|by left].
    destruct (decide (get o = "")) as [Hget|Hget]; [right; eauto|].
    intros Herr. exfalso. apply (from_transport_not_local msg).
    by apply (proj1 (proj2 (request_unchecked c method (path o) (body o) w))).
  - intros o -> Hget. rewrite decide_False by done. apply request_unchecked.
Qed.

(** The same for a method that asks for options and nothing more. *)
Lemma nil_guard {O D} `{!Unmarshaler D, !Zero D} (msg : string)
    c method path (body : O → option any) opts w :
  let run :=
    match opts with
    | None => mret (fail (Errorf msg))
    | Some o =>
        r ← request c method path (body o) (Some (zero : D)); mret (returning r)
    end in
  (opts = None → run w = (fail (Errorf msg), w)) ∧
  ((run w).1 = fail (Errorf msg) → opts = None) ∧
  (∀ o, opts = Some o → unchecked c run w method path (any_Marshal <$> body o)).
Proof.
  simpl. split; [|split].
  - by intros ->.
  - destruct opts as [o|]; [|done].
    intros Herr. exfalso. apply (from_transport_not_local msg).
    by apply (proj1 (proj2 (request_unchecked c method path (body o) w))).
  - intros o ->. apply request_unchecked.
Qed.

(** X14.  [Albums.Create], [Albums.Update], [Tags.Create] and
    [Files.Search] check the one text they require, and nothing else,
    before anything is built.  On every platform: with nil options or an
    empty name (query) they return their local error and the world is
    untouched, and they return that error only then.  With the text
    present nothing is checked: once the body has marshalled and
    [http.NewRequest] accepts the URL of the call, the request goes out,
    and an error is the transport's or the server's.  [Albums.Update] asks
    for the name whatever else is to be updated, and never looks at the
    album id; [Files.Search] sends the text as [q]. *)
Theorem required_text_is_checked_first c w :
  (∀ opts,
      (missing_text CreateAlbumOptions_Name opts →
         Albums_Create c opts w = (fail (Errorf "album name is required"), w)) ∧
      ((Albums_Create c opts w).1 = fail (Errorf "album name is required") →
         missing_text CreateAlbumOptions_Name opts) ∧
      (∀ o, opts = Some o → CreateAlbumOptions_Name o ≠ "" →
         unchecked c (Albums_Create c opts) w "POST" "/api/albums"
           (Some (json_Marshal (mkAlbumBody (CreateAlbumOptions_Name o)
                                  (CreateAlbumOptions_Description o)))))) ∧
  (∀ albumID opts,
      (missing_text UpdateAlbumOptions_Name opts →
         Albums_Update c albumID opts w =
           (fail (Errorf "album name is required"), w)) ∧
      ((Albums_Update c albumID opts w).1 = fail (Errorf "album name is required") →
         missing_text UpdateAlbumOptions_Name opts) ∧
      (∀ o, opts = Some o → UpdateAlbumOptions_Name o ≠ "" →
         unchecked c (Albums_Update c albumID opts) w
           "PUT" ("/api/albums/" +:+ FormatInt albumID)
           (Some (json_Marshal (mkAlbumBody (UpdateAlbumOptions_Name o)
                                  (UpdateAlbumOptions_Description o)))))) ∧
  (∀ opts,
      (missing_text CreateTagOptions_Name opts →
         Tags_Create c opts w = (fail (Errorf "tag name is required"), w)) ∧
      ((Tags_Create c opts w).1 = fail (Errorf "tag name is required") →
         missing_text CreateTagOptions_Name opts) ∧
      (∀ o, opts = Some o → CreateTagOptions_Name o ≠ "" →
         unchecked c (Tags_Create c opts) w "POST" "/api/tags"
           (Some (json_Marshal (mkCreateTagBody (CreateTagOptions_Name o)
                                  (CreateTagOptions_Color o)))))) ∧
  (∀ opts,
      (missing_text SearchOptions_Query opts →
         Files_Search c opts w = (fail (Errorf "search query is required"), w)) ∧
      ((Files_Search c opts w).1 = fail (Errorf "search query is required") →
         missing_text SearchOptions_Query opts) ∧
      (∀ o, opts = Some o → SearchOptions_Query o ≠ "" →
         ∃ q : Values,
           q !! "q" = Some [SearchOptions_Query o] ∧
           unchecked c (Files_Search c opts) w
             "GET" ("/api/files/search" +:+ "?" +:+ Values_Encode q) None)).
Proof.
  split; [|split; [|split]].
  - intros opts.
    apply (text_guard CreateAlbumOptions_Name "album name is required" c "POST"
             (fun _ => "/api/albums")
             (fun o => Some (Any (mkAlbumBody (CreateAlbumOptions_Name o)
                                    (CreateAlbumOptions_Description o))))).
  - intros albumID opts.
    apply (text_guard UpdateAlbumOptions_Name "album name is required" c "PUT"
             (fun _ => "/api/albums/" +:+ FormatInt albumID)
             (fun o => Some (Any (mkAlbumBody (UpdateAlbumOptions_Name o)
                                    (UpdateAlbumOptions_Description o))))).
  - intros opts.
    apply (text_guard CreateTagOptions_Name "tag name is required" c "POST"
             (fun _ => "/api/tags")
             (fun o => Some (Any (mkCreateTagBody (CreateTagOptions_Name o)
                                    (CreateTagOptions_Color o))))).
  - intros opts.
    set (query := fun o : SearchOptions =>
           let query : Values := Values_Set ∅ "q" (SearchOptions_Query o) in
           let query :=
             if SearchOptions_Page o >? 0
             then Values_Set query "page" (FormatInt (SearchOptions_Page o))
             else query in
           if SearchOptions_Limit o >? 0
           then Values_Set query "limit" (FormatInt (SearchOptions_Limit o))
           else query).
    destruct (text_guard SearchOptions_Query "search query is required" c "GET"
                (fun o => if Z.of_nat (size (query o)) >? 0
                          then "/api/files/search" +:+ "?" +:+ Values_Encode (query o)
                          else "/api/files/search")
                (fun _ => None) opts w (D := FilesListResponse))
      as (Hmissing & Hlocal & Hsent).
    split; [exact Hmissing|]. split; [exact Hlocal|].
    intros o Heq Hquery. exists (query o).
    assert (query o !! "q" = Some [SearchOptions_Query o]) as Hq.
    { unfold query, Values_Set.
      destruct (SearchOptions_Page o >? 0), (SearchOptions_Limit o >? 0);
        by simplify_map_eq. }
    split; [exact Hq|].
    specialize (Hsent o Heq Hquery). rewrite with_query_size in Hsent.
    unfold with_query in Hsent. destruct (decide (query o = ∅)) as [Hempty|_].
    + rewrite Hempty in Hq. by rewrite lookup_empty in Hq.
    + exact Hsent.
Qed.

(** X15.  [Share.Update] and [Tags.Update] refuse nil options and nothing
    else.  On every platform nil options give the local error, with the
    world untouched, and that error is returned only for nil.  Options
    that set no field at all are marshalled like any other: once the body
    has marshalled and [http.NewRequest] accepts the URL of the share or
    tag, the PUT goes out with that body, and an error is the transport's
    or the server's.  A tag can be updated without a name, where an album
    cannot. *)
Theorem update_options_are_only_checked_for_nil c w :
  (∀ shareID opts,
      (opts = None →
         Share_Update c shareID opts w =
           (fail (Errorf "update options are required"), w)) ∧
      ((Share_Update c shareID opts w).1 =
         fail (Errorf "update options are required") → opts = None) ∧
      (∀ o, opts = Some o →
         unchecked c (Share_Update c shareID opts) w
           "PUT" ("/api/shares/" +:+ FormatInt shareID)
           (Some (json_Marshal (mkUpdateShareBody (UpdateShareOptions_Password o)
                                  (UpdateShareOptions_MaxViews o)
                                  (UpdateShareOptions_IsActive o)))))) ∧
  (∀ tagID opts,
      (opts = None →
         Tags_Update c tagID opts w =
           (fail (Errorf "update options are required"), w)) ∧
      ((Tags_Update c tagID opts w).1 =
         fail (Errorf "update options are required") → opts = None) ∧
      (∀ o, opts = Some o →
         unchecked c (Tags_Update c tagID opts) w
           "PUT" ("/api/tags/" +:+ FormatInt tagID)
           (Some (json_Marshal (mkUpdateTagBody (UpdateTagOptions_Name o)
                                  (UpdateTagOptions_Color o)))))).
Proof.
  split.
  - intros shareID opts.
    apply (nil_guard "update options are required" c "PUT"
             ("/api/shares/" +:+ FormatInt shareID)
             (fun o => Some (Any (mkUpdateShareBody (UpdateShareOptions_Password o)
                                    (UpdateShareOptions_MaxViews o)
                                    (UpdateShareOptions_IsActive o))))).
  - intros tagID opts.
    apply (nil_guard "update options are required" c "PUT"
             ("/api/tags/" +:+ FormatInt tagID)
             (fun o => Some (Any (mkUpdateTagBody (UpdateTagOptions_Name o)
                                    (UpdateTagOptions_Color o))))).
Qed.

End Guards.

Section Queries.
Context `{Platform}.
Context `{!Unmarshaler errResp}.
Context `{!Unmarshaler MessageResponse, !Unmarshaler FilesListResponse,
          !Unmarshaler SharesListResponse, !Unmarshaler TrashListResponse}.

(** The request of a method that ends in a GET or PUT without body, at a
    path followed by a query. *)
Lemma query_request {D} `{!Unmarshaler D, !Zero D} c method path (q : Values) w req :
  sends (r ← request c method
               (if Z.of_nat (size q) >? 0 then path +:+ "?" +:+ Values_Encode q
                else path) None (Some (zero : D));
         mret (returning r)) w req →
  Method req = method ∧ Body req = None ∧
  URL req = BaseURL c +:+ with_query path q.
Proof.
  intros Hs. apply returning_sends in Hs.
  destruct (request_sends_inv _ _ _ _ _ _ _ Hs) as (_ & Hb & Hm & Hu & _).
  rewrite with_query_size in Hu.
  destruct Hb as [[_ Hbody]|(b & jsonBody & Hnone & _)]; [done|discriminate].
Qed.

Ltac param_cases :=
  unfold positive_param, Values_Set;
  repeat match goal with
         | |- context [?n >? 0] => destruct (Z.gtb_spec n 0)
         end;
  repeat case_decide; try lia.

(** X16.  The five list methods put [page] and [limit] in the query each
    exactly when it is positive, as its decimal text; zero, a negative
    number and nil options give no parameter, and a call without any
    parameter goes to the bare path, without [?].  The request is a GET
    without body. *)
Theorem page_and_limit_are_sent_when_positive c w req :
  (∀ opts,
      sends (Files_List c opts) w req →
      ∃ q : Values,
        Method req = "GET" ∧ Body req = None ∧
        URL req = BaseURL c +:+ with_query "/api/files" q ∧
        q !! "page" = positive_param (from_option ListOptions_Page 0 opts) ∧
        q !! "limit" = positive_param (from_option ListOptions_Limit 0 opts)) ∧
  (∀ opts,
      sends (Files_Search c opts) w req →
      ∃ q : Values,
        Method req = "GET" ∧ Body req = None ∧
        URL req = BaseURL c +:+ with_query "/api/files/search" q ∧
        q !! "page" = positive_param (from_option SearchOptions_Page 0 opts) ∧
        q !! "limit" = positive_param (from_option SearchOptions_Limit 0 opts)) ∧
  (∀ opts,
      sends (Share_List c opts) w req →
      ∃ q : Values,
        Method req = "GET" ∧ Body req = None ∧
        URL req = BaseURL c +:+ with_query "/api/shares" q ∧
        q !! "page" = positive_param (from_option ShareListOptions_Page 0 opts) ∧
        q !! "limit" = positive_param (from_option ShareListOptions_Limit 0 opts) ∧
        ∀ k, k ≠ "page" → k ≠ "limit" → q !! k = None) ∧
  (∀ tagID opts,
      sends (Tags_GetFiles c tagID opts) w req →
      ∃ q : Values,
        Method req = "GET" ∧ Body req = None ∧
        URL req =
          BaseURL c +:+
          with_query ("/api/tags/" +:+ FormatInt tagID +:+ "/files") q ∧
        q !! "page" = positive_param (from_option TagFilesOptions_Page 0 opts) ∧
        q !! "limit" = positive_param (from_option TagFilesOptions_Limit 0 opts) ∧
        ∀ k, k ≠ "page" → k ≠ "limit" → q !! k = None) ∧
  (∀ opts,
      sends (Trash_List c opts) w req →
      ∃ q : Values,
        Method req = "GET" ∧ Body req = None ∧
        URL req = BaseURL c +:+ with_query "/api/trash" q ∧
        q !! "page" = positive_param (from_option TrashListOptions_Page 0 opts) ∧
        q !! "limit" = positive_param (from_option TrashListOptions_Limit 0 opts) ∧
        ∀ k, k ≠ "page" → k ≠ "limit" → q !! k = None).
Proof.
  split; [|split; [|split; [|split]]].
  - intros opts Hs. unfold Files_List, requestWithQuery in Hs.
    apply query_request in Hs as (Hm & Hb & Hu).
    eexists. split; [done|]. split; [done|]. split; [exact Hu|].
    destruct opts as [[page limit album]|]; simpl; [|by param_cases].
    destruct album; param_cases; by simplify_map_eq.
  - intros opts Hs. unfold Files_Search in Hs.
    destruct opts as [[query page limit]|]; simpl in *;
      [|unfold sends in Hs; simpl in Hs; by apply app_singleton_neq in Hs].
    destruct (decide (query = ""));
      [unfold sends in Hs; simpl in Hs; by apply app_singleton_neq in Hs|].
    unfold requestWithQuery in Hs.
    apply query_request in Hs as (Hm & Hb & Hu).
    eexists. split; [done|]. split; [done|]. split; [exact Hu|].
    param_cases; by simplify_map_eq.
  - intros opts Hs. unfold Share_List, requestWithQuery in Hs.
    apply query_request in Hs as (Hm & Hb & Hu).
    eexists. split; [done|]. split; [done|]. split; [exact Hu|].
    destruct opts as [[page limit]|]; simpl; param_cases;
      repeat split; intros; by simplify_map_eq.
  - intros tagID opts Hs. unfold Tags_GetFiles in Hs.
    apply query_request in Hs as (Hm & Hb & Hu).
    eexists. split; [done|]. split; [done|]. split; [exact Hu|].
    destruct opts as [[page limit]|]; simpl; param_cases;
      repeat split; intros; by simplify_map_eq.
  - intros opts Hs. unfold Trash_List, requestWithQuery in Hs.
    apply query_request in Hs as (Hm & Hb & Hu).
    eexists. split; [done|]. split; [done|]. split; [exact Hu|].
    destruct opts as [[page limit]|]; simpl; param_cases;
      repeat split; intros; by simplify_map_eq.
Qed.

(** X17.  An album id is sent whenever one is given, zero included, and
    left out only when it is nil: [Files.List] with album id 0 asks for the
    files without album ([album_id=0]), not for all files; [Files.Move]
    with nil is a PUT to the bare path [/api/files/{id}/move] (the file
    leaves its album), and with an id a PUT whose query is [album_id]
    alone; neither has a body.  [Files.Search] always sends its query text
    as [q], so that its URL always has a query. *)
Theorem album_id_is_sent_unless_nil c w req :
  (∀ opts,
      sends (Files_List c opts) w req →
      ∃ q : Values,
        URL req = BaseURL c +:+ with_query "/api/files" q ∧
        q !! "album_id" = (fun a => [FormatInt a]) <$> (opts ≫= ListOptions_AlbumID) ∧
        ∀ k, k ≠ "page" → k ≠ "limit" → k ≠ "album_id" → q !! k = None) ∧
  (∀ fileID albumID,
      sends (Files_Move c fileID albumID) w req →
      Method req = "PUT" ∧ Body req = None ∧
      URL req =
        BaseURL c +:+
        match albumID with
        | None => "/api/files/" +:+ FormatInt fileID +:+ "/move"
        | Some a =>
            ("/api/files/" +:+ FormatInt fileID +:+ "/move") +:+ "?" +:+
            Values_Encode {["album_id" := [FormatInt a]]}
        end) ∧
  (∀ opts,
      sends (Files_Search c opts) w req →
      ∃ o (q : Values),
        opts = Some o ∧ SearchOptions_Query o ≠ "" ∧
        URL req = BaseURL c +:+ "/api/files/search" +:+ "?" +:+ Values_Encode q ∧
        q !! "q" = Some [SearchOptions_Query o] ∧
        ∀ k, k ≠ "q" → k ≠ "page" → k ≠ "limit" → q !! k = None).
Proof.
  split; [|split].
  - intros opts Hs. unfold Files_List, requestWithQuery in Hs.
    apply query_request in Hs as (Hm & Hb & Hu).
    eexists. split; [exact Hu|].
    destruct opts as [[page limit album]|]; simpl; [|by split].
    destruct album; param_cases; split; intros; by simplify_map_eq.
  - intros fileID albumID Hs. unfold Files_Move in Hs.
    apply query_request in Hs as (Hm & Hb & Hu).
    split; [done|]. split; [done|]. rewrite Hu. f_equal.
    destruct albumID as [a|]; simpl; unfold with_query, Values_Set.
    + rewrite insert_empty. destruct (decide _) as [Hempty|]; [|done].
      apply (f_equal (fun m => m !! "album_id")) in Hempty.
      by rewrite lookup_singleton_eq in Hempty.
    + by destruct (decide _).
  - intros opts Hs. unfold Files_Search in Hs.
    destruct opts as [[query page limit]|]; simpl in *;
      [|unfold sends in Hs; simpl in Hs; by apply app_singleton_neq in Hs].
    destruct (decide (query = "")) as [|Hquery];
      [unfold sends in Hs; simpl in Hs; by apply app_singleton_neq in Hs|].
    unfold requestWithQuery in Hs.
    apply query_request in Hs as (Hm & Hb & Hu).
    eexists _, _. split; [done|]. split; [done|].
    split; [|split].
    + rewrite Hu. f_equal. unfold with_query.
      destruct (decide _) as [Hempty|]; [|done].
      apply (f_equal (fun m => m !! "q")) in Hempty. revert Hempty.
      param_cases; by simplify_map_eq.
    + param_cases; by simplify_map_eq.
    + intros k ???. param_cases; by simplify_map_eq.
Qed.

End Queries.

Section Responses.
Context `{Platform}.
Context `{!Unmarshaler errResp}.
Context `{!Unmarshaler UploadResponse, !Unmarshaler MessageResponse,
          !Unmarshaler BatchDeleteResponse, !Unmarshaler RestoreResponse,
          !Unmarshaler DeleteResult, !Unmarshaler ShareLink,
          !Unmarshaler FilesListResponse, !Unmarshaler Album,
          !Unmarshaler albumsResp, !Unmarshaler Tag, !Unmarshaler (list Tag),
          !Unmarshaler SharesListResponse, !Unmarshaler SharedContent,
          !Unmarshaler TrashListResponse}.
Context `{!Marshaler fileIDsBody, !Marshaler moveManyBody,
          !Marshaler createShareBody, !Marshaler albumBody,
          !Marshaler uploadFromURLBody, !Marshaler updateShareBody,
          !Marshaler verifyBody, !Marshaler createTagBody,
          !Marshaler updateTagBody, !Marshaler tagFileBody}.

(** The pair [request] returns for a fresh destination, as a result. *)
Lemma request_response {D} `{!Unmarshaler D, !Zero D} c method path body w
    status respBody :
  answered c (request c method path body (Some (zero : D))) w status respBody →
  returning (request c method path body (Some (zero : D)) w).1 =
    response_result status respBody.
Proof.
  intros (req & Hs & Hr). rewrite (request_outcome _ _ _ _ _ _ _ _ _ Hs Hr).
  unfold response_result, decoded, returning.
  destruct (decide (200 ≤ status < 300)) as [Hin|Hout].
  - assert ((status <? 200) || (status >=? 300) = false) as ->
      by (apply orb_false_iff; split; lia).
    destruct (decide (respBody = "")) as [->|Hne]; [done|].
    apply len_positive in Hne. rewrite Hne. simpl.
    by destruct (json_Unmarshal respBody zero) as [v [err|]].
  - assert ((status <? 200) || (status >=? 300) = true) as ->; [|done].
    apply orb_true_iff.
    destruct (Z.ltb_spec status 200); [by left|right]. lia.
Qed.

Lemma returning_response {D} `{!Unmarshaler D, !Zero D} c method path body w
    status respBody :
  answered c (r ← request c method path body (Some (zero : D));
              mret (returning r)) w status respBody →
  ((r ← request c method path body (Some (zero : D)); mret (returning r)) w).1 =
    response_result status respBody.
Proof.
  intros (req & Hs & Hr). rewrite (proj2 (returning_world _ w)).
  apply request_response. exists req. split; [|done]. by apply returning_sends.
Qed.

Ltac refused Hs :=
  destruct Hs as (? & Hs & _); unfold sends in Hs; simpl in Hs;
  by apply app_singleton_neq in Hs.

(** X18.  What the caller gets from a response is the same for every
    method built on [Client.request]: for a status outside [200,300) the
    classified error, passed up as it is (so that the predicates apply to
    what the method returns) and never a value; for a 2xx status the zero
    value when the body is empty, else the value decoded from the body, or
    the decoding error.  [Albums.List] returns the albums of the object
    decoded. *)
Theorem methods_return_what_the_response_says c w status body :
  (∀ imageURL, answered c (Files_UploadFromURL c imageURL) w status body →
      (Files_UploadFromURL c imageURL w).1 = response_result status body) ∧
  (∀ opts, answered c (Files_List c opts) w status body →
      (Files_List c opts w).1 = response_result status body) ∧
  (∀ opts, answered c (Files_Search c opts) w status body →
      (Files_Search c opts w).1 = response_result status body) ∧
  (∀ fileID, answered c (Files_Delete c fileID) w status body →
      (Files_Delete c fileID w).1 = response_result status body) ∧
  (∀ fileIDs, answered c (Files_BatchDelete c fileIDs) w status body →
      (Files_BatchDelete c fileIDs w).1 = response_result status body) ∧
  (∀ fileID albumID, answered c (Files_Move c fileID albumID) w status body →
      (Files_Move c fileID albumID w).1 = response_result status body) ∧
  (∀ fileIDs albumID, answered c (Files_MoveMany c fileIDs albumID) w status body →
      (Files_MoveMany c fileIDs albumID w).1 = response_result status body) ∧
  (answered c (Albums_List c) w status body →
      (Albums_List c w).1 =
        Result_map albumsResp_Albums (response_result status body)) ∧
  (∀ albumID, answered c (Albums_Get c albumID) w status body →
      (Albums_Get c albumID w).1 = response_result status body) ∧
  (∀ opts, answered c (Albums_Create c opts) w status body →
      (Albums_Create c opts w).1 = response_result status body) ∧
  (∀ albumID opts, answered c (Albums_Update c albumID opts) w status body →
      (Albums_Update c albumID opts w).1 = response_result status body) ∧
  (∀ albumID, answered c (Albums_Delete c albumID) w status body →
      (Albums_Delete c albumID w).1 = response_result status body) ∧
  (∀ opts, answered c (Share_List c opts) w status body →
      (Share_List c opts w).1 = response_result status body) ∧
  (∀ opts, answered c (Share_Create c opts) w status body →
      (Share_Create c opts w).1 = response_result status body) ∧
  (∀ shareID opts, answered c (Share_Update c shareID opts) w status body →
      (Share_Update c shareID opts w).1 = response_result status body) ∧
  (∀ shareID, answered c (Share_Delete c shareID) w status body →
      (Share_Delete c shareID w).1 = response_result status body) ∧
  (∀ token, answered c (Share_Access c token) w status body →
      (Share_Access c token w).1 = response_result status body) ∧
  (∀ token password,
      answered c (Share_VerifyPassword c token password) w status body →
      (Share_VerifyPassword c token password w).1 = response_result status body) ∧
  (answered c (Tags_List c) w status body →
      (Tags_List c w).1 = response_result status body) ∧
  (∀ opts, answered c (Tags_Create c opts) w status body →
      (Tags_Create c opts w).1 = response_result status body) ∧
  (∀ tagID opts, answered c (Tags_Update c tagID opts) w status body →
      (Tags_Update c tagID opts w).1 = response_result status body) ∧
  (∀ tagID, answered c (Tags_Delete c tagID) w status body →
      (Tags_Delete c tagID w).1 = response_result status body) ∧
  (∀ fileID tagID, answered c (Tags_TagFile c fileID tagID) w status body →
      (Tags_TagFile c fileID tagID w).1 = response_result status body) ∧
  (∀ fileID tagID, answered c (Tags_UntagFile c fileID tagID) w status body →
      (Tags_UntagFile c fileID tagID w).1 = response_result status body) ∧
  (∀ tagID opts, answered c (Tags_GetFiles c tagID opts) w status body →
      (Tags_GetFiles c tagID opts w).1 = response_result status body) ∧
  (∀ opts, answered c (Trash_List c opts) w status body →
      (Trash_List c opts w).1 = response_result status body) ∧
  (∀ fileID, answered c (Trash_Restore c fileID) w status body →
      (Trash_Restore c fileID w).1 = response_result status body) ∧
  (∀ fileIDs, answered c (Trash_RestoreMany c fileIDs) w status body →
      (Trash_RestoreMany c fileIDs w).1 = response_result status body) ∧
  (∀ fileID, answered c (Trash_PermanentDelete c fileID) w status body →
      (Trash_PermanentDelete c fileID w).1 = response_result status body) ∧
  (answered c (Trash_Empty c) w status body →
      (Trash_Empty c w).1 = response_result status body).
Proof.
  repeat split; intros.
  all: try (by apply returning_response).
  - revert H0. unfold Files_Search.
    destruct opts as [o|]; [|intros Hs; refused Hs].
    destruct (decide _); [intros Hs; refused Hs|]. apply returning_response.
  - destruct H0 as (req & Hs & Hr). unfold Albums_List in *.
    assert (sends (request c "GET" "/api/albums" None (Some (zero : albumsResp)))
              w req) as Hs'.
    { unfold sends in *. revert Hs. run_monad.
      destruct (request c "GET" "/api/albums" None (Some zero) w) as [[d [e|]] w'];
        done. }
    assert (answered c (request c "GET" "/api/albums" None
                          (Some (zero : albumsResp))) w status body) as Ha
      by (exists req; done).
    rewrite <- (request_response _ _ _ _ _ _ _ Ha). run_monad.
    unfold returning.
    destruct (request c "GET" "/api/albums" None (Some zero) w) as [[d [e|]] w'];
      done.
  - revert H0. unfold Albums_Create.
    destruct opts as [o|]; [|intros Hs; refused Hs].
    destruct (decide _); [intros Hs; refused Hs|]. apply returning_response.
  - revert H0. unfold Albums_Update.
    destruct opts as [o|]; [|intros Hs; refused Hs].
    destruct (decide _); [intros Hs; refused Hs|]. apply returning_response.
  - revert H0. unfold Share_Create.
    destruct opts as [o|]; [|intros Hs; refused Hs].
    destruct (_ && _); [intros Hs; refused Hs|]. apply returning_response.
  - revert H0. unfold Share_Update.
    destruct opts as [o|]; [|intros Hs; refused Hs]. apply returning_response.
  - revert H0. unfold Tags_Create.
    destruct opts as [o|]; [|intros Hs; refused Hs].
    destruct (decide _); [intros Hs; refused Hs|]. apply returning_response.
  - revert H0. unfold Tags_Update.
    destruct opts as [o|]; [|intros Hs; refused Hs]. apply returning_response.
Qed.

End Responses.

Section ShareOptions.
Context `{Platform}.
Context `{!Unmarshaler errResp}.
Context `{!Unmarshaler ShareLink}.
Context `{!Marshaler createShareBody}.

Lemma chain_snoc opts steps s : chain opts (steps ++ [s]) = step (chain opts steps) s.
Proof. unfold chain. by rewrite foldl_app. Qed.

Lemma omap_snoc {A B} (f : A → option B) (l : list A) (x : A) :
  omap f (l ++ [x]) = omap f l ++ (if f x is Some y then [y] else []).
Proof. rewrite omap_app. simpl. by destruct (f x). Qed.

(** The fields of the options after a chain of builder calls. *)
Lemma chain_fields opts steps :
  FileID (chain opts steps) = FileID opts ∧
  AlbumID (chain opts steps) = AlbumID opts ∧
  Password (chain opts steps) = default (Password opts) (last (omap password_of steps)) ∧
  ExpiresIn (chain opts steps) = default (ExpiresIn opts) (last (omap hours_of steps)) ∧
  MaxViews (chain opts steps) = default (MaxViews opts) (last (omap maxViews_of steps)).
Proof.
  induction steps as [|s steps IH] using rev_ind; [done|].
  destruct IH as (Hf & Ha & Hp & He & Hm).
  rewrite chain_snoc, !omap_snoc.
  destruct s; simpl; rewrite ?app_nil_r, ?last_snoc; done.
Qed.

(** X19.  Options made by [ShareFile] or [ShareAlbum] and any chain of
    [WithPassword], [WithExpiration] and [WithMaxViews] name exactly one
    target, the one they were made for; each setting is that of the last
    builder of its kind in the chain, or the zero value, whatever the order
    of builders of different kinds; and [Share.Create] never answers such
    options with its missing-target error. *)
Theorem built_share_options_have_one_target (id : Z) (steps : list ShareStep) c w :
  let file := chain (ShareFile id) steps in
  let album := chain (ShareAlbum id) steps in
  (FileID file = Some id ∧ AlbumID file = None ∧ exactly_one_target file) ∧
  (FileID album = None ∧ AlbumID album = Some id ∧ exactly_one_target album) ∧
  Password file = default "" (last (omap password_of steps)) ∧
  ExpiresIn file = default 0 (last (omap hours_of steps)) ∧
  MaxViews file = default 0 (last (omap maxViews_of steps)) ∧
  (Share_Create c (Some file) w).1 ≠
    fail (Errorf "either FileID or AlbumID is required") ∧
  (Share_Create c (Some album) w).1 ≠
    fail (Errorf "either FileID or AlbumID is required").
Proof.
  simpl.
  destruct (chain_fields (ShareFile id) steps) as (Hf & Ha & Hp & He & Hm).
  destruct (chain_fields (ShareAlbum id) steps) as (Hf' & Ha' & _).
  simpl in *.
  assert (∀ o, is_Some (FileID o) ∨ is_Some (AlbumID o) →
               (Share_Create c (Some o) w).1 ≠
                 fail (Errorf "either FileID or AlbumID is required")) as Hcreate.
  { intros o Htarget. unfold Share_Create.
    assert (bool_decide (FileID o = None) && bool_decide (AlbumID o = None) = false)
      as ->.
    { destruct Htarget as [[x Hx]|[x Hx]]; rewrite Hx; simpl; [done|].
      apply andb_false_r. }
    rewrite (proj2 (returning_world _ w)). unfold returning.
    destruct (request_cases c "POST" "/api/shares"
                (Some (Any (mkCreateShareBody (FileID o) (AlbumID o) (Password o)
                              (ExpiresIn o) (MaxViews o))))
                (Some (zero : ShareLink)) w)
      as [(b & cause & _ & _ & Heq)|[(cause & _ & Heq)|(req & Hs & _ & Hcases)]].
    - by rewrite Heq.
    - by rewrite Heq.
    - destruct Hcases as [(cause & Hd & Heq)|[(status & cause & Hd & Heq)|
                          (status & respBody & Hd)]].
      + by rewrite Heq.
      + by rewrite Heq.
      + rewrite (request_outcome _ _ _ _ _ _ _ _ _ Hs Hd).
        destruct (parseAPIError_classified status respBody) as [message Hp'].
        destruct ((status <? 200) || (status >=? 300)); [by rewrite Hp'|].
        destruct (len respBody >? 0); [|done]. simpl.
        by destruct ((json_Unmarshal respBody zero).2). }
  repeat split; try done.
  - left. rewrite Hf, Ha. eauto.
  - right. rewrite Hf', Ha'. eauto.
  - apply Hcreate. rewrite Hf. eauto.
  - apply Hcreate. rewrite Ha'. eauto.
Qed.

(** X21.  [ExpiresAt] is nil for zero or negative hours.  For hours up to
    2562047 it is that many hours after now.  The product of the hours and
    [time.Hour] is an [int64] of nanoseconds: from 2562048 hours (some 292
    years) up to 5124095 it wraps to a negative duration, and the expiry
    returned lies before now. *)
Theorem ExpiresAt_wraps_after_292_years (opts : CreateShareOptions) (now : Time) :
  (ExpiresIn opts ≤ 0 → ExpiresAt opts now = None) ∧
  (0 < ExpiresIn opts ≤ max_hours →
     ∃ t, ExpiresAt opts now = Some t ∧
          instant t = instant now + ExpiresIn opts * time_Hour ∧
          instant now < instant t ∧ offset t = offset now) ∧
  (max_hours < ExpiresIn opts ≤ 2 * max_hours + 1 →
     ∃ t, ExpiresAt opts now = Some t ∧
          instant t = instant now + ExpiresIn opts * time_Hour - 2 ^ 64 ∧
          instant t < instant now).
Proof.
  unfold ExpiresAt, Time_Add, wrap64, time_Hour, max_hours.
  split; [|split].
  - intros Hle. by assert ((ExpiresIn opts <=? 0) = true) as -> by lia.
  - intros Hr. assert ((ExpiresIn opts <=? 0) = false) as -> by lia.
    eexists. split; [done|]. simpl.
    rewrite Z.mod_small by lia. lia.
  - intros Hr. assert ((ExpiresIn opts <=? 0) = false) as -> by lia.
    eexists. split; [done|]. simpl.
    assert ((ExpiresIn opts * 3600000000000 + 2 ^ 63) mod 2 ^ 64 =
            ExpiresIn opts * 3600000000000 + 2 ^ 63 - 2 ^ 64) as ->.
    { symmetry. apply (Z.mod_unique _ _ 1); lia. }
    lia.
Qed.

End ShareOptions.

Section ClientConstruction.
Context `{Platform}.
Context `{!Unmarshaler errResp}.
Variable set_Timeout :
  Z -> (list Request -> Request -> Response + error)
    -> (list Request -> Request -> Response + error).
Variable zero_http_Client : list Request -> Request -> Response + error.

Lemma string_app_cons (a : ascii) (s t : string) :
  String a s +:+ t = String a (s +:+ t).
Proof. done. Qed.

Lemma string_app_length (s t : string) :
  String.length (s +:+ t) = (String.length s + String.length t)%nat.
Proof.
  induction s as [|a s IH]; [done|].
  rewrite string_app_cons. simpl. by rewrite IH.
Qed.

Lemma HasSuffix_app (s suffix : string) : HasSuffix (s +:+ suffix) suffix = true.
Proof.
  induction s as [|a s IH].
  - change ("" +:+ suffix) with suffix.
    destruct suffix; simpl; [done|]. by rewrite Ascii.eqb_refl, String.eqb_refl.
  - rewrite string_app_cons. simpl. rewrite IH. apply orb_true_r.
Qed.

Lemma slice_to_app (s t : string) : slice_to (s +:+ t) (String.length s) = s.
Proof.
  induction s as [|a s IH]; [by destruct t|].
  rewrite string_app_cons. simpl. by rewrite IH.
Qed.

Lemma TrimSuffix_app (s suffix : string) : TrimSuffix (s +:+ suffix) suffix = s.
Proof.
  unfold TrimSuffix. rewrite HasSuffix_app, string_app_length.
  replace (String.length s + String.length suffix - String.length suffix)%nat
    with (String.length s) by lia.
  apply slice_to_app.
Qed.

(** X22.  [WithBaseURL] removes one trailing slash and no more: a base
    URL given with a slash at its end is stored without it, also when
    another slash comes before; a base URL that does not end in a slash is
    stored as given; so that the URL of a request is the base and the path
    with one slash between them, whichever way the base was written.  The
    option touches nothing else. *)
Theorem WithBaseURL_trims_one_slash {D} `{!Unmarshaler D} (base : string) c
    method path body (result : option D) w req :
  BaseURL (WithBaseURL (base +:+ "/") c) = base ∧
  (HasSuffix base "/" = false → BaseURL (WithBaseURL base c) = base) ∧
  apiToken (WithBaseURL base c) = apiToken c ∧
  userAgent (WithBaseURL base c) = userAgent c ∧
  HTTPClient (WithBaseURL base c) = HTTPClient c ∧
  (sends (request (WithBaseURL (base +:+ "/") c) method path body result) w req →
     URL req = base +:+ path).
Proof.
  split; [apply TrimSuffix_app|]. split; [|repeat split].
  - intros Hno. simpl. unfold TrimSuffix. by rewrite Hno.
  - intros Hs.
    destruct (request_sends_inv _ _ _ _ _ _ _ Hs) as (_ & _ & _ & -> & _).
    simpl. by rewrite TrimSuffix_app.
Qed.

Lemma NewClient_snoc token opts opt :
  NewClient set_Timeout zero_http_Client token (opts ++ [opt]) =
  opt (NewClient set_Timeout zero_http_Client token opts).
Proof. unfold NewClient. by rewrite foldl_app. Qed.

(** X23.  No option the package provides touches the credential: the
    client [NewClient] makes from a token and any list of [WithBaseURL],
    [WithHTTPClient], [WithTimeout] and [WithUserAgent] holds that token,
    and every request it sends through [Client.request] carries
    [Authorization: Bearer] followed by that token, once. *)
Theorem options_keep_the_token {D} `{!Unmarshaler D} (token : string)
    (opts : list ClientOption) method path body (result : option D) w req
    (Hprovided : Forall (provided set_Timeout) opts) :
  let c := NewClient set_Timeout zero_http_Client token opts in
  apiToken c = token ∧
  (sends (request c method path body result) w req →
     Header_ req !! "Authorization" = Some ["Bearer " +:+ token]).
Proof.
  simpl.
  assert (apiToken (NewClient set_Timeout zero_http_Client token opts) = token)
    as Htoken.
  { induction opts as [|opt opts IH] using rev_ind; [done|].
    apply Forall_app in Hprovided as [Hopts Hopt].
    rewrite Forall_singleton in Hopt.
    rewrite NewClient_snoc. unfold provided in Hopt.
    destruct Hopt as [[b ->]|[[hc ->]|[[d ->]|[ua ->]]]]; simpl; by apply IH. }
  split; [done|]. intros Hs.
  destruct (request_sends_inv _ _ _ _ _ _ _ Hs) as (_ & _ & _ & _ & ->).
  unfold request_header. rewrite Htoken. by destruct (bool_decide _).
Qed.

(** X24.  Options apply in the order given and the last one of a kind
    wins: the base URL of the client is that of the last [WithBaseURL]
    (less its trailing slash) and its User-Agent that of the last
    [WithUserAgent], whatever options of other kinds come after; without
    such an option they are [https://f-image.com] and
    [f-image-go/1.0.0]. *)
Theorem last_option_wins (token : string) (before after : list ClientOption)
    (baseURL ua : string) :
  (Forall (keeps_BaseURL set_Timeout) after →
     BaseURL (NewClient set_Timeout zero_http_Client token
                (before ++ [WithBaseURL baseURL] ++ after)) =
       TrimSuffix baseURL "/") ∧
  (Forall (keeps_userAgent set_Timeout) after →
     userAgent (NewClient set_Timeout zero_http_Client token
                  (before ++ [WithUserAgent ua] ++ after)) = ua) ∧
  (Forall (keeps_BaseURL set_Timeout) after →
     BaseURL (NewClient set_Timeout zero_http_Client token after) =
       "https://f-image.com") ∧
  (Forall (keeps_userAgent set_Timeout) after →
     userAgent (NewClient set_Timeout zero_http_Client token after) =
       "f-image-go/1.0.0").
Proof.
  assert (∀ opts c, Forall (keeps_BaseURL set_Timeout) opts →
                    BaseURL (foldl (fun c opt => opt c) c opts) = BaseURL c) as Hbase.
  { intros opts. induction opts as [|opt opts IH]; intros c Hk; [done|].
    apply Forall_cons in Hk as [Hopt Hopts]. simpl. rewrite IH by done.
    unfold keeps_BaseURL in Hopt.
    by destruct Hopt as [[hc ->]|[[d ->]|[u ->]]]. }
  assert (∀ opts c, Forall (keeps_userAgent set_Timeout) opts →
                    userAgent (foldl (fun c opt => opt c) c opts) = userAgent c) as Hua.
  { intros opts. induction opts as [|opt opts IH]; intros c Hk; [done|].
    apply Forall_cons in Hk as [Hopt Hopts]. simpl. rewrite IH by done.
    unfold keeps_userAgent in Hopt.
    by destruct Hopt as [[b ->]|[[hc ->]|[d ->]]]. }
  unfold NewClient. repeat split; intros Hk.
  - rewrite !foldl_app. simpl. by rewrite Hbase.
  - rewrite !foldl_app. simpl. by rewrite Hua.
  - by rewrite Hbase.
  - by rewrite Hua.
Qed.

End ClientConstruction.

Section Scenarios.
Import Double.

(** The simulated 404 of the specification: [GetFiles] of a tag answers
    404 with the body [{"error":"not found"}]. *)
Lemma non_2xx_is_classified_witness :
  (404 < 200 ∨ 300 ≤ 404) ∧
  ∃ e, (request (replying 404 not_found_body) "GET" "/api/tags/3/files" None
          (Some (zero : MessageResponse)) w0).1.2 = Some (errAPI e) ∧
       StatusCode e = 404 ∧ status_mapping (Some (errAPI e)) 404.
Proof.
  split; [lia|].
  refine (proj1 (non_2xx_is_classified 404 not_found_body _)
            _ _ _ _ _ _ _ _ _ _ _).
  - lia.
  - apply request_sends; [reflexivity|]. left. done.
  - reflexivity.
Defined.

(** The same 404: the message is the [error] field of the body; a body
    that is no JSON is the message as it stands. *)
Lemma parseAPIError_message_witness :
  parseAPIError 404 not_found_body =
    errAPI (mkAPIError 404 (spec_message 404 (mkErrResp "not found" ""))) ∧
  spec_message 404 (mkErrResp "not found" "") = "not found" ∧
  parseAPIError 502 "upstream down" = errAPI (mkAPIError 502 "upstream down").
Proof.
  destruct (parseAPIError_message 404 not_found_body) as (_ & Hdecoded & _).
  destruct (Hdecoded (mkErrResp "not found" "") eq_refl) as (Hmsg & Herr & _).
  split; [exact Hmsg|]. split; [apply Herr; discriminate|].
  exact (proj1 (parseAPIError_message 502 "upstream down") zero syntax_error eq_refl).
Defined.

(** A DELETE without body and a multipart upload. *)
Lemma outgoing_headers_witness :
  (∃ req, sends (request (replying 200 "{}") "DELETE" "/api/files/7" None
                   (Some (zero : MessageResponse))) w0 req ∧
          Header_ req !! "Authorization" = Some ["Bearer fimg_live_token"] ∧
          Header_ req !! "Content-Type" = None) ∧
  (∃ req, sends (uploadMultipart (replying 200 "{}") "/api/files/upload"
                   three_bytes "a.jpg" ∅) w0 req ∧
          size (Header_ req) = 4%nat ∧
          Header_ req !! "Content-Type" =
            Some ["multipart/form-data; boundary=boundary0"]).
Proof.
  split.
  - eexists. split; [apply request_sends; [reflexivity|by left]|].
    match goal with
    | |- context [Header_ ?r] =>
        destruct (proj1 outgoing_headers MessageResponse _ (replying 200 "{}")
                    "DELETE" "/api/files/7" None (Some zero) w0 r)
          as (Hauth & _ & _ & _ & Hct & _)
    end.
    + apply request_sends; [reflexivity|by left].
    + split; [exact Hauth|]. reflexivity.
  - eexists. split; [apply uploadMultipart_sends; reflexivity|].
    match goal with
    | |- context [Header_ ?r] =>
        destruct (proj2 outgoing_headers (replying 200 "{}") "/api/files/upload"
                    three_bytes "a.jpg" ∅ w0 r)
          as (_ & Hsize & _ & _ & _ & _ & Hct & _)
    end.
    + apply uploadMultipart_sends; reflexivity.
    + split; [exact Hsize|exact (Hct eq_refl)].
Defined.

(** A 200 with an empty body, and a 200 that carries a message. *)
Lemma decode_2xx_witness :
  (request (replying 200 "") "DELETE" "/api/files/7" None
     (Some (zero : MessageResponse)) w0).1 = (Some zero, None) ∧
  (request (replying 200 (field_body "message" "moved")) "PUT" "/api/files/7/move"
     None (Some (zero : MessageResponse)) w0).1.1 =
    Some (mkMessageResponse "moved" "").
Proof.
  split.
  - refine (proj1 (decode_2xx (replying 200 "") "DELETE" "/api/files/7" None zero w0
                     _ 200 "" _ _ _) _).
    + apply request_sends; [reflexivity|by left].
    + reflexivity.
    + lia.
    + reflexivity.
  - refine (proj1 (proj2 (decode_2xx (replying 200 (field_body "message" "moved"))
                            "PUT" "/api/files/7/move" None zero w0
                            _ 200 (field_body "message" "moved") _ _ _) _)).
    + apply request_sends; [reflexivity|by left].
    + reflexivity.
    + lia.
    + discriminate.
Defined.


(** A list call with a page, and one without options. *)
Lemma requestWithQuery_is_GET_witness :
  requestWithQuery (replying 200 "{}") "/api/files" {["page" := ["2"]]}
    (Some (zero : MessageResponse)) w0 =
  request (replying 200 "{}") "GET" "/api/files?page=2" None (Some zero) w0 ∧
  requestWithQuery (replying 200 "{}") "/api/files" ∅
    (Some (zero : MessageResponse)) w0 =
  request (replying 200 "{}") "GET" "/api/files" None (Some zero) w0.
Proof.
  split.
  - etrans.
    + apply (proj1 (requestWithQuery_is_GET (replying 200 "{}") "/api/files"
                      {["page" := ["2"]]} (Some zero) w0)).
      intros Heq. apply (f_equal (fun m => m !! "page")) in Heq. discriminate.
    + reflexivity.
  - apply (proj2 (requestWithQuery_is_GET (replying 200 "{}") "/api/files"
                    ∅ (Some zero) w0)).
    reflexivity.
Defined.

(** [client.Files.Upload(ctx, file, nil)], and an upload whose options
    give a description and no filename. *)
Lemma Files_Upload_default_filename_witness :
  (∃ req,
      sends (Files_Upload (replying 200 "{}") three_bytes None) w0 req ∧
      Body req = Some (render (mkWriter "boundary0"
                         [FormFile "file" "image.jpg" "abc"] true))) ∧
  (∃ req,
      sends (Files_Upload (replying 200 "{}") three_bytes
               (Some (mkUploadOptions "" "A beautiful cat" None))) w0 req ∧
      URL req = "https://f-image.com/api/files/upload" ∧
      Body req = Some (render (mkWriter "boundary0"
                         [FormFile "file" "image.jpg" "abc";
                          FormField "description" "A beautiful cat"] true))).
Proof.
  assert (http_NewRequest "POST"
            (BaseURL (replying 200 "{}") +:+ "/api/files/upload") = None) as Hurl
    by reflexivity.
  split.
  - destruct (Files_Upload_default_filename (replying 200 "{}") three_bytes None w0
                (or_introl eq_refl) eq_refl Hurl)
      as (req & Hs & _ & _ & _ & Hbody & _).
    exists req. split; [exact Hs|]. rewrite Hbody. reflexivity.
  - destruct (Files_Upload_default_filename (replying 200 "{}") three_bytes
                (Some (mkUploadOptions "" "A beautiful cat" None)) w0
                (or_intror (ex_intro _ _ (conj eq_refl eq_refl))) eq_refl Hurl)
      as (req & Hs & _ & _ & Hu & Hbody & _).
    exists req. split; [exact Hs|]. split; [exact Hu|].
    rewrite Hbody. reflexivity.
Defined.

(** Options without target are refused; options with both a file id and an
    album id go out. *)
Lemma Share_Create_target_check_witness :
  fails_locally (Share_Create (replying 200 "{}")
                   (Some (mkCreateShareOptions None None "secret123" 24 0))) w0 ∧
  ∃ req,
    sends (Share_Create (replying 200 "{}")
             (Some (mkCreateShareOptions (Some 123) (Some 456) "" 0 0))) w0 req ∧
    Method req = "POST" ∧ URL req = "https://f-image.com/api/shares".
Proof.
  destruct (Share_Create_target_check (replying 200 "{}") w0) as [Hnone Hboth].
  split.
  - apply Hnone. right. by eexists.
  - eexists. split.
    + apply (Hboth (mkCreateShareOptions (Some 123) (Some 456) "" 0 0));
        by eauto.
    + done.
Defined.

(** C1 as the specification states it fails: options with both targets
    name no single target, and yet the call is not refused: it reaches the
    network. *)
Lemma Share_Create_both_targets_not_refused :
  let opts := mkCreateShareOptions (Some 123) (Some 456) "" 0 0 in
  ¬ exactly_one_target opts ∧
  ¬ fails_locally (Share_Create (replying 200 "{}") (Some opts)) w0.
Proof.
  split.
  - intros [[_ Ha]|[Hf _]]; discriminate.
  - intros [_ Hsilent]. vm_compute in Hsilent. discriminate.
Qed.

(** Zero identifiers and empty lists on the double: the requests go out;
    and a zero identifier behind a base URL that [http.NewRequest] refuses:
    the error is that refusal, not a complaint about the identifier. *)
Lemma file_ids_are_not_checked_witness :
  sends (Files_Delete (replying 200 "{}") 0) w0
    (mkRequest "DELETE" "https://f-image.com/api/files/0"
       (request_header (replying 200 "{}") false) None) ∧
  sends (Files_Move (replying 200 "{}") 0 (Some 0)) w0
    (mkRequest "PUT" "https://f-image.com/api/files/0/move?album_id=0"
       (request_header (replying 200 "{}") false) None) ∧
  sends (Trash_RestoreMany (replying 200 "{}") []) w0
    (mkRequest "POST" "https://f-image.com/api/trash/restore"
       (request_header (replying 200 "{}") true)
       (Some (object [key "file_ids" +:+ "[]"]))) ∧
  (∃ err, (Files_BatchDelete (replying 404 not_found_body) [] w0).1 = fail err ∧
          from_transport err) ∧
  ∃ cause,
    Files_Delete misconfigured 0 w0 =
      (fail (Errorf_w "failed to create request: " cause), w0).
Proof.
  destruct (file_ids_are_not_checked (replying 200 "{}") w0)
    as (Hdelete & _ & Hmove & _ & _ & Hrestore & _).
  split; [apply (proj1 (Hdelete 0) None); reflexivity|].
  split; [apply (proj1 (Hmove 0 (Some 0)) None); reflexivity|].
  split; [apply (proj1 (Hrestore []) (Some (object [key "file_ids" +:+ "[]"])));
          reflexivity|].
  split.
  - eexists. split; [reflexivity|].
    apply (proj1 (proj2 (proj1 (proj2 (file_ids_are_not_checked
                                         (replying 404 not_found_body) w0)) []))).
    reflexivity.
  - assert (no_network_call (Files_Delete misconfigured 0) w0) as Hsilent
      by reflexivity.
    destruct (proj2 (proj2 (proj1 (file_ids_are_not_checked misconfigured w0) 0))
                Hsilent) as [cause [[Hbody _]|[_ Hcall]]]; [discriminate|].
    exists cause. exact Hcall.
Defined.

(** C3 as the specification states it fails: a zero identifier, and an
    empty list, are not refused on the spot: the request reaches the
    network. *)
Lemma zero_id_reaches_the_network :
  ¬ fails_locally (Files_Delete (replying 200 "{}") 0) w0 ∧
  ¬ fails_locally (Files_BatchDelete (replying 200 "{}") []) w0 ∧
  ¬ fails_locally (Trash_RestoreMany (replying 200 "{}") []) w0 ∧
  ¬ fails_locally (Trash_PermanentDelete (replying 200 "{}") 0) w0.
Proof.
  repeat split; intros [_ Hsilent]; vm_compute in Hsilent; discriminate.
Qed.

(** C2.  The specification has a target album id given to [Files.Upload]
    included in the request; the code leaves it out.  The upload of the
    README, with filename, description and album id 123: the form sent has
    the file part under the filename and the description field, and
    nothing of the album id; header and URL carry none either, and the call
    is the very call made without album id. *)
Theorem Files_Upload_album_id_not_sent :
  let upload albumID :=
    Files_Upload (replying 200 "{}") three_bytes
      (Some (mkUploadOptions "my-cat.jpg" "A beautiful cat" albumID)) in
  (∃ req,
      sends (upload (Some 123)) w0 req ∧
      Body req = Some (render (mkWriter "boundary0"
                         [FormFile "file" "my-cat.jpg" "abc";
                          FormField "description" "A beautiful cat"] true)) ∧
      dom (Header_ req) =
        ({["Authorization"; "User-Agent"; "Content-Type"; "Accept"]} : gset string) ∧
      URL req = "https://f-image.com/api/files/upload") ∧
  upload (Some 123) w0 = upload None w0.
Proof.
  split.
  - eexists. repeat split; reflexivity.
  - apply (Files_Upload_ignores_AlbumID (replying 200 "{}") three_bytes
             (mkUploadOptions "my-cat.jpg" "A beautiful cat" (Some 123)) None w0).
Qed.

(** ** The further properties on the double *)

(** A cancelled call: the error is of the third kind. *)
Lemma request_error_taxonomy_witness :
  let run := request (failing canceled) "GET" "/api/albums" None
               (Some (zero : albumsResp)) in
  let err := Errorf_w "request failed: " canceled in
  (run w0).1.2 = Some err ∧
  ((∃ cause, err = Errorf_w "failed to marshal request body: " cause ∧
             no_network_call run w0) ∨
   (∃ cause, err = Errorf_w "failed to create request: " cause ∧
             no_network_call run w0) ∨
   (∃ req,
       sends run w0 req ∧
       ((∃ cause, HTTPClient (failing canceled) (sent w0) req = inr cause ∧
                  err = Errorf_w "request failed: " cause) ∨
        (∃ status cause,
            HTTPClient (failing canceled) (sent w0) req =
              inl (mkResponse status (inr cause)) ∧
            err = Errorf_w "failed to read response body: " cause) ∨
        (∃ status respBody,
            HTTPClient (failing canceled) (sent w0) req =
              inl (mkResponse status (inl respBody)) ∧
            (status < 200 ∨ 300 ≤ status) ∧
            err = parseAPIError status respBody) ∨
        (∃ status respBody dest cause,
            HTTPClient (failing canceled) (sent w0) req =
              inl (mkResponse status (inl respBody)) ∧
            200 ≤ status < 300 ∧ Some (zero : albumsResp) = Some dest ∧
            respBody ≠ "" ∧
            (json_Unmarshal respBody dest).2 = Some cause ∧
            err = Errorf_w "failed to decode response: " cause)))).
Proof.
  simpl. split; [reflexivity|].
  exact (request_error_taxonomy (failing canceled) "GET" "/api/albums" None
           (Some (zero : albumsResp)) w0 (Errorf_w "request failed: " canceled)
           eq_refl).
Defined.

(** The 404 of the tag files: the [APIError] found comes from the
    response. *)
Lemma classified_only_by_response_witness :
  let run := request (replying 404 not_found_body) "GET" "/api/tags/3/files" None
               (Some (zero : FilesListResponse)) in
  let e := mkAPIError 404 "not found" in
  (run w0).1.2 = Some (errAPI e) ∧ errors_As (errAPI e) = Some e ∧
  ((∃ req respBody,
       sends run w0 req ∧
       HTTPClient (replying 404 not_found_body) (sent w0) req =
         inl (mkResponse (StatusCode e) (inl respBody)) ∧
       (StatusCode e < 200 ∨ 300 ≤ StatusCode e) ∧
       errAPI e = parseAPIError (StatusCode e) respBody) ∨
   (∃ prefix cause, errAPI e = Errorf_w prefix cause ∧ errors_As cause = Some e)).
Proof.
  simpl. split; [reflexivity|]. split; [reflexivity|].
  exact (classified_only_by_response (replying 404 not_found_body) "GET"
           "/api/tags/3/files" None (Some (zero : FilesListResponse)) w0
           (errAPI (mkAPIError 404 "not found")) (mkAPIError 404 "not found")
           eq_refl eq_refl).
Defined.

(** A cancelled deletion. *)
Lemma round_trip_failure_is_wrapped_witness :
  ∃ req,
    sends (request (failing canceled) "DELETE" "/api/files/7" None
             (Some (zero : MessageResponse))) w0 req ∧
    HTTPClient (failing canceled) (sent w0) req = inr canceled ∧
    (request (failing canceled) "DELETE" "/api/files/7" None
       (Some (zero : MessageResponse)) w0).1 =
      (Some zero, Some (Errorf_w "request failed: " canceled)) ∧
    Error (Errorf_w "request failed: " canceled) = "request failed: context canceled" ∧
    unclassified (Some (Errorf_w "request failed: " canceled)).
Proof.
  eexists.
  match goal with
  | |- sends ?run ?w ?r ∧ _ =>
      assert (sends run w r) as Hs by (apply request_sends; [reflexivity|by left]);
      destruct (round_trip_failure_is_wrapped (failing canceled) "DELETE"
                  "/api/files/7" None (Some (zero : MessageResponse)) w0 r canceled
                  Hs eq_refl) as (Hres & Htext & _ & _ & Hforeign)
  end.
  split; [exact Hs|]. split; [reflexivity|]. split; [exact Hres|].
  split; [exact Htext|]. apply Hforeign. by split.
Defined.

(** A 404 whose body is cut: the caller cannot tell it is a 404. *)
Lemma unreadable_body_hides_the_status_witness :
  ∃ req,
    sends (request (unreadable 404 canceled) "GET" "/api/albums/9" None
             (Some (zero : Album))) w0 req ∧
    (request (unreadable 404 canceled) "GET" "/api/albums/9" None
       (Some (zero : Album)) w0).1 =
      (Some zero, Some (Errorf_w "failed to read response body: " canceled)) ∧
    IsNotFound (Some (Errorf_w "failed to read response body: " canceled)) = false.
Proof.
  eexists.
  match goal with
  | |- sends ?run ?w ?r ∧ _ =>
      assert (sends run w r) as Hs by (apply request_sends; [reflexivity|by left]);
      destruct (unreadable_body_hides_the_status (unreadable 404 canceled) "GET"
                  "/api/albums/9" None (Some (zero : Album)) w0 r 404 canceled
                  Hs eq_refl) as (Hres & _ & Hforeign)
  end.
  split; [exact Hs|]. split; [exact Hres|].
  destruct Hforeign as (_ & _ & Hnf & _); [by split|exact Hnf].
Defined.

(** An album that comes back with its name. *)
Lemma destination_written_only_on_2xx_witness :
  let run := request (replying 200 (field_body "name" "Vacation Photos 2024"))
               "GET" "/api/albums/9" None (Some (zero : Album)) in
  (run w0).1.1 ≠ Some zero ∧
  ∃ req status respBody,
    sends run w0 req ∧
    HTTPClient (replying 200 (field_body "name" "Vacation Photos 2024")) (sent w0) req
      = inl (mkResponse status (inl respBody)) ∧
    200 ≤ status < 300 ∧ respBody ≠ "" ∧
    (run w0).1.1 = Some (json_Unmarshal respBody (zero : Album)).1.
Proof.
  cbv zeta. split; [intros Heq; vm_compute in Heq; discriminate|].
  apply (destination_written_only_on_2xx
           (replying 200 (field_body "name" "Vacation Photos 2024")) "GET"
           "/api/albums/9" None (zero : Album) w0).
  intros Heq. vm_compute in Heq. discriminate.
Defined.

(** Two deletions in a row. *)
Lemma requests_ignore_history_witness :
  let delete := request (replying 200 "") "DELETE" "/api/files/7" None
                  (Some (zero : MessageResponse)) in
  let req := mkRequest "DELETE" "https://f-image.com/api/files/7"
               (request_header (replying 200 "") false) None in
  sends delete w0 req ∧
  sends delete (mkWorld [req; req] 5) req ∧
  sent ((_ ← delete; delete) w0).2 = [req; req].
Proof.
  simpl.
  assert (sends (request (replying 200 "") "DELETE" "/api/files/7" None
                   (Some (zero : MessageResponse))) w0
            (mkRequest "DELETE" "https://f-image.com/api/files/7"
               (request_header (replying 200 "") false) None)) as Hs
    by (apply request_sends; [reflexivity|by left]).
  destruct (requests_ignore_history (replying 200 "") "DELETE" "/api/files/7" None
              (Some (zero : MessageResponse)) (Some (zero : MessageResponse))
              w0 _ Hs) as [Hany Hseq].
  split; [exact Hs|]. split; [apply Hany|].
  apply (Hseq _ _ _ (Hany _)).
Defined.

(** An upload answered 200 with a text that is no JSON, and one answered
    413. *)
Lemma uploadMultipart_outcomes_witness :
  (∃ req status,
      sends (uploadMultipart (replying 200 "stored") "/api/files/upload"
               three_bytes "a.jpg" ∅) w0 req ∧
      HTTPClient (replying 200 "stored") (sent w0) req =
        inl (mkResponse status (inl "stored")) ∧
      200 ≤ status < 300) ∧
  (uploadMultipart (replying 413 "too large") "/api/files/upload" three_bytes
     "a.jpg" ∅ w0).1 = fail (errAPI (mkAPIError 413 "too large")).
Proof.
  split.
  - apply (proj1 (uploadMultipart_outcomes (replying 200 "stored")
                    "/api/files/upload" three_bytes "a.jpg" ∅ w0) "stored").
    reflexivity.
  - reflexivity.
Defined.

(** A stream that breaks after two bytes. *)
Lemma broken_stream_is_not_uploaded_witness :
  final broken_stream = Some (errString "unexpected EOF") ∧
  (Files_Upload (replying 200 "{}") broken_stream None w0).1 =
    fail (Errorf_w "failed to copy file data: " (errString "unexpected EOF")) ∧
  no_network_call (Files_Upload (replying 200 "{}") broken_stream None) w0.
Proof.
  split; [reflexivity|].
  destruct (broken_stream_is_not_uploaded (replying 200 "{}") broken_stream None w0
              (errString "unexpected EOF") eq_refl) as (Hres & Hsilent & _).
  split; [exact Hres|exact Hsilent].
Defined.

(** A 204 without body, to an upload and to a deletion. *)
Lemma empty_2xx_body_upload_and_delete_witness :
  (json_Unmarshal "" (zero : UploadResponse)).2 = Some syntax_error ∧
  (Files_Upload (replying 204 "") three_bytes None w0).1 =
    fail (Errorf_w "failed to decode response: " syntax_error) ∧
  (Files_Delete (replying 204 "") 7 w0).1 = ok zero.
Proof.
  split; [reflexivity|].
  refine (empty_2xx_body_upload_and_delete (replying 204 "") three_bytes None 7 w0
            _ _ 204 syntax_error _ eq_refl _ eq_refl _ eq_refl).
  - reflexivity.
  - reflexivity.
  - lia.
Defined.

(** A 404 that the caller wrapped, with a sentinel behind it. *)
Lemma first_APIError_decides_witness :
  let err := errWrap "load album" (errAPI (mkAPIError 404 "not found")) in
  errors_As err = Some (mkAPIError 404 "not found") ∧
  status_mapping (Some err) 404 ∧
  (predicates_holding (Some err) ≤ 1)%nat.
Proof.
  simpl. split; [reflexivity|].
  destruct (first_APIError_decides
              (errWrap "load album" (errAPI (mkAPIError 404 "not found")))
              (mkAPIError 404 "not found") eq_refl) as (Hmap & Hone & _).
  split; [exact Hmap|exact Hone].
Defined.

(** A 413 and the sentinel of the files too large. *)
Lemma classified_errors_are_not_sentinels_witness :
  errors_Is (parseAPIError 413 "too large") ErrFileTooLarge = false ∧
  unclassified (Some (errSentinel ErrFileTooLarge)).
Proof.
  destruct (classified_errors_are_not_sentinels 413 "too large" ErrFileTooLarge)
    as (His & _ & _ & _ & _ & _ & _ & _ & Hnone).
  split; [exact His|]. apply Hnone. by left.
Defined.

(** An album without a name; an album renamed, whatever its id; a tag
    created behind a base URL that [http.NewRequest] refuses; a search. *)
Lemma required_text_is_checked_first_witness :
  Albums_Create (replying 200 "{}")
    (Some (mkCreateAlbumOptions "" "Photos from our summer vacation")) w0 =
    (fail (Errorf "album name is required"), w0) ∧
  sends (Albums_Update (replying 200 "{}") 0
           (Some (mkUpdateAlbumOptions "Vacation Photos" ""))) w0
    (mkRequest "PUT" "https://f-image.com/api/albums/0"
       (request_header (replying 200 "{}") true)
       (Some (object [key "name" +:+ str "Vacation Photos"]))) ∧
  (∃ cause,
      Tags_Create misconfigured (Some (mkCreateTagOptions "nature" "")) w0 =
        (fail (Errorf_w "failed to create request: " cause), w0)) ∧
  Files_Search (replying 200 "{}") None w0 =
    (fail (Errorf "search query is required"), w0) ∧
  ∃ err,
    (Files_Search (replying 404 not_found_body)
       (Some (mkSearchOptions "cat" 0 0)) w0).1 = fail err ∧
    from_transport err.
Proof.
  destruct (required_text_is_checked_first (replying 200 "{}") w0)
    as (Hcreate & Hupdate & _ & Hsearch).
  split; [|split; [|split; [|split]]].
  - apply (proj1 (Hcreate _)). right. by eexists.
  - assert (UpdateAlbumOptions_Name (mkUpdateAlbumOptions "Vacation Photos" "") ≠ "")
      as Hname by discriminate.
    apply (proj1 (proj2 (proj2 (Hupdate 0 (Some _))) _ eq_refl Hname)
             (Some (object [key "name" +:+ str "Vacation Photos"])));
      reflexivity.
  - destruct (required_text_is_checked_first misconfigured w0) as (_ & _ & Htag & _).
    assert (CreateTagOptions_Name (mkCreateTagOptions "nature" "") ≠ "")
      as Hname by discriminate.
    assert (no_network_call
              (Tags_Create misconfigured (Some (mkCreateTagOptions "nature" ""))) w0)
      as Hsilent by reflexivity.
    destruct (proj2 (proj2 (proj2 (proj2 (Htag (Some _))) _ eq_refl Hname)) Hsilent)
      as [cause [[Hbody _]|[_ Hcall]]]; [discriminate|].
    exists cause. exact Hcall.
  - apply (proj1 (Hsearch None)). by left.
  - destruct (required_text_is_checked_first (replying 404 not_found_body) w0)
      as (_ & _ & _ & Hfound).
    assert (SearchOptions_Query (mkSearchOptions "cat" 0 0) ≠ "") as Hquery
      by discriminate.
    destruct (proj2 (proj2 (Hfound (Some _))) _ eq_refl Hquery)
      as (q & _ & _ & Herr & _).
    eexists. split; [reflexivity|]. apply Herr. reflexivity.
Defined.

(** A share update without options, and one that sets nothing. *)
Lemma update_options_are_only_checked_for_nil_witness :
  Share_Update (replying 200 "{}") 123 None w0 =
    (fail (Errorf "update options are required"), w0) ∧
  sends (Share_Update (replying 200 "{}") 123
           (Some (mkUpdateShareOptions None None None))) w0
    (mkRequest "PUT" "https://f-image.com/api/shares/123"
       (request_header (replying 200 "{}") true) (Some "{}")) ∧
  sends (Tags_Update (replying 200 "{}") 0 (Some (mkUpdateTagOptions "" ""))) w0
    (mkRequest "PUT" "https://f-image.com/api/tags/0"
       (request_header (replying 200 "{}") true) (Some "{}")).
Proof.
  destruct (update_options_are_only_checked_for_nil (replying 200 "{}") w0)
    as (Hshare & Htag).
  split; [exact (proj1 (Hshare 123 None) eq_refl)|].
  split.
  - apply (proj1 (proj2 (proj2 (Hshare 123 (Some _))) _ eq_refl) (Some "{}"));
      reflexivity.
  - apply (proj1 (proj2 (proj2 (Htag 0 (Some _))) _ eq_refl) (Some "{}"));
      reflexivity.
Defined.

(** The second page of the shares, and a trash listing with a negative
    page. *)
Lemma page_and_limit_are_sent_when_positive_witness :
  ∃ req req',
    sends (Share_List (replying 200 "{}") (Some (mkShareListOptions 2 0))) w0 req ∧
    URL req = "https://f-image.com/api/shares?page=2" ∧
    sends (Trash_List (replying 200 "{}") (Some (mkTrashListOptions (-1) 0))) w0 req' ∧
    URL req' = "https://f-image.com/api/trash".
Proof.
  eexists _, _.
  match goal with
  | |- sends ?run ?w ?r ∧ _ ∧ sends ?run' _ ?r' ∧ _ =>
      assert (sends run w r) as Hs by reflexivity;
      assert (sends run' w r') as Hs' by reflexivity;
      destruct (proj1 (proj2 (proj2 (page_and_limit_are_sent_when_positive
                                       (replying 200 "{}") w0 r))) _ Hs)
        as (q & _ & _ & Hu & Hp & Hl & Hk);
      destruct (proj2 (proj2 (proj2 (proj2 (page_and_limit_are_sent_when_positive
                                              (replying 200 "{}") w0 r')))) _ Hs')
        as (q' & _ & _ & Hu' & Hp' & Hl' & Hk')
  end.
  split; [exact Hs|]. split; [reflexivity|]. split; [exact Hs'|reflexivity].
Defined.

(** The files without album, and a file taken out of its album. *)
Lemma album_id_is_sent_unless_nil_witness :
  ∃ req req',
    sends (Files_List (replying 200 "{}") (Some (mkListOptions 0 0 (Some 0)))) w0 req ∧
    URL req = "https://f-image.com/api/files?album_id=0" ∧
    sends (Files_Move (replying 200 "{}") 456 None) w0 req' ∧
    Method req' = "PUT" ∧ Body req' = None ∧
    URL req' = "https://f-image.com/api/files/456/move".
Proof.
  eexists _, _.
  match goal with
  | |- sends ?run ?w ?r ∧ _ ∧ sends ?run' _ ?r' ∧ _ =>
      assert (sends run w r) as Hs by reflexivity;
      assert (sends run' w r') as Hs' by reflexivity;
      destruct (proj1 (proj2 (album_id_is_sent_unless_nil (replying 200 "{}") w0 r'))
                  456 None Hs') as (Hm & Hb & Hu)
  end.
  split; [exact Hs|]. split; [reflexivity|]. split; [exact Hs'|].
  split; [exact Hm|]. split; [exact Hb|exact Hu].
Defined.

(** The scenario of the specification: the files of a tag, answered 404
    with [{"error":"not found"}]. *)
Lemma methods_return_what_the_response_says_witness :
  answered (replying 404 not_found_body)
    (Tags_GetFiles (replying 404 not_found_body) 3 None) w0 404 not_found_body ∧
  (Tags_GetFiles (replying 404 not_found_body) 3 None w0).1 =
    fail (errAPI (mkAPIError 404 "not found")) ∧
  IsNotFound (Some (errAPI (mkAPIError 404 "not found"))) = true.
Proof.
  assert (answered (replying 404 not_found_body)
            (Tags_GetFiles (replying 404 not_found_body) 3 None) w0 404
            not_found_body) as Ha.
  { eexists. split; reflexivity. }
  split; [exact Ha|]. split; [|reflexivity].
  pose proof (methods_return_what_the_response_says (replying 404 not_found_body)
                w0 404 not_found_body) as Hfiles.
  do 24 apply proj2 in Hfiles. apply proj1 in Hfiles.
  rewrite (Hfiles 3 None Ha). reflexivity.
Defined.

(** A day, and three hundred years. *)
Lemma ExpiresAt_wraps_after_292_years_witness :
  let now := mkTime 63900000000000000000 0 in
  (∃ t, ExpiresAt (WithExpiration (ShareFile 1) 24) now = Some t ∧
        instant now < instant t) ∧
  (∃ t, ExpiresAt (WithExpiration (ShareFile 1) 2629800) now = Some t ∧
        instant t < instant now).
Proof.
  simpl. split.
  - destruct (proj1 (proj2 (ExpiresAt_wraps_after_292_years
                              (WithExpiration (ShareFile 1) 24)
                              (mkTime 63900000000000000000 0))))
      as (t & Ht & _ & Hafter & _); [unfold max_hours; simpl; lia|].
    exists t. split; [exact Ht|exact Hafter].
  - destruct (proj2 (proj2 (ExpiresAt_wraps_after_292_years
                              (WithExpiration (ShareFile 1) 2629800)
                              (mkTime 63900000000000000000 0))))
      as (t & Ht & _ & Hbefore); [unfold max_hours; simpl; lia|].
    exists t. split; [exact Ht|exact Hbefore].
Defined.

(** A base URL written with a slash at its end. *)
Lemma WithBaseURL_trims_one_slash_witness :
  BaseURL (WithBaseURL "https://custom-api.example.com/" (replying 200 "{}")) =
    "https://custom-api.example.com" ∧
  BaseURL (WithBaseURL "https://custom-api.example.com//" (replying 200 "{}")) =
    "https://custom-api.example.com/" ∧
  ∃ req,
    sends (request (WithBaseURL "https://custom-api.example.com/" (replying 200 "{}"))
             "GET" "/api/albums" None (Some (zero : albumsResp))) w0 req ∧
    URL req = "https://custom-api.example.com/api/albums".
Proof.
  split; [|split].
  - exact (proj1 (WithBaseURL_trims_one_slash (D := albumsResp)
                    "https://custom-api.example.com" (replying 200 "{}")
                    "GET" "/api/albums" None None w0
                    (mkRequest "" "" ∅ None))).
  - exact (proj1 (WithBaseURL_trims_one_slash (D := albumsResp)
                    "https://custom-api.example.com/" (replying 200 "{}")
                    "GET" "/api/albums" None None w0
                    (mkRequest "" "" ∅ None))).
  - eexists.
    match goal with
    | |- sends ?run ?w ?r ∧ _ =>
        assert (sends run w r) as Hs by (apply request_sends; [reflexivity|by left])
    end.
    split; [exact Hs|].
    apply (proj2 (proj2 (proj2 (proj2 (proj2
             (WithBaseURL_trims_one_slash "https://custom-api.example.com"
                (replying 200 "{}") "GET" "/api/albums" None
                (Some (zero : albumsResp)) w0 _))))) Hs).
Defined.

(** The client of the README, with a timeout and another base URL. *)
Lemma options_keep_the_token_witness :
  let opts := [WithTimeout no_timeout 60000000000;
               WithBaseURL "https://custom-api.example.com"] in
  let c := NewClient no_timeout zero_client "fimg_live_your_token_here" opts in
  Forall (provided no_timeout) opts ∧
  apiToken c = "fimg_live_your_token_here" ∧
  ∃ req,
    sends (request c "GET" "/api/albums" None (Some (zero : albumsResp))) w0 req ∧
    Header_ req !! "Authorization" = Some ["Bearer fimg_live_your_token_here"].
Proof.
  cbv zeta.
  assert (Forall (provided no_timeout)
            [WithTimeout no_timeout 60000000000;
             WithBaseURL "https://custom-api.example.com"]) as Hprovided.
  { constructor; [unfold provided; eauto 10|].
    constructor; [unfold provided; eauto 10|]. constructor. }
  split; [exact Hprovided|].
  split; [reflexivity|].
  eexists.
  match goal with
  | |- sends ?run ?w ?r ∧ _ =>
      assert (sends run w r) as Hs by (apply request_sends; [reflexivity|by left])
  end.
  split; [exact Hs|].
  exact (proj2 (options_keep_the_token no_timeout zero_client
                  "fimg_live_your_token_here" _ "GET" "/api/albums" None
                  (Some (zero : albumsResp)) w0 _ Hprovided) Hs).
Defined.

(** Two base URLs and a User-Agent between them. *)
Lemma last_option_wins_witness :
  BaseURL (NewClient no_timeout zero_client "fimg_live_token"
             ([WithBaseURL "https://one.example.com"] ++
              [WithBaseURL "https://two.example.com/"] ++
              [WithUserAgent "my-app/2.0"])) = "https://two.example.com" ∧
  userAgent (NewClient no_timeout zero_client "fimg_live_token"
               [WithTimeout no_timeout 60000000000]) = "f-image-go/1.0.0".
Proof.
  destruct (last_option_wins no_timeout zero_client "fimg_live_token"
              [WithBaseURL "https://one.example.com"] [WithUserAgent "my-app/2.0"]
              "https://two.example.com/" "") as (Hbase & _).
  destruct (last_option_wins no_timeout zero_client "fimg_live_token"
              [] [WithTimeout no_timeout 60000000000] "" "") as (_ & _ & _ & Hua).
  split.
  - rewrite Hbase; [reflexivity|].
    constructor; [unfold keeps_BaseURL; eauto 10|]. constructor.
  - apply Hua. constructor; [unfold keeps_userAgent; eauto 10|]. constructor.
Defined.

End Scenarios.
